(** * Precious Metals Bull Market Tracker API

    A shallow embedding of [src/app.py]: the request handlers
    ([get_weekly_data], [get_raw_data], [get_market_summary],
    [get_database_stats], [health_check]) and the start-up code
    ([find_sql_dump], [init_database], [get_db_connection]), together with
    the parts of the Python runtime, of werkzeug's argument parsing and of
    SQLite's query evaluation that they rely on.

    - Python [float] values are IEEE binary64 numbers: Rocq's primitive
      [float], whose operations the kernel evaluates.
    - Python [str] values are kept as their UTF-8 bytes ([string]), with
      the Unicode tables that [str.upper], [str.lower] and [int] consult.
    - The dataset store is a record of four tables, each a list of rows in
      rowid order, and read-only.  The three data handlers are given on the
      loaded tables first; the connection, whose store lacks tables when
      start-up has failed, is put in front of them afterwards. *)

From Stdlib Require Import ZArith Floats String Ascii List Lia Permutation Sorted.
From Stdlib Require OrderedTypeEx.
From stdpp Require Import gmap strings list sorting.

#[local] Open Scope string_scope.
#[local] Open Scope Z_scope.

(** ** Unicode

    Python's [str] is a sequence of code points; here a text is kept as its
    UTF-8 bytes, the form in which it arrives in the URL and in which SQLite
    stores and compares it.  What follows is the part of the Unicode
    Character Database (version 14.0.0, the one of CPython 3.11) that
    [str.upper], [str.lower] and [int] consult. *)

Module Unicode.

#[local] Open Scope N_scope.

(** *** UTF-8

    A byte that begins no well-formed sequence is kept as a value above the
    code points, so that [encode] gives it back; no [str] holds one. *)

Definition continuation (a : ascii) : option N :=
  let b := N_of_ascii a in
  if (0x80 <=? b) && (b <? 0xc0) then Some (b - 0x80) else None.

Definition stray (a : ascii) : N := 0x110000 + N_of_ascii a.

Definition two (b0 : N) (a1 : ascii) : option N :=
  c1 ← continuation a1;
  Some ((b0 - 0xc0) * 0x40 + c1).

Definition three (b0 : N) (a1 a2 : ascii) : option N :=
  c1 ← continuation a1; c2 ← continuation a2;
  let c := (b0 - 0xe0) * 0x1000 + c1 * 0x40 + c2 in
  if (0x800 <=? c) && negb ((0xd800 <=? c) && (c <=? 0xdfff)) then Some c else None.

Definition four (b0 : N) (a1 a2 a3 : ascii) : option N :=
  c1 ← continuation a1; c2 ← continuation a2; c3 ← continuation a3;
  let c := (b0 - 0xf0) * 0x40000 + c1 * 0x1000 + c2 * 0x40 + c3 in
  if (0x10000 <=? c) && (c <? 0x110000) then Some c else None.

Fixpoint decode (s : string) : list N :=
  match s with
  | EmptyString => []
  | String a0 r =>
      let b0 := N_of_ascii a0 in
      if b0 <? 0x80 then b0 :: decode r
      else if (0xc2 <=? b0) && (b0 <? 0xe0) then
        match r with
        | String a1 r1 =>
            match two b0 a1 with
            | Some c => c :: decode r1
            | None => stray a0 :: decode r
            end
        | _ => stray a0 :: decode r
        end
      else if (0xe0 <=? b0) && (b0 <? 0xf0) then
        match r with
        | String a1 (String a2 r2) =>
            match three b0 a1 a2 with
            | Some c => c :: decode r2
            | None => stray a0 :: decode r
            end
        | _ => stray a0 :: decode r
        end
      else if (0xf0 <=? b0) && (b0 <? 0xf5) then
        match r with
        | String a1 (String a2 (String a3 r3)) =>
            match four b0 a1 a2 a3 with
            | Some c => c :: decode r3
            | None => stray a0 :: decode r
            end
        | _ => stray a0 :: decode r
        end
      else stray a0 :: decode r
  end.

Definition encode_point (c : N) : list ascii :=
  ascii_of_N <$>
    (if c <? 0x80 then [c]
     else if c <? 0x800 then [0xc0 + c / 0x40; 0x80 + c mod 0x40]
     else if c <? 0x10000 then
       [0xe0 + c / 0x1000; 0x80 + c / 0x40 mod 0x40; 0x80 + c mod 0x40]
     else if c <? 0x110000 then
       [0xf0 + c / 0x40000; 0x80 + c / 0x1000 mod 0x40; 0x80 + c / 0x40 mod 0x40;
        0x80 + c mod 0x40]
     else [c - 0x110000]).

Definition encode (l : list N) : string :=
  string_of_list_ascii (l ≫= encode_point).

(** *** Tables *)

Definition in_ranges (ranges : list (N * N)) (c : N) : bool :=
  existsb (λ r, (r.1 <=? c) && (c <=? r.2)) ranges.

(** A run [(lo, hi, step, to)] of a case mapping: every [step]-th code point
    from [lo] to [hi] is mapped as far from [to] as it is from [lo]. *)
Definition in_run (c : N) (r : N * N * N * N) : bool :=
  let '(lo, hi, step, _) := r in
  (lo <=? c) && (c <=? hi) && ((c - lo) mod step =? 0).

Definition simple (runs : list (N * N * N * N)) (c : N) : N :=
  match List.find (in_run c) runs with
  | Some (lo, _, _, to) => to + (c - lo)
  | None => c
  end.

Definition special (table : list (N * list N)) (c : N) : option (list N) :=
  snd <$> List.find (λ e, e.1 =? c) table.

(** The code points with an upper-case form of one code point, in runs. *)
Definition upper_runs : list (N * N * N * N) :=
  [(0x61, 0x7a, 1, 0x41); (0xb5, 0xb5, 1, 0x39c); (0xe0, 0xf6, 1, 0xc0);
   (0xf8, 0xfe, 1, 0xd8); (0xff, 0xff, 1, 0x178); (0x101, 0x12f, 2, 0x100);
   (0x131, 0x131, 1, 0x49); (0x133, 0x137, 2, 0x132); (0x13a, 0x148, 2, 0x139);
   (0x14b, 0x177, 2, 0x14a); (0x17a, 0x17e, 2, 0x179); (0x17f, 0x17f, 1, 0x53);
   (0x180, 0x180, 1, 0x243); (0x183, 0x185, 2, 0x182); (0x188, 0x188, 1, 0x187);
   (0x18c, 0x18c, 1, 0x18b); (0x192, 0x192, 1, 0x191); (0x195, 0x195, 1, 0x1f6);
   (0x199, 0x199, 1, 0x198); (0x19a, 0x19a, 1, 0x23d); (0x19e, 0x19e, 1, 0x220);
   (0x1a1, 0x1a5, 2, 0x1a0); (0x1a8, 0x1a8, 1, 0x1a7); (0x1ad, 0x1ad, 1, 0x1ac);
   (0x1b0, 0x1b0, 1, 0x1af); (0x1b4, 0x1b6, 2, 0x1b3); (0x1b9, 0x1b9, 1, 0x1b8);
   (0x1bd, 0x1bd, 1, 0x1bc); (0x1bf, 0x1bf, 1, 0x1f7); (0x1c5, 0x1c5, 1, 0x1c4);
   (0x1c6, 0x1c6, 1, 0x1c4); (0x1c8, 0x1c8, 1, 0x1c7); (0x1c9, 0x1c9, 1, 0x1c7);
   (0x1cb, 0x1cb, 1, 0x1ca); (0x1cc, 0x1cc, 1, 0x1ca); (0x1ce, 0x1dc, 2, 0x1cd);
   (0x1dd, 0x1dd, 1, 0x18e); (0x1df, 0x1ef, 2, 0x1de); (0x1f2, 0x1f2, 1, 0x1f1);
   (0x1f3, 0x1f3, 1, 0x1f1); (0x1f5, 0x1f5, 1, 0x1f4); (0x1f9, 0x21f, 2, 0x1f8);
   (0x223, 0x233, 2, 0x222); (0x23c, 0x23c, 1, 0x23b); (0x23f, 0x240, 1, 0x2c7e);
   (0x242, 0x242, 1, 0x241); (0x247, 0x24f, 2, 0x246); (0x250, 0x250, 1, 0x2c6f);
   (0x251, 0x251, 1, 0x2c6d); (0x252, 0x252, 1, 0x2c70); (0x253, 0x253, 1, 0x181);
   (0x254, 0x254, 1, 0x186); (0x256, 0x257, 1, 0x189); (0x259, 0x259, 1, 0x18f);
   (0x25b, 0x25b, 1, 0x190); (0x25c, 0x25c, 1, 0xa7ab); (0x260, 0x260, 1, 0x193);
   (0x261, 0x261, 1, 0xa7ac); (0x263, 0x263, 1, 0x194); (0x265, 0x265, 1, 0xa78d);
   (0x266, 0x266, 1, 0xa7aa); (0x268, 0x268, 1, 0x197); (0x269, 0x269, 1, 0x196);
   (0x26a, 0x26a, 1, 0xa7ae); (0x26b, 0x26b, 1, 0x2c62); (0x26c, 0x26c, 1, 0xa7ad);
   (0x26f, 0x26f, 1, 0x19c); (0x271, 0x271, 1, 0x2c6e); (0x272, 0x272, 1, 0x19d);
   (0x275, 0x275, 1, 0x19f); (0x27d, 0x27d, 1, 0x2c64); (0x280, 0x280, 1, 0x1a6);
   (0x282, 0x282, 1, 0xa7c5); (0x283, 0x283, 1, 0x1a9); (0x287, 0x287, 1, 0xa7b1);
   (0x288, 0x288, 1, 0x1ae); (0x289, 0x289, 1, 0x244); (0x28a, 0x28b, 1, 0x1b1);
   (0x28c, 0x28c, 1, 0x245); (0x292, 0x292, 1, 0x1b7); (0x29d, 0x29d, 1, 0xa7b2);
   (0x29e, 0x29e, 1, 0xa7b0); (0x345, 0x345, 1, 0x399); (0x371, 0x373, 2, 0x370);
   (0x377, 0x377, 1, 0x376); (0x37b, 0x37d, 1, 0x3fd); (0x3ac, 0x3ac, 1, 0x386);
   (0x3ad, 0x3af, 1, 0x388); (0x3b1, 0x3c1, 1, 0x391); (0x3c2, 0x3c2, 1, 0x3a3);
   (0x3c3, 0x3cb, 1, 0x3a3); (0x3cc, 0x3cc, 1, 0x38c); (0x3cd, 0x3ce, 1, 0x38e);
   (0x3d0, 0x3d0, 1, 0x392); (0x3d1, 0x3d1, 1, 0x398); (0x3d5, 0x3d5, 1, 0x3a6);
   (0x3d6, 0x3d6, 1, 0x3a0); (0x3d7, 0x3d7, 1, 0x3cf); (0x3d9, 0x3ef, 2, 0x3d8);
   (0x3f0, 0x3f0, 1, 0x39a); (0x3f1, 0x3f1, 1, 0x3a1); (0x3f2, 0x3f2, 1, 0x3f9);
   (0x3f3, 0x3f3, 1, 0x37f); (0x3f5, 0x3f5, 1, 0x395); (0x3f8, 0x3f8, 1, 0x3f7);
   (0x3fb, 0x3fb, 1, 0x3fa); (0x430, 0x44f, 1, 0x410); (0x450, 0x45f, 1, 0x400);
   (0x461, 0x481, 2, 0x460); (0x48b, 0x4bf, 2, 0x48a); (0x4c2, 0x4ce, 2, 0x4c1);
   (0x4cf, 0x4cf, 1, 0x4c0); (0x4d1, 0x52f, 2, 0x4d0); (0x561, 0x586, 1, 0x531);
   (0x10d0, 0x10fa, 1, 0x1c90); (0x10fd, 0x10ff, 1, 0x1cbd);
   (0x13f8, 0x13fd, 1, 0x13f0); (0x1c80, 0x1c80, 1, 0x412); (0x1c81, 0x1c81, 1, 0x414);
   (0x1c82, 0x1c82, 1, 0x41e); (0x1c83, 0x1c84, 1, 0x421); (0x1c85, 0x1c85, 1, 0x422);
   (0x1c86, 0x1c86, 1, 0x42a); (0x1c87, 0x1c87, 1, 0x462); (0x1c88, 0x1c88, 1, 0xa64a);
   (0x1d79, 0x1d79, 1, 0xa77d); (0x1d7d, 0x1d7d, 1, 0x2c63);
   (0x1d8e, 0x1d8e, 1, 0xa7c6); (0x1e01, 0x1e95, 2, 0x1e00);
   (0x1e9b, 0x1e9b, 1, 0x1e60); (0x1ea1, 0x1eff, 2, 0x1ea0);
   (0x1f00, 0x1f07, 1, 0x1f08); (0x1f10, 0x1f15, 1, 0x1f18);
   (0x1f20, 0x1f27, 1, 0x1f28); (0x1f30, 0x1f37, 1, 0x1f38);
   (0x1f40, 0x1f45, 1, 0x1f48); (0x1f51, 0x1f57, 2, 0x1f59);
   (0x1f60, 0x1f67, 1, 0x1f68); (0x1f70, 0x1f71, 1, 0x1fba);
   (0x1f72, 0x1f75, 1, 0x1fc8); (0x1f76, 0x1f77, 1, 0x1fda);
   (0x1f78, 0x1f79, 1, 0x1ff8); (0x1f7a, 0x1f7b, 1, 0x1fea);
   (0x1f7c, 0x1f7d, 1, 0x1ffa); (0x1fb0, 0x1fb1, 1, 0x1fb8);
   (0x1fbe, 0x1fbe, 1, 0x399); (0x1fd0, 0x1fd1, 1, 0x1fd8);
   (0x1fe0, 0x1fe1, 1, 0x1fe8); (0x1fe5, 0x1fe5, 1, 0x1fec);
   (0x214e, 0x214e, 1, 0x2132); (0x2170, 0x217f, 1, 0x2160);
   (0x2184, 0x2184, 1, 0x2183); (0x24d0, 0x24e9, 1, 0x24b6);
   (0x2c30, 0x2c5f, 1, 0x2c00); (0x2c61, 0x2c61, 1, 0x2c60);
   (0x2c65, 0x2c65, 1, 0x23a); (0x2c66, 0x2c66, 1, 0x23e); (0x2c68, 0x2c6c, 2, 0x2c67);
   (0x2c73, 0x2c73, 1, 0x2c72); (0x2c76, 0x2c76, 1, 0x2c75);
   (0x2c81, 0x2ce3, 2, 0x2c80); (0x2cec, 0x2cee, 2, 0x2ceb);
   (0x2cf3, 0x2cf3, 1, 0x2cf2); (0x2d00, 0x2d25, 1, 0x10a0);
   (0x2d27, 0x2d27, 1, 0x10c7); (0x2d2d, 0x2d2d, 1, 0x10cd);
   (0xa641, 0xa66d, 2, 0xa640); (0xa681, 0xa69b, 2, 0xa680);
   (0xa723, 0xa72f, 2, 0xa722); (0xa733, 0xa76f, 2, 0xa732);
   (0xa77a, 0xa77c, 2, 0xa779); (0xa77f, 0xa787, 2, 0xa77e);
   (0xa78c, 0xa78c, 1, 0xa78b); (0xa791, 0xa793, 2, 0xa790);
   (0xa794, 0xa794, 1, 0xa7c4); (0xa797, 0xa7a9, 2, 0xa796);
   (0xa7b5, 0xa7c3, 2, 0xa7b4); (0xa7c8, 0xa7ca, 2, 0xa7c7);
   (0xa7d1, 0xa7d1, 1, 0xa7d0); (0xa7d7, 0xa7d9, 2, 0xa7d6);
   (0xa7f6, 0xa7f6, 1, 0xa7f5); (0xab53, 0xab53, 1, 0xa7b3);
   (0xab70, 0xabbf, 1, 0x13a0); (0xff41, 0xff5a, 1, 0xff21);
   (0x10428, 0x1044f, 1, 0x10400); (0x104d8, 0x104fb, 1, 0x104b0);
   (0x10597, 0x105a1, 1, 0x10570); (0x105a3, 0x105b1, 1, 0x1057c);
   (0x105b3, 0x105b9, 1, 0x1058c); (0x105bb, 0x105bc, 1, 0x10594);
   (0x10cc0, 0x10cf2, 1, 0x10c80); (0x118c0, 0x118df, 1, 0x118a0);
   (0x16e60, 0x16e7f, 1, 0x16e40); (0x1e922, 0x1e943, 1, 0x1e900)].

(** ... and those whose upper-case form has several. *)
Definition upper_special : list (N * list N) :=
  [(0xdf, [0x53; 0x53]); (0x149, [0x2bc; 0x4e]); (0x1f0, [0x4a; 0x30c]);
   (0x390, [0x399; 0x308; 0x301]); (0x3b0, [0x3a5; 0x308; 0x301]);
   (0x587, [0x535; 0x552]); (0x1e96, [0x48; 0x331]); (0x1e97, [0x54; 0x308]);
   (0x1e98, [0x57; 0x30a]); (0x1e99, [0x59; 0x30a]); (0x1e9a, [0x41; 0x2be]);
   (0x1f50, [0x3a5; 0x313]); (0x1f52, [0x3a5; 0x313; 0x300]);
   (0x1f54, [0x3a5; 0x313; 0x301]); (0x1f56, [0x3a5; 0x313; 0x342]);
   (0x1f80, [0x1f08; 0x399]); (0x1f81, [0x1f09; 0x399]); (0x1f82, [0x1f0a; 0x399]);
   (0x1f83, [0x1f0b; 0x399]); (0x1f84, [0x1f0c; 0x399]); (0x1f85, [0x1f0d; 0x399]);
   (0x1f86, [0x1f0e; 0x399]); (0x1f87, [0x1f0f; 0x399]); (0x1f88, [0x1f08; 0x399]);
   (0x1f89, [0x1f09; 0x399]); (0x1f8a, [0x1f0a; 0x399]); (0x1f8b, [0x1f0b; 0x399]);
   (0x1f8c, [0x1f0c; 0x399]); (0x1f8d, [0x1f0d; 0x399]); (0x1f8e, [0x1f0e; 0x399]);
   (0x1f8f, [0x1f0f; 0x399]); (0x1f90, [0x1f28; 0x399]); (0x1f91, [0x1f29; 0x399]);
   (0x1f92, [0x1f2a; 0x399]); (0x1f93, [0x1f2b; 0x399]); (0x1f94, [0x1f2c; 0x399]);
   (0x1f95, [0x1f2d; 0x399]); (0x1f96, [0x1f2e; 0x399]); (0x1f97, [0x1f2f; 0x399]);
   (0x1f98, [0x1f28; 0x399]); (0x1f99, [0x1f29; 0x399]); (0x1f9a, [0x1f2a; 0x399]);
   (0x1f9b, [0x1f2b; 0x399]); (0x1f9c, [0x1f2c; 0x399]); (0x1f9d, [0x1f2d; 0x399]);
   (0x1f9e, [0x1f2e; 0x399]); (0x1f9f, [0x1f2f; 0x399]); (0x1fa0, [0x1f68; 0x399]);
   (0x1fa1, [0x1f69; 0x399]); (0x1fa2, [0x1f6a; 0x399]); (0x1fa3, [0x1f6b; 0x399]);
   (0x1fa4, [0x1f6c; 0x399]); (0x1fa5, [0x1f6d; 0x399]); (0x1fa6, [0x1f6e; 0x399]);
   (0x1fa7, [0x1f6f; 0x399]); (0x1fa8, [0x1f68; 0x399]); (0x1fa9, [0x1f69; 0x399]);
   (0x1faa, [0x1f6a; 0x399]); (0x1fab, [0x1f6b; 0x399]); (0x1fac, [0x1f6c; 0x399]);
   (0x1fad, [0x1f6d; 0x399]); (0x1fae, [0x1f6e; 0x399]); (0x1faf, [0x1f6f; 0x399]);
   (0x1fb2, [0x1fba; 0x399]); (0x1fb3, [0x391; 0x399]); (0x1fb4, [0x386; 0x399]);
   (0x1fb6, [0x391; 0x342]); (0x1fb7, [0x391; 0x342; 0x399]); (0x1fbc, [0x391; 0x399]);
   (0x1fc2, [0x1fca; 0x399]); (0x1fc3, [0x397; 0x399]); (0x1fc4, [0x389; 0x399]);
   (0x1fc6, [0x397; 0x342]); (0x1fc7, [0x397; 0x342; 0x399]); (0x1fcc, [0x397; 0x399]);
   (0x1fd2, [0x399; 0x308; 0x300]); (0x1fd3, [0x399; 0x308; 0x301]);
   (0x1fd6, [0x399; 0x342]); (0x1fd7, [0x399; 0x308; 0x342]);
   (0x1fe2, [0x3a5; 0x308; 0x300]); (0x1fe3, [0x3a5; 0x308; 0x301]);
   (0x1fe4, [0x3a1; 0x313]); (0x1fe6, [0x3a5; 0x342]); (0x1fe7, [0x3a5; 0x308; 0x342]);
   (0x1ff2, [0x1ffa; 0x399]); (0x1ff3, [0x3a9; 0x399]); (0x1ff4, [0x38f; 0x399]);
   (0x1ff6, [0x3a9; 0x342]); (0x1ff7, [0x3a9; 0x342; 0x399]); (0x1ffc, [0x3a9; 0x399]);
   (0xfb00, [0x46; 0x46]); (0xfb01, [0x46; 0x49]); (0xfb02, [0x46; 0x4c]);
   (0xfb03, [0x46; 0x46; 0x49]); (0xfb04, [0x46; 0x46; 0x4c]); (0xfb05, [0x53; 0x54]);
   (0xfb06, [0x53; 0x54]); (0xfb13, [0x544; 0x546]); (0xfb14, [0x544; 0x535]);
   (0xfb15, [0x544; 0x53b]); (0xfb16, [0x54e; 0x546]); (0xfb17, [0x544; 0x53d])].

(** The same for the lower-case forms. *)
Definition lower_runs : list (N * N * N * N) :=
  [(0x41, 0x5a, 1, 0x61); (0xc0, 0xd6, 1, 0xe0); (0xd8, 0xde, 1, 0xf8);
   (0x100, 0x12e, 2, 0x101); (0x132, 0x136, 2, 0x133); (0x139, 0x147, 2, 0x13a);
   (0x14a, 0x176, 2, 0x14b); (0x178, 0x178, 1, 0xff); (0x179, 0x17d, 2, 0x17a);
   (0x181, 0x181, 1, 0x253); (0x182, 0x184, 2, 0x183); (0x186, 0x186, 1, 0x254);
   (0x187, 0x187, 1, 0x188); (0x189, 0x18a, 1, 0x256); (0x18b, 0x18b, 1, 0x18c);
   (0x18e, 0x18e, 1, 0x1dd); (0x18f, 0x18f, 1, 0x259); (0x190, 0x190, 1, 0x25b);
   (0x191, 0x191, 1, 0x192); (0x193, 0x193, 1, 0x260); (0x194, 0x194, 1, 0x263);
   (0x196, 0x196, 1, 0x269); (0x197, 0x197, 1, 0x268); (0x198, 0x198, 1, 0x199);
   (0x19c, 0x19c, 1, 0x26f); (0x19d, 0x19d, 1, 0x272); (0x19f, 0x19f, 1, 0x275);
   (0x1a0, 0x1a4, 2, 0x1a1); (0x1a6, 0x1a6, 1, 0x280); (0x1a7, 0x1a7, 1, 0x1a8);
   (0x1a9, 0x1a9, 1, 0x283); (0x1ac, 0x1ac, 1, 0x1ad); (0x1ae, 0x1ae, 1, 0x288);
   (0x1af, 0x1af, 1, 0x1b0); (0x1b1, 0x1b2, 1, 0x28a); (0x1b3, 0x1b5, 2, 0x1b4);
   (0x1b7, 0x1b7, 1, 0x292); (0x1b8, 0x1b8, 1, 0x1b9); (0x1bc, 0x1bc, 1, 0x1bd);
   (0x1c4, 0x1c4, 1, 0x1c6); (0x1c5, 0x1c5, 1, 0x1c6); (0x1c7, 0x1c7, 1, 0x1c9);
   (0x1c8, 0x1c8, 1, 0x1c9); (0x1ca, 0x1ca, 1, 0x1cc); (0x1cb, 0x1db, 2, 0x1cc);
   (0x1de, 0x1ee, 2, 0x1df); (0x1f1, 0x1f1, 1, 0x1f3); (0x1f2, 0x1f4, 2, 0x1f3);
   (0x1f6, 0x1f6, 1, 0x195); (0x1f7, 0x1f7, 1, 0x1bf); (0x1f8, 0x21e, 2, 0x1f9);
   (0x220, 0x220, 1, 0x19e); (0x222, 0x232, 2, 0x223); (0x23a, 0x23a, 1, 0x2c65);
   (0x23b, 0x23b, 1, 0x23c); (0x23d, 0x23d, 1, 0x19a); (0x23e, 0x23e, 1, 0x2c66);
   (0x241, 0x241, 1, 0x242); (0x243, 0x243, 1, 0x180); (0x244, 0x244, 1, 0x289);
   (0x245, 0x245, 1, 0x28c); (0x246, 0x24e, 2, 0x247); (0x370, 0x372, 2, 0x371);
   (0x376, 0x376, 1, 0x377); (0x37f, 0x37f, 1, 0x3f3); (0x386, 0x386, 1, 0x3ac);
   (0x388, 0x38a, 1, 0x3ad); (0x38c, 0x38c, 1, 0x3cc); (0x38e, 0x38f, 1, 0x3cd);
   (0x391, 0x3a1, 1, 0x3b1); (0x3a3, 0x3ab, 1, 0x3c3); (0x3cf, 0x3cf, 1, 0x3d7);
   (0x3d8, 0x3ee, 2, 0x3d9); (0x3f4, 0x3f4, 1, 0x3b8); (0x3f7, 0x3f7, 1, 0x3f8);
   (0x3f9, 0x3f9, 1, 0x3f2); (0x3fa, 0x3fa, 1, 0x3fb); (0x3fd, 0x3ff, 1, 0x37b);
   (0x400, 0x40f, 1, 0x450); (0x410, 0x42f, 1, 0x430); (0x460, 0x480, 2, 0x461);
   (0x48a, 0x4be, 2, 0x48b); (0x4c0, 0x4c0, 1, 0x4cf); (0x4c1, 0x4cd, 2, 0x4c2);
   (0x4d0, 0x52e, 2, 0x4d1); (0x531, 0x556, 1, 0x561); (0x10a0, 0x10c5, 1, 0x2d00);
   (0x10c7, 0x10c7, 1, 0x2d27); (0x10cd, 0x10cd, 1, 0x2d2d);
   (0x13a0, 0x13ef, 1, 0xab70); (0x13f0, 0x13f5, 1, 0x13f8);
   (0x1c90, 0x1cba, 1, 0x10d0); (0x1cbd, 0x1cbf, 1, 0x10fd);
   (0x1e00, 0x1e94, 2, 0x1e01); (0x1e9e, 0x1e9e, 1, 0xdf); (0x1ea0, 0x1efe, 2, 0x1ea1);
   (0x1f08, 0x1f0f, 1, 0x1f00); (0x1f18, 0x1f1d, 1, 0x1f10);
   (0x1f28, 0x1f2f, 1, 0x1f20); (0x1f38, 0x1f3f, 1, 0x1f30);
   (0x1f48, 0x1f4d, 1, 0x1f40); (0x1f59, 0x1f5f, 2, 0x1f51);
   (0x1f68, 0x1f6f, 1, 0x1f60); (0x1f88, 0x1f8f, 1, 0x1f80);
   (0x1f98, 0x1f9f, 1, 0x1f90); (0x1fa8, 0x1faf, 1, 0x1fa0);
   (0x1fb8, 0x1fb9, 1, 0x1fb0); (0x1fba, 0x1fbb, 1, 0x1f70);
   (0x1fbc, 0x1fbc, 1, 0x1fb3); (0x1fc8, 0x1fcb, 1, 0x1f72);
   (0x1fcc, 0x1fcc, 1, 0x1fc3); (0x1fd8, 0x1fd9, 1, 0x1fd0);
   (0x1fda, 0x1fdb, 1, 0x1f76); (0x1fe8, 0x1fe9, 1, 0x1fe0);
   (0x1fea, 0x1feb, 1, 0x1f7a); (0x1fec, 0x1fec, 1, 0x1fe5);
   (0x1ff8, 0x1ff9, 1, 0x1f78); (0x1ffa, 0x1ffb, 1, 0x1f7c);
   (0x1ffc, 0x1ffc, 1, 0x1ff3); (0x2126, 0x2126, 1, 0x3c9); (0x212a, 0x212a, 1, 0x6b);
   (0x212b, 0x212b, 1, 0xe5); (0x2132, 0x2132, 1, 0x214e); (0x2160, 0x216f, 1, 0x2170);
   (0x2183, 0x2183, 1, 0x2184); (0x24b6, 0x24cf, 1, 0x24d0);
   (0x2c00, 0x2c2f, 1, 0x2c30); (0x2c60, 0x2c60, 1, 0x2c61);
   (0x2c62, 0x2c62, 1, 0x26b); (0x2c63, 0x2c63, 1, 0x1d7d); (0x2c64, 0x2c64, 1, 0x27d);
   (0x2c67, 0x2c6b, 2, 0x2c68); (0x2c6d, 0x2c6d, 1, 0x251); (0x2c6e, 0x2c6e, 1, 0x271);
   (0x2c6f, 0x2c6f, 1, 0x250); (0x2c70, 0x2c70, 1, 0x252); (0x2c72, 0x2c72, 1, 0x2c73);
   (0x2c75, 0x2c75, 1, 0x2c76); (0x2c7e, 0x2c7f, 1, 0x23f);
   (0x2c80, 0x2ce2, 2, 0x2c81); (0x2ceb, 0x2ced, 2, 0x2cec);
   (0x2cf2, 0x2cf2, 1, 0x2cf3); (0xa640, 0xa66c, 2, 0xa641);
   (0xa680, 0xa69a, 2, 0xa681); (0xa722, 0xa72e, 2, 0xa723);
   (0xa732, 0xa76e, 2, 0xa733); (0xa779, 0xa77b, 2, 0xa77a);
   (0xa77d, 0xa77d, 1, 0x1d79); (0xa77e, 0xa786, 2, 0xa77f);
   (0xa78b, 0xa78b, 1, 0xa78c); (0xa78d, 0xa78d, 1, 0x265);
   (0xa790, 0xa792, 2, 0xa791); (0xa796, 0xa7a8, 2, 0xa797);
   (0xa7aa, 0xa7aa, 1, 0x266); (0xa7ab, 0xa7ab, 1, 0x25c); (0xa7ac, 0xa7ac, 1, 0x261);
   (0xa7ad, 0xa7ad, 1, 0x26c); (0xa7ae, 0xa7ae, 1, 0x26a); (0xa7b0, 0xa7b0, 1, 0x29e);
   (0xa7b1, 0xa7b1, 1, 0x287); (0xa7b2, 0xa7b2, 1, 0x29d); (0xa7b3, 0xa7b3, 1, 0xab53);
   (0xa7b4, 0xa7c2, 2, 0xa7b5); (0xa7c4, 0xa7c4, 1, 0xa794);
   (0xa7c5, 0xa7c5, 1, 0x282); (0xa7c6, 0xa7c6, 1, 0x1d8e);
   (0xa7c7, 0xa7c9, 2, 0xa7c8); (0xa7d0, 0xa7d0, 1, 0xa7d1);
   (0xa7d6, 0xa7d8, 2, 0xa7d7); (0xa7f5, 0xa7f5, 1, 0xa7f6);
   (0xff21, 0xff3a, 1, 0xff41); (0x10400, 0x10427, 1, 0x10428);
   (0x104b0, 0x104d3, 1, 0x104d8); (0x10570, 0x1057a, 1, 0x10597);
   (0x1057c, 0x1058a, 1, 0x105a3); (0x1058c, 0x10592, 1, 0x105b3);
   (0x10594, 0x10595, 1, 0x105bb); (0x10c80, 0x10cb2, 1, 0x10cc0);
   (0x118a0, 0x118bf, 1, 0x118c0); (0x16e40, 0x16e5f, 1, 0x16e60);
   (0x1e900, 0x1e921, 1, 0x1e922)].

Definition lower_special : list (N * list N) :=
  [(0x130, [0x69; 0x307])].

(** The cased code points that are not case-ignorable, and the
    case-ignorable ones: the context of a capital sigma. *)
Definition cased : list (N * N) :=
  [(0x41, 0x5a); (0x61, 0x7a); (0xaa, 0xaa); (0xb5, 0xb5); (0xba, 0xba); (0xc0, 0xd6);
   (0xd8, 0xf6); (0xf8, 0x1ba); (0x1bc, 0x1bf); (0x1c4, 0x293); (0x295, 0x2af);
   (0x370, 0x373); (0x376, 0x377); (0x37b, 0x37d); (0x37f, 0x37f); (0x386, 0x386);
   (0x388, 0x38a); (0x38c, 0x38c); (0x38e, 0x3a1); (0x3a3, 0x3f5); (0x3f7, 0x481);
   (0x48a, 0x52f); (0x531, 0x556); (0x560, 0x588); (0x10a0, 0x10c5); (0x10c7, 0x10c7);
   (0x10cd, 0x10cd); (0x10d0, 0x10fa); (0x10fd, 0x10ff); (0x13a0, 0x13f5);
   (0x13f8, 0x13fd); (0x1c80, 0x1c88); (0x1c90, 0x1cba); (0x1cbd, 0x1cbf);
   (0x1d00, 0x1d2b); (0x1d6b, 0x1d77); (0x1d79, 0x1d9a); (0x1e00, 0x1f15);
   (0x1f18, 0x1f1d); (0x1f20, 0x1f45); (0x1f48, 0x1f4d); (0x1f50, 0x1f57);
   (0x1f59, 0x1f59); (0x1f5b, 0x1f5b); (0x1f5d, 0x1f5d); (0x1f5f, 0x1f7d);
   (0x1f80, 0x1fb4); (0x1fb6, 0x1fbc); (0x1fbe, 0x1fbe); (0x1fc2, 0x1fc4);
   (0x1fc6, 0x1fcc); (0x1fd0, 0x1fd3); (0x1fd6, 0x1fdb); (0x1fe0, 0x1fec);
   (0x1ff2, 0x1ff4); (0x1ff6, 0x1ffc); (0x2102, 0x2102); (0x2107, 0x2107);
   (0x210a, 0x2113); (0x2115, 0x2115); (0x2119, 0x211d); (0x2124, 0x2124);
   (0x2126, 0x2126); (0x2128, 0x2128); (0x212a, 0x212d); (0x212f, 0x2134);
   (0x2139, 0x2139); (0x213c, 0x213f); (0x2145, 0x2149); (0x214e, 0x214e);
   (0x2160, 0x217f); (0x2183, 0x2184); (0x24b6, 0x24e9); (0x2c00, 0x2c7b);
   (0x2c7e, 0x2ce4); (0x2ceb, 0x2cee); (0x2cf2, 0x2cf3); (0x2d00, 0x2d25);
   (0x2d27, 0x2d27); (0x2d2d, 0x2d2d); (0xa640, 0xa66d); (0xa680, 0xa69b);
   (0xa722, 0xa76f); (0xa771, 0xa787); (0xa78b, 0xa78e); (0xa790, 0xa7ca);
   (0xa7d0, 0xa7d1); (0xa7d3, 0xa7d3); (0xa7d5, 0xa7d9); (0xa7f5, 0xa7f6);
   (0xa7fa, 0xa7fa); (0xab30, 0xab5a); (0xab60, 0xab68); (0xab70, 0xabbf);
   (0xfb00, 0xfb06); (0xfb13, 0xfb17); (0xff21, 0xff3a); (0xff41, 0xff5a);
   (0x10400, 0x1044f); (0x104b0, 0x104d3); (0x104d8, 0x104fb); (0x10570, 0x1057a);
   (0x1057c, 0x1058a); (0x1058c, 0x10592); (0x10594, 0x10595); (0x10597, 0x105a1);
   (0x105a3, 0x105b1); (0x105b3, 0x105b9); (0x105bb, 0x105bc); (0x10c80, 0x10cb2);
   (0x10cc0, 0x10cf2); (0x118a0, 0x118df); (0x16e40, 0x16e7f); (0x1d400, 0x1d454);
   (0x1d456, 0x1d49c); (0x1d49e, 0x1d49f); (0x1d4a2, 0x1d4a2); (0x1d4a5, 0x1d4a6);
   (0x1d4a9, 0x1d4ac); (0x1d4ae, 0x1d4b9); (0x1d4bb, 0x1d4bb); (0x1d4bd, 0x1d4c3);
   (0x1d4c5, 0x1d505); (0x1d507, 0x1d50a); (0x1d50d, 0x1d514); (0x1d516, 0x1d51c);
   (0x1d51e, 0x1d539); (0x1d53b, 0x1d53e); (0x1d540, 0x1d544); (0x1d546, 0x1d546);
   (0x1d54a, 0x1d550); (0x1d552, 0x1d6a5); (0x1d6a8, 0x1d6c0); (0x1d6c2, 0x1d6da);
   (0x1d6dc, 0x1d6fa); (0x1d6fc, 0x1d714); (0x1d716, 0x1d734); (0x1d736, 0x1d74e);
   (0x1d750, 0x1d76e); (0x1d770, 0x1d788); (0x1d78a, 0x1d7a8); (0x1d7aa, 0x1d7c2);
   (0x1d7c4, 0x1d7cb); (0x1df00, 0x1df09); (0x1df0b, 0x1df1e); (0x1e900, 0x1e943);
   (0x1f130, 0x1f149); (0x1f150, 0x1f169); (0x1f170, 0x1f189)].

Definition case_ignorable : list (N * N) :=
  [(0x27, 0x27); (0x2e, 0x2e); (0x3a, 0x3a); (0x5e, 0x5e); (0x60, 0x60); (0xa8, 0xa8);
   (0xad, 0xad); (0xaf, 0xaf); (0xb4, 0xb4); (0xb7, 0xb8); (0x2b0, 0x36f);
   (0x374, 0x375); (0x37a, 0x37a); (0x384, 0x385); (0x387, 0x387); (0x483, 0x489);
   (0x559, 0x559); (0x55f, 0x55f); (0x591, 0x5bd); (0x5bf, 0x5bf); (0x5c1, 0x5c2);
   (0x5c4, 0x5c5); (0x5c7, 0x5c7); (0x5f4, 0x5f4); (0x600, 0x605); (0x610, 0x61a);
   (0x61c, 0x61c); (0x640, 0x640); (0x64b, 0x65f); (0x670, 0x670); (0x6d6, 0x6dd);
   (0x6df, 0x6e8); (0x6ea, 0x6ed); (0x70f, 0x70f); (0x711, 0x711); (0x730, 0x74a);
   (0x7a6, 0x7b0); (0x7eb, 0x7f5); (0x7fa, 0x7fa); (0x7fd, 0x7fd); (0x816, 0x82d);
   (0x859, 0x85b); (0x888, 0x888); (0x890, 0x891); (0x898, 0x89f); (0x8c9, 0x902);
   (0x93a, 0x93a); (0x93c, 0x93c); (0x941, 0x948); (0x94d, 0x94d); (0x951, 0x957);
   (0x962, 0x963); (0x971, 0x971); (0x981, 0x981); (0x9bc, 0x9bc); (0x9c1, 0x9c4);
   (0x9cd, 0x9cd); (0x9e2, 0x9e3); (0x9fe, 0x9fe); (0xa01, 0xa02); (0xa3c, 0xa3c);
   (0xa41, 0xa42); (0xa47, 0xa48); (0xa4b, 0xa4d); (0xa51, 0xa51); (0xa70, 0xa71);
   (0xa75, 0xa75); (0xa81, 0xa82); (0xabc, 0xabc); (0xac1, 0xac5); (0xac7, 0xac8);
   (0xacd, 0xacd); (0xae2, 0xae3); (0xafa, 0xaff); (0xb01, 0xb01); (0xb3c, 0xb3c);
   (0xb3f, 0xb3f); (0xb41, 0xb44); (0xb4d, 0xb4d); (0xb55, 0xb56); (0xb62, 0xb63);
   (0xb82, 0xb82); (0xbc0, 0xbc0); (0xbcd, 0xbcd); (0xc00, 0xc00); (0xc04, 0xc04);
   (0xc3c, 0xc3c); (0xc3e, 0xc40); (0xc46, 0xc48); (0xc4a, 0xc4d); (0xc55, 0xc56);
   (0xc62, 0xc63); (0xc81, 0xc81); (0xcbc, 0xcbc); (0xcbf, 0xcbf); (0xcc6, 0xcc6);
   (0xccc, 0xccd); (0xce2, 0xce3); (0xd00, 0xd01); (0xd3b, 0xd3c); (0xd41, 0xd44);
   (0xd4d, 0xd4d); (0xd62, 0xd63); (0xd81, 0xd81); (0xdca, 0xdca); (0xdd2, 0xdd4);
   (0xdd6, 0xdd6); (0xe31, 0xe31); (0xe34, 0xe3a); (0xe46, 0xe4e); (0xeb1, 0xeb1);
   (0xeb4, 0xebc); (0xec6, 0xec6); (0xec8, 0xecd); (0xf18, 0xf19); (0xf35, 0xf35);
   (0xf37, 0xf37); (0xf39, 0xf39); (0xf71, 0xf7e); (0xf80, 0xf84); (0xf86, 0xf87);
   (0xf8d, 0xf97); (0xf99, 0xfbc); (0xfc6, 0xfc6); (0x102d, 0x1030); (0x1032, 0x1037);
   (0x1039, 0x103a); (0x103d, 0x103e); (0x1058, 0x1059); (0x105e, 0x1060);
   (0x1071, 0x1074); (0x1082, 0x1082); (0x1085, 0x1086); (0x108d, 0x108d);
   (0x109d, 0x109d); (0x10fc, 0x10fc); (0x135d, 0x135f); (0x1712, 0x1714);
   (0x1732, 0x1733); (0x1752, 0x1753); (0x1772, 0x1773); (0x17b4, 0x17b5);
   (0x17b7, 0x17bd); (0x17c6, 0x17c6); (0x17c9, 0x17d3); (0x17d7, 0x17d7);
   (0x17dd, 0x17dd); (0x180b, 0x180f); (0x1843, 0x1843); (0x1885, 0x1886);
   (0x18a9, 0x18a9); (0x1920, 0x1922); (0x1927, 0x1928); (0x1932, 0x1932);
   (0x1939, 0x193b); (0x1a17, 0x1a18); (0x1a1b, 0x1a1b); (0x1a56, 0x1a56);
   (0x1a58, 0x1a5e); (0x1a60, 0x1a60); (0x1a62, 0x1a62); (0x1a65, 0x1a6c);
   (0x1a73, 0x1a7c); (0x1a7f, 0x1a7f); (0x1aa7, 0x1aa7); (0x1ab0, 0x1ace);
   (0x1b00, 0x1b03); (0x1b34, 0x1b34); (0x1b36, 0x1b3a); (0x1b3c, 0x1b3c);
   (0x1b42, 0x1b42); (0x1b6b, 0x1b73); (0x1b80, 0x1b81); (0x1ba2, 0x1ba5);
   (0x1ba8, 0x1ba9); (0x1bab, 0x1bad); (0x1be6, 0x1be6); (0x1be8, 0x1be9);
   (0x1bed, 0x1bed); (0x1bef, 0x1bf1); (0x1c2c, 0x1c33); (0x1c36, 0x1c37);
   (0x1c78, 0x1c7d); (0x1cd0, 0x1cd2); (0x1cd4, 0x1ce0); (0x1ce2, 0x1ce8);
   (0x1ced, 0x1ced); (0x1cf4, 0x1cf4); (0x1cf8, 0x1cf9); (0x1d2c, 0x1d6a);
   (0x1d78, 0x1d78); (0x1d9b, 0x1dff); (0x1fbd, 0x1fbd); (0x1fbf, 0x1fc1);
   (0x1fcd, 0x1fcf); (0x1fdd, 0x1fdf); (0x1fed, 0x1fef); (0x1ffd, 0x1ffe);
   (0x200b, 0x200f); (0x2018, 0x2019); (0x2024, 0x2024); (0x2027, 0x2027);
   (0x202a, 0x202e); (0x2060, 0x2064); (0x2066, 0x206f); (0x2071, 0x2071);
   (0x207f, 0x207f); (0x2090, 0x209c); (0x20d0, 0x20f0); (0x2c7c, 0x2c7d);
   (0x2cef, 0x2cf1); (0x2d6f, 0x2d6f); (0x2d7f, 0x2d7f); (0x2de0, 0x2dff);
   (0x2e2f, 0x2e2f); (0x3005, 0x3005); (0x302a, 0x302d); (0x3031, 0x3035);
   (0x303b, 0x303b); (0x3099, 0x309e); (0x30fc, 0x30fe); (0xa015, 0xa015);
   (0xa4f8, 0xa4fd); (0xa60c, 0xa60c); (0xa66f, 0xa672); (0xa674, 0xa67d);
   (0xa67f, 0xa67f); (0xa69c, 0xa69f); (0xa6f0, 0xa6f1); (0xa700, 0xa721);
   (0xa770, 0xa770); (0xa788, 0xa78a); (0xa7f2, 0xa7f4); (0xa7f8, 0xa7f9);
   (0xa802, 0xa802); (0xa806, 0xa806); (0xa80b, 0xa80b); (0xa825, 0xa826);
   (0xa82c, 0xa82c); (0xa8c4, 0xa8c5); (0xa8e0, 0xa8f1); (0xa8ff, 0xa8ff);
   (0xa926, 0xa92d); (0xa947, 0xa951); (0xa980, 0xa982); (0xa9b3, 0xa9b3);
   (0xa9b6, 0xa9b9); (0xa9bc, 0xa9bd); (0xa9cf, 0xa9cf); (0xa9e5, 0xa9e6);
   (0xaa29, 0xaa2e); (0xaa31, 0xaa32); (0xaa35, 0xaa36); (0xaa43, 0xaa43);
   (0xaa4c, 0xaa4c); (0xaa70, 0xaa70); (0xaa7c, 0xaa7c); (0xaab0, 0xaab0);
   (0xaab2, 0xaab4); (0xaab7, 0xaab8); (0xaabe, 0xaabf); (0xaac1, 0xaac1);
   (0xaadd, 0xaadd); (0xaaec, 0xaaed); (0xaaf3, 0xaaf4); (0xaaf6, 0xaaf6);
   (0xab5b, 0xab5f); (0xab69, 0xab6b); (0xabe5, 0xabe5); (0xabe8, 0xabe8);
   (0xabed, 0xabed); (0xfb1e, 0xfb1e); (0xfbb2, 0xfbc2); (0xfe00, 0xfe0f);
   (0xfe13, 0xfe13); (0xfe20, 0xfe2f); (0xfe52, 0xfe52); (0xfe55, 0xfe55);
   (0xfeff, 0xfeff); (0xff07, 0xff07); (0xff0e, 0xff0e); (0xff1a, 0xff1a);
   (0xff3e, 0xff3e); (0xff40, 0xff40); (0xff70, 0xff70); (0xff9e, 0xff9f);
   (0xffe3, 0xffe3); (0xfff9, 0xfffb); (0x101fd, 0x101fd); (0x102e0, 0x102e0);
   (0x10376, 0x1037a); (0x10780, 0x10785); (0x10787, 0x107b0); (0x107b2, 0x107ba);
   (0x10a01, 0x10a03); (0x10a05, 0x10a06); (0x10a0c, 0x10a0f); (0x10a38, 0x10a3a);
   (0x10a3f, 0x10a3f); (0x10ae5, 0x10ae6); (0x10d24, 0x10d27); (0x10eab, 0x10eac);
   (0x10f46, 0x10f50); (0x10f82, 0x10f85); (0x11001, 0x11001); (0x11038, 0x11046);
   (0x11070, 0x11070); (0x11073, 0x11074); (0x1107f, 0x11081); (0x110b3, 0x110b6);
   (0x110b9, 0x110ba); (0x110bd, 0x110bd); (0x110c2, 0x110c2); (0x110cd, 0x110cd);
   (0x11100, 0x11102); (0x11127, 0x1112b); (0x1112d, 0x11134); (0x11173, 0x11173);
   (0x11180, 0x11181); (0x111b6, 0x111be); (0x111c9, 0x111cc); (0x111cf, 0x111cf);
   (0x1122f, 0x11231); (0x11234, 0x11234); (0x11236, 0x11237); (0x1123e, 0x1123e);
   (0x112df, 0x112df); (0x112e3, 0x112ea); (0x11300, 0x11301); (0x1133b, 0x1133c);
   (0x11340, 0x11340); (0x11366, 0x1136c); (0x11370, 0x11374); (0x11438, 0x1143f);
   (0x11442, 0x11444); (0x11446, 0x11446); (0x1145e, 0x1145e); (0x114b3, 0x114b8);
   (0x114ba, 0x114ba); (0x114bf, 0x114c0); (0x114c2, 0x114c3); (0x115b2, 0x115b5);
   (0x115bc, 0x115bd); (0x115bf, 0x115c0); (0x115dc, 0x115dd); (0x11633, 0x1163a);
   (0x1163d, 0x1163d); (0x1163f, 0x11640); (0x116ab, 0x116ab); (0x116ad, 0x116ad);
   (0x116b0, 0x116b5); (0x116b7, 0x116b7); (0x1171d, 0x1171f); (0x11722, 0x11725);
   (0x11727, 0x1172b); (0x1182f, 0x11837); (0x11839, 0x1183a); (0x1193b, 0x1193c);
   (0x1193e, 0x1193e); (0x11943, 0x11943); (0x119d4, 0x119d7); (0x119da, 0x119db);
   (0x119e0, 0x119e0); (0x11a01, 0x11a0a); (0x11a33, 0x11a38); (0x11a3b, 0x11a3e);
   (0x11a47, 0x11a47); (0x11a51, 0x11a56); (0x11a59, 0x11a5b); (0x11a8a, 0x11a96);
   (0x11a98, 0x11a99); (0x11c30, 0x11c36); (0x11c38, 0x11c3d); (0x11c3f, 0x11c3f);
   (0x11c92, 0x11ca7); (0x11caa, 0x11cb0); (0x11cb2, 0x11cb3); (0x11cb5, 0x11cb6);
   (0x11d31, 0x11d36); (0x11d3a, 0x11d3a); (0x11d3c, 0x11d3d); (0x11d3f, 0x11d45);
   (0x11d47, 0x11d47); (0x11d90, 0x11d91); (0x11d95, 0x11d95); (0x11d97, 0x11d97);
   (0x11ef3, 0x11ef4); (0x13430, 0x13438); (0x16af0, 0x16af4); (0x16b30, 0x16b36);
   (0x16b40, 0x16b43); (0x16f4f, 0x16f4f); (0x16f8f, 0x16f9f); (0x16fe0, 0x16fe1);
   (0x16fe3, 0x16fe4); (0x1aff0, 0x1aff3); (0x1aff5, 0x1affb); (0x1affd, 0x1affe);
   (0x1bc9d, 0x1bc9e); (0x1bca0, 0x1bca3); (0x1cf00, 0x1cf2d); (0x1cf30, 0x1cf46);
   (0x1d167, 0x1d169); (0x1d173, 0x1d182); (0x1d185, 0x1d18b); (0x1d1aa, 0x1d1ad);
   (0x1d242, 0x1d244); (0x1da00, 0x1da36); (0x1da3b, 0x1da6c); (0x1da75, 0x1da75);
   (0x1da84, 0x1da84); (0x1da9b, 0x1da9f); (0x1daa1, 0x1daaf); (0x1e000, 0x1e006);
   (0x1e008, 0x1e018); (0x1e01b, 0x1e021); (0x1e023, 0x1e024); (0x1e026, 0x1e02a);
   (0x1e130, 0x1e13d); (0x1e2ae, 0x1e2ae); (0x1e2ec, 0x1e2ef); (0x1e8d0, 0x1e8d6);
   (0x1e944, 0x1e94b); (0x1f3fb, 0x1f3ff); (0xe0001, 0xe0001); (0xe0020, 0xe007f);
   (0xe0100, 0xe01ef)].

(** White space from U+007F on, and the zeros of the runs of ten decimal
    digits. *)
Definition spaces : list (N * N) :=
  [(0x85, 0x85); (0xa0, 0xa0); (0x1680, 0x1680); (0x2000, 0x200a); (0x2028, 0x2029);
   (0x202f, 0x202f); (0x205f, 0x205f); (0x3000, 0x3000)].

Definition decimal_zeros : list N :=
  [0x660; 0x6f0; 0x7c0; 0x966; 0x9e6; 0xa66; 0xae6; 0xb66; 0xbe6; 0xc66; 0xce6; 0xd66;
   0xde6; 0xe50; 0xed0; 0xf20; 0x1040; 0x1090; 0x17e0; 0x1810; 0x1946; 0x19d0; 0x1a80;
   0x1a90; 0x1b50; 0x1bb0; 0x1c40; 0x1c50; 0xa620; 0xa8d0; 0xa900; 0xa9d0; 0xa9f0;
   0xaa50; 0xabf0; 0xff10; 0x104a0; 0x10d30; 0x11066; 0x110f0; 0x11136; 0x111d0;
   0x112f0; 0x11450; 0x114d0; 0x11650; 0x116c0; 0x11730; 0x118e0; 0x11950; 0x11c50;
   0x11d50; 0x11da0; 0x16a60; 0x16ac0; 0x16b50; 0x1d7ce; 0x1d7d8; 0x1d7e2; 0x1d7ec;
   0x1d7f6; 0x1e140; 0x1e2f0; 0x1e950; 0x1fbf0].

Definition to_upper (c : N) : list N :=
  match special upper_special c with
  | Some l => l
  | None => [simple upper_runs c]
  end.

Definition to_lower (c : N) : list N :=
  match special lower_special c with
  | Some l => l
  | None => [simple lower_runs c]
  end.

Definition is_space (c : N) : bool := in_ranges spaces c.

Definition to_decimal (c : N) : option N :=
  (λ zero, c - zero) <$> List.find (λ zero, (zero <=? c) && (c <? zero + 10)) decimal_zeros.

Fixpoint skip_ignorable (l : list N) : list N :=
  match l with
  | c :: r => if in_ranges case_ignorable c then skip_ignorable r else l
  | [] => []
  end.

(** A capital sigma is final when a cased letter comes before it and none
    after it, case-ignorable code points apart; [before] is what precedes
    it, nearest first. *)
Definition final_sigma (before after : list N) : bool :=
  match skip_ignorable before with
  | c :: _ =>
      in_ranges cased c
      && match skip_ignorable after with
         | d :: _ => negb (in_ranges cased d)
         | [] => true
         end
  | [] => false
  end.

Fixpoint lower_points (before l : list N) : list N :=
  match l with
  | [] => []
  | c :: r =>
      ((if c =? 0x3a3 then [if final_sigma before r then 0x3c2 else 0x3c3]
       else to_lower c) ++ lower_points (c :: before) r)%list
  end.

End Unicode.

(** ** Python runtime *)

Module Py.

(** The exception classes the handlers can meet. *)
Inductive exn : Set :=
| TypeError
| ZeroDivisionError
| OverflowError
| ProgrammingError
| OperationalError.

(** A computation that returns or raises. *)
Inductive result (A : Type) : Type :=
| Ok (a : A)
| Raise (e : exn).
Arguments Ok {A} a.
Arguments Raise {A} e.

Definition bind {A B} (r : result A) (k : A → result B) : result B :=
  match r with
  | Ok a => k a
  | Raise e => Raise e
  end.

(** The numeric values the handlers compute with, and [None]. *)
Inductive pyval : Set :=
| PyNone
| PyInt (z : Z)
| PyFloat (f : float).

(** [float(z)]: the integer rounded to the nearest binary64 number, ties to
    even.  Exact for the literals of this program. *)
Definition float_of_Z (z : Z) : float :=
  SF2Prim (binary_normalize prec emax z 0 false).

(** [bool(v)]: [None], [0], [0.0] and [-0.0] are false; a NaN is true. *)
Definition truthy (v : pyval) : bool :=
  match v with
  | PyNone => false
  | PyInt z => negb (z =? 0)
  | PyFloat f => negb (f =? 0)%float
  end.

Definition py_abs (v : pyval) : result pyval :=
  match v with
  | PyNone => Raise TypeError
  | PyInt z => Ok (PyInt (Z.abs z))
  | PyFloat f => Ok (PyFloat (PrimFloat.abs f))
  end.

(** [a >= b]. *)
Definition py_ge (a b : pyval) : result bool :=
  match a, b with
  | PyInt x, PyInt y => Ok (y <=? x)
  | PyFloat x, PyFloat y => Ok (y <=? x)%float
  | PyInt x, PyFloat y => Ok (y <=? float_of_Z x)%float
  | PyFloat x, PyInt y => Ok (float_of_Z y <=? x)%float
  | _, _ => Raise TypeError
  end.

Definition py_sub (a b : pyval) : result pyval :=
  match a, b with
  | PyInt x, PyInt y => Ok (PyInt (x - y))
  | PyFloat x, PyFloat y => Ok (PyFloat (x - y))
  | PyInt x, PyFloat y => Ok (PyFloat (float_of_Z x - y))
  | PyFloat x, PyInt y => Ok (PyFloat (x - float_of_Z y))
  | _, _ => Raise TypeError
  end.

Definition py_mul (a b : pyval) : result pyval :=
  match a, b with
  | PyInt x, PyInt y => Ok (PyInt (x * y))
  | PyFloat x, PyFloat y => Ok (PyFloat (x * y))
  | PyInt x, PyFloat y => Ok (PyFloat (float_of_Z x * y))
  | PyFloat x, PyInt y => Ok (PyFloat (x * float_of_Z y))
  | _, _ => Raise TypeError
  end.

(** A float divided by a float; a zero divisor of either sign raises. *)
Definition float_truediv (x y : float) : result pyval :=
  if (y =? 0)%float then Raise ZeroDivisionError else Ok (PyFloat (x / y)).

(** [a / b], true division. *)
Definition py_truediv (a b : pyval) : result pyval :=
  match a, b with
  | PyInt x, PyInt y =>
      if y =? 0 then Raise ZeroDivisionError
      else Ok (PyFloat (float_of_Z x / float_of_Z y))
  | PyFloat x, PyFloat y => float_truediv x y
  | PyInt x, PyFloat y => float_truediv (float_of_Z x) y
  | PyFloat x, PyInt y => float_truediv x (float_of_Z y)
  | _, _ => Raise TypeError
  end.

(** The integer nearest to [10 * m * 2^e], ties to even, for [e < 0]. *)
Definition nearest_tenths (m : positive) (e : Z) : Z :=
  let num := 10 * Z.pos m in
  let den := 2 ^ (- e) in
  let q := num / den in
  let r := num mod den in
  match 2 * r ?= den with
  | Lt => q
  | Gt => q + 1
  | Eq => if Z.even q then q else q + 1
  end.

(** [float.__round__(x, 1)]: the decimal with one fractional digit nearest
    to the exact value of [x] (ties to even), converted back to the nearest
    binary64 number.  Zeros, infinities and NaN round to themselves, and so
    do the floats that are integers. *)
Definition float_round1 (x : float) : float :=
  match Prim2SF x with
  | S754_finite s m e =>
      if 0 <=? e then x
      else
        match nearest_tenths m e with
        | Z.pos n => SF2Prim (SF64div (S754_finite s n 0) (S754_finite false 10 0))
        | _ => SF2Prim (S754_zero s)
        end
  | _ => x
  end.

(** [round(v, 1)]: an [int] is returned unchanged. *)
Definition py_round1 (v : pyval) : result pyval :=
  match v with
  | PyNone => Raise TypeError
  | PyInt z => Ok (PyInt z)
  | PyFloat f => Ok (PyFloat (float_round1 f))
  end.

(** *** Strings *)

(** [s.upper()]: every code point replaced by its upper-case form, which may
    be several code points long. *)
Definition upper (s : string) : string :=
  Unicode.encode (Unicode.decode s ≫= Unicode.to_upper).

(** [s.lower()]: the lower-case forms, a capital sigma by its place. *)
Definition lower (s : string) : string :=
  Unicode.encode (Unicode.lower_points [] (Unicode.decode s)).

(** [s.endswith(suffix)]. *)
Definition endswith (s suffix : string) : bool :=
  let n := String.length s in
  let k := String.length suffix in
  (k <=? n)%nat && String.eqb (substring (n - k) k s) suffix.

(** *** [int(s)] on a string *)

(** What [int] reads of a text: the text itself when it is ASCII; otherwise
    its code points up to U+007E as they are, white space as a space and a
    decimal digit as its ASCII digit, and nothing at all ([None]) when
    another code point is met. *)
Definition to_ascii (c : N) : option N :=
  if (c <? 127)%N then Some c
  else if Unicode.is_space c then Some 32%N
  else (λ d, 48 + d)%N <$> Unicode.to_decimal c.

Definition ascii_text (s : string) : option (list ascii) :=
  let points := Unicode.decode s in
  if forallb (λ c, c <? 128)%N points then Some (list_ascii_of_string s)
  else fmap ascii_of_N <$> mapM to_ascii points.

(** The white space of C, which is stripped at both ends. *)
Definition is_space (c : ascii) : bool :=
  let n := N_of_ascii c in
  ((9 <=? n) && (n <=? 13) || (n =? 32))%N.

Definition is_digit (c : ascii) : bool :=
  let n := N_of_ascii c in ((48 <=? n) && (n <=? 57))%N.

Definition digit_val (c : ascii) : Z := Z.of_N (N_of_ascii c) - 48.

Fixpoint lstrip (s : list ascii) : list ascii :=
  match s with
  | c :: r => if is_space c then lstrip r else s
  | [] => []
  end.

Definition strip (s : list ascii) : list ascii :=
  rev (lstrip (rev (lstrip s))).

(** Decimal digits, single underscores allowed between two digits. *)
Fixpoint digits (acc : Z) (after_digit : bool) (s : list ascii) : option Z :=
  match s with
  | [] => if after_digit then Some acc else None
  | c :: r =>
      if is_digit c then digits (10 * acc + digit_val c) true r
      else if Ascii.eqb c "_" then
        if after_digit then digits acc false r else None
      else None
  end.

(** [sys.get_int_max_str_digits()], as it is by default. *)
Definition max_str_digits : nat := 4300.

(** The digits after the sign: their value, unless there are more of them
    than [max_str_digits]. *)
Definition magnitude_of (s : list ascii) : option Z :=
  z ← digits 0 false s;
  if (length (List.filter is_digit s) <=? max_str_digits)%nat then Some z else None.

(** [int(s)]; [None] stands for [ValueError]. *)
Definition int_of_str (s : string) : option Z :=
  text ← ascii_text s;
  match strip text with
  | c :: r =>
      if Ascii.eqb c "-" then Z.opp <$> magnitude_of r
      else if Ascii.eqb c "+" then magnitude_of r
      else magnitude_of (c :: r)
  | [] => None
  end.

End Py.

Arguments Py.upper : simpl never.
Arguments Py.lower : simpl never.
Arguments Py.int_of_str : simpl never.

#[export] Instance result_ret : MRet Py.result := @Py.Ok.
#[export] Instance result_bind : MBind Py.result := λ A B k r, Py.bind r k.

(** ** The dataset store *)

(** A REAL column holds NULL or a binary64 number; [sqlite3] hands them to
    Python as [None] and as a [float]. *)
Abbreviation real := (option float).

Definition fetch (v : real) : Py.pyval :=
  match v with
  | Some f => Py.PyFloat f
  | None => Py.PyNone
  end.

(** Modelled from the spec: the row type of [historical_prices] and of
    [current_prices].  The SQL dump that declares the tables is not among the
    sources; the columns are those the queries name and the PriceRow entity
    of the specification lists: text keys, REAL measures, INTEGER counters
    and flags. *)
Module PriceRow.
Record t : Type := {
  metal : string;
  cycle_name : string;
  date : string;
  open_price : real;
  high_price : real;
  low_price : real;
  close_price : real;
  daily_change_pct : real;
  is_limit_up : Z;
  is_limit_down : Z;
  days_from_start : Z;
  weeks_from_start : Z;
  volume : real
}.
End PriceRow.

(** Modelled from the spec: the row type of [weekly_aggregates] (the
    WeeklyAggregate entity), missing from the sources like the one above. *)
Module WeeklyAggregate.
Record t : Type := {
  metal : string;
  cycle_name : string;
  weeks_from_start : Z;
  week_start_date : string;
  close_price : real;
  cycle_change_pct : real;
  limit_up_days : Z;
  limit_down_days : Z;
  volatility_indicator : string;
  total_trading_days : Z;
  week_over_week_pct : real
}.
End WeeklyAggregate.

(** Modelled from the spec: the row type of [market_cycles] (the MarketCycle
    entity), missing from the sources like the ones above. *)
Module MarketCycle.
Record t : Type := {
  metal : string;
  cycle_name : string;
  start_price : real
}.
End MarketCycle.

Record database : Type := {
  historical_prices : list PriceRow.t;
  current_prices : list PriceRow.t;
  weekly_aggregates : list WeeklyAggregate.t;
  market_cycles : list MarketCycle.t
}.

(** ** SQLite's evaluation of the queries *)

Module Sql.

(** [ORDER BY]: rows sorted by the order [le]; rows that compare equal stay
    in table order (SQLite leaves their order open). *)
Section OrderBy.
Context {A : Type} (le : A → A → bool).

Fixpoint place (x : A) (l : list A) : list A :=
  match l with
  | [] => [x]
  | y :: r => if le x y then x :: l else y :: place x r
  end.

Definition order_by (l : list A) : list A := foldr place [] l.

End OrderBy.

(** [LIMIT ? OFFSET ?]: a negative limit means no limit, a negative offset
    means none. *)
Definition limit_offset {A : Type} (limit offset : Z) (l : list A) : list A :=
  let rest := drop (Z.to_nat offset) l in
  if limit <? 0 then rest else take (Z.to_nat limit) rest.

(** A Python [int] bound to a [?] must fit SQLite's 64-bit INTEGER. *)
Definition bind_int (z : Z) : Py.result Z :=
  if (- 2 ^ 63 <=? z) && (z <? 2 ^ 63) then Py.Ok z else Py.Raise Py.OverflowError.

(** [MAX] over a REAL column: NULLs are skipped, and the result is NULL when
    nothing is left. *)
Definition real_max (v acc : real) : real :=
  match v, acc with
  | Some x, Some y => Some (if (x <? y)%float then y else x)
  | Some x, None => Some x
  | None, _ => acc
  end.

Definition sql_max (l : list real) : real := foldr real_max None l.

(** *** A WHERE clause given as text

    [get_raw_data] pastes the request's strings into the text of its WHERE
    clause, so what the clause means is decided by SQLite's reading of the
    text.  The fragment read here: equalities between text columns
    ([metal], [cycle_name], [date]) and string literals, joined by AND and
    OR.  Any other text yields [None]: SQLite either rejects it or gives it
    a meaning that is not modelled. *)

Inductive token : Set :=
| TId (name : string)
| TStr (s : string)
| TEq
| TAnd
| TOr.

(** Where the tokenizer stands: between tokens, in a word, in a string
    literal, or after a quote inside a literal (the literal's end, or the
    first half of a doubled quote). *)
Inductive lex_state : Set :=
| Idle
| InWord (acc : string)
| InStr (acc : string)
| AfterQuote (acc : string).

(** White space between tokens: tab, line feed, form feed, carriage return
    and space. *)
Definition is_space (c : ascii) : bool :=
  let n := N_of_ascii c in
  ((n =? 9) || (n =? 10) || (n =? 12) || (n =? 13) || (n =? 32))%N.

Definition is_letter (c : ascii) : bool :=
  let n := N_of_ascii c in
  ((65 <=? n) && (n <=? 90) || (97 <=? n) && (n <=? 122) || (n =? 95))%N.

Definition is_word_char (c : ascii) : bool := is_letter c || Py.is_digit c.

Definition snoc (s : string) (c : ascii) : string := s +:+ String c EmptyString.

(** Keywords and names are case-insensitive, in ASCII. *)
Definition fold_letter (c : ascii) : ascii :=
  let n := N_of_ascii c in
  if ((97 <=? n) && (n <=? 122))%N then ascii_of_N (n - 32) else c.

Fixpoint fold_case (s : string) : string :=
  match s with
  | EmptyString => EmptyString
  | String c r => String (fold_letter c) (fold_case r)
  end.

Definition word (s : string) : token :=
  let u := fold_case s in
  if String.eqb u "AND" then TAnd
  else if String.eqb u "OR" then TOr
  else TId u.

Definition quote : ascii := "'"%char.

(** No text with a NUL byte is read: [sqlite3] does not hand it to SQLite. *)
Definition nul : ascii := "000"%char.

(** Reading [c] between tokens: the tokens it completes and the state after
    it. *)
Definition fresh (c : ascii) : option (list token * lex_state) :=
  if is_space c then Some ([], Idle)
  else if Ascii.eqb c quote then Some ([], InStr EmptyString)
  else if Ascii.eqb c "=" then Some ([TEq], Idle)
  else if is_letter c then Some ([], InWord (String c EmptyString))
  else None.

Definition step (st : lex_state) (c : ascii) : option (list token * lex_state) :=
  match st with
  | Idle => fresh c
  | InWord acc =>
      if is_word_char c then Some ([], InWord (snoc acc c))
      else prod_map (cons (word acc)) id <$> fresh c
  | InStr acc =>
      if Ascii.eqb c quote then Some ([], AfterQuote acc)
      else if Ascii.eqb c nul then None
      else Some ([], InStr (snoc acc c))
  | AfterQuote acc =>
      if Ascii.eqb c quote then Some ([], InStr (snoc acc quote))
      else prod_map (cons (TStr acc)) id <$> fresh c
  end.

(** At the end of the text; a literal left open is an error. *)
Definition finish (st : lex_state) : option (list token) :=
  match st with
  | Idle => Some []
  | InWord acc => Some [word acc]
  | InStr _ => None
  | AfterQuote acc => Some [TStr acc]
  end.

(** The tokenizer proper; [seen] holds the tokens completed so far. *)
Fixpoint lex (st : lex_state) (seen : list token) (s : string)
  : option (list token) :=
  match s with
  | EmptyString => app seen <$> finish st
  | String c r =>
      match step st c with
      | Some (ts, st') => lex st' (seen ++ ts) r
      | None => None
      end
  end.

(** The state in which the tokenizer ends. *)
Fixpoint scan (st : lex_state) (s : string) : option lex_state :=
  match s with
  | EmptyString => Some st
  | String c r =>
      match step st c with
      | Some (_, st') => scan st' r
      | None => None
      end
  end.

Fixpoint has_nul (s : string) : bool :=
  match s with
  | EmptyString => false
  | String c r => Ascii.eqb c nul || has_nul r
  end.

(** The texts that are refused whatever else they hold: [execute] raises
    ProgrammingError on a text with a NUL byte before SQLite sees it, and
    SQLite's tokenizer stops at a string literal that is left open, which
    [sqlite3] raises as OperationalError. *)
Definition refused (text : string) : option Py.exn :=
  if has_nul text then Some Py.ProgrammingError
  else
    match scan Idle text with
    | Some (InStr _) => Some Py.OperationalError
    | _ => None
    end.

Fixpoint split_on (sep : token → bool) (ts : list token) : list (list token) :=
  match ts with
  | [] => [[]]
  | t :: r =>
      if sep t then [] :: split_on sep r
      else
        match split_on sep r with
        | g :: gs => (t :: g) :: gs
        | [] => [[t]]
        end
  end.

Definition is_and (t : token) : bool := match t with TAnd => true | _ => false end.
Definition is_or (t : token) : bool := match t with TOr => true | _ => false end.

Definition operand (t : token) : option (PriceRow.t → string) :=
  match t with
  | TStr s => Some (λ _, s)
  | TId name =>
      if String.eqb name "METAL" then Some PriceRow.metal
      else if String.eqb name "CYCLE_NAME" then Some PriceRow.cycle_name
      else if String.eqb name "DATE" then Some PriceRow.date
      else None
  | _ => None
  end.

Definition comparison (ts : list token) : option (PriceRow.t → bool) :=
  match ts with
  | [a; TEq; b] =>
      fa ← operand a; fb ← operand b;
      Some (λ row, String.eqb (fa row) (fb row))
  | _ => None
  end.

(** AND binds tighter than OR. *)
Definition conjunction (ts : list token) : option (PriceRow.t → bool) :=
  cs ← mapM comparison (split_on is_and ts);
  Some (λ row, forallb (λ c, c row) cs).

Definition where_clause (text : string) : option (PriceRow.t → bool) :=
  ts ← lex Idle [] text;
  ds ← mapM conjunction (split_on is_or ts);
  Some (λ row, existsb (λ d, d row) ds).

(** [MIN] and [MAX] over a TEXT column without NULLs: text compared byte by
    byte; the result is NULL when there is no row. *)
Definition text_min (v : string) (acc : option string) : option string :=
  match acc with
  | Some y => Some (if String.ltb v y then v else y)
  | None => Some v
  end.

Definition text_max (v : string) (acc : option string) : option string :=
  match acc with
  | Some y => Some (if String.ltb y v then v else y)
  | None => Some v
  end.

Definition sql_min_text (l : list string) : option string := foldr text_min None l.

Definition sql_max_text (l : list string) : option string := foldr text_max None l.

End Sql.

(** ** Responses *)

(** What a handler sends: the JSON body with status 200, or the body
    [{'error': str(e)}] with status 500 from its [except Exception] clause. *)
Inductive response (A : Type) : Type :=
| Json200 (body : A)
| Json500 (e : Py.exn).
Arguments Json200 {A} body.
Arguments Json500 {A} e.

(** [try: ... except Exception as e: return jsonify({'error': str(e)}), 500] *)
Definition guarded {A : Type} (r : Py.result A) : response A :=
  match r with
  | Py.Ok body => Json200 body
  | Py.Raise e => Json500 e
  end.

Module WeeklyPoint.
Record t : Type := {
  week : Z;
  date : string;
  price : real;
  percentChange : real;
  weekOverWeekChange : Py.pyval;
  limitUpDays : Z;
  limitDownDays : Z;
  tradingDays : Z;
  dotColor : string;
  volatilityLevel : string;
  showDot : bool
}.
End WeeklyPoint.

Module WeeklyData.
Record t : Type := {
  metal : string;
  cycle : string;
  data : list WeeklyPoint.t;
  total_weeks : Z
}.
End WeeklyData.

(** A row of the raw-data page: the eleven selected columns. *)
Module RawRow.
Record t : Type := {
  date : string;
  open_price : real;
  high_price : real;
  low_price : real;
  close_price : real;
  daily_change_pct : real;
  is_limit_up : Z;
  is_limit_down : Z;
  days_from_start : Z;
  weeks_from_start : Z;
  volume : real
}.
End RawRow.

Module RawData.
Record t : Type := {
  metal : string;
  cycle : string;
  data : list RawRow.t;
  total_records : Z;
  limit : Z;
  offset : Z;
  has_more : bool
}.
End RawData.

Module SummaryRecord.
Record t : Type := {
  currentPrice : Py.pyval;
  currentReturn : Py.pyval;
  daysInCycle : Z;
  weeksInCycle : Z;
  lastUpdate : string;
  historicalPeak : Py.pyval;
  historicalPeakReturn : Py.pyval;
  limitUpDays : Z
}.
End SummaryRecord.

Module MarketSummary.
Record t : Type := {
  summary : gmap string SummaryRecord.t;
  timestamp : string
}.
End MarketSummary.

(** ** [/api/weekly-data/<metal>/<cycle>] *)

(** [WHERE metal = ? AND cycle_name = ? ORDER BY weeks_from_start] *)
Definition weekly_rows (db : database) (metal cycle : string) : list WeeklyAggregate.t :=
  Sql.order_by
    (λ a b, WeeklyAggregate.weeks_from_start a <=? WeeklyAggregate.weeks_from_start b)
    (List.filter
       (λ r, String.eqb (WeeklyAggregate.metal r) metal
             && String.eqb (WeeklyAggregate.cycle_name r) cycle)
       (weekly_aggregates db)).

(** The body of the [for row in rows] loop. *)
Definition weekly_point (row : WeeklyAggregate.t) : Py.result WeeklyPoint.t :=
  let wow := fetch (WeeklyAggregate.week_over_week_pct row) in
  let wow_pct := if Py.truthy wow then wow else Py.PyInt 0 in
  abs_wow ← Py.py_abs wow_pct;
  high ← Py.py_ge abs_wow (Py.PyInt 5);
  tier ←
    (if high : bool then Py.Ok ("#ef4444", "high_volatility")
     else
       mid ← Py.py_ge abs_wow (Py.PyInt 2);
       Py.Ok (if mid : bool then ("#eab308", "volatile") else ("#22c55e", "normal")));
  Py.Ok
    {| WeeklyPoint.week := WeeklyAggregate.weeks_from_start row;
       WeeklyPoint.date := WeeklyAggregate.week_start_date row;
       WeeklyPoint.price := WeeklyAggregate.close_price row;
       WeeklyPoint.percentChange := WeeklyAggregate.cycle_change_pct row;
       WeeklyPoint.weekOverWeekChange := wow_pct;
       WeeklyPoint.limitUpDays := WeeklyAggregate.limit_up_days row;
       WeeklyPoint.limitDownDays := WeeklyAggregate.limit_down_days row;
       WeeklyPoint.tradingDays := WeeklyAggregate.total_trading_days row;
       WeeklyPoint.dotColor := fst tier;
       WeeklyPoint.volatilityLevel := snd tier;
       WeeklyPoint.showDot := true |}.

Definition get_weekly_data (db : database) (metal cycle : string)
  : response WeeklyData.t :=
  guarded
    (let rows := weekly_rows db (Py.upper metal) cycle in
     data ← mapM weekly_point rows;
     Py.Ok
       {| WeeklyData.metal := Py.upper metal;
          WeeklyData.cycle := cycle;
          WeeklyData.data := data;
          WeeklyData.total_weeks := Z.of_nat (length data) |}).

(** ** [/api/raw-data/<metal>/<cycle>] *)

(** werkzeug's [request.args.get(key, default, type=int)]: the first value
    given for [key], converted by [int]; the default when the key is absent
    and also when the conversion raises [ValueError]. *)
Definition args_get (args : list (string * string)) (key : string) (default : Z) : Z :=
  match List.find (λ kv, String.eqb (fst kv) key) args with
  | None => default
  | Some kv =>
      match Py.int_of_str (snd kv) with
      | Some z => z
      | None => default
      end
  end.

(** [FROM {table}] *)
Definition price_table (db : database) (table : string) : list PriceRow.t :=
  if String.eqb table "current_prices" then current_prices db
  else historical_prices db.

(** The table name and the text of the filter, as the handler builds them. *)
Definition raw_source (metal cycle : string) : string * string :=
  if Py.endswith cycle "_current" then
    ("current_prices", "metal = '" +:+ Py.upper metal +:+ "'")
  else
    ("historical_prices",
     "metal = '" +:+ Py.upper metal +:+ "' AND cycle_name = '" +:+ cycle +:+ "'").

(** [ORDER BY date DESC]: text compared byte by byte. *)
Definition date_desc (a b : PriceRow.t) : bool :=
  String.leb (PriceRow.date b) (PriceRow.date a).

(** [dict(row)] for the columns the page selects. *)
Definition serialize_row (r : PriceRow.t) : RawRow.t :=
  {| RawRow.date := PriceRow.date r;
     RawRow.open_price := PriceRow.open_price r;
     RawRow.high_price := PriceRow.high_price r;
     RawRow.low_price := PriceRow.low_price r;
     RawRow.close_price := PriceRow.close_price r;
     RawRow.daily_change_pct := PriceRow.daily_change_pct r;
     RawRow.is_limit_up := PriceRow.is_limit_up r;
     RawRow.is_limit_down := PriceRow.is_limit_down r;
     RawRow.days_from_start := PriceRow.days_from_start r;
     RawRow.weeks_from_start := PriceRow.weeks_from_start r;
     RawRow.volume := PriceRow.volume r |}.

Definition serialize_data (rows : list PriceRow.t) : list RawRow.t :=
  serialize_row <$> rows.

(** The handler.  A filter text that is refused makes the first [execute]
    raise, whatever the table holds.  [None]: the text is outside the
    fragment of SQL that [Sql.where_clause] reads, and nothing is said about
    the response. *)
Definition get_raw_data (db : database) (args : list (string * string))
    (metal cycle : string) : option (response RawData.t) :=
  let limit := args_get args "limit" 100 in
  let offset := args_get args "offset" 0 in
  let '(table, cycle_filter) := raw_source metal cycle in
  match Sql.refused cycle_filter with
  | Some e => Some (Json500 e)
  | None =>
      matching ← Sql.where_clause cycle_filter;
      Some (guarded
        (let total_records :=
           Z.of_nat (length (List.filter matching (price_table db table))) in
         l ← Sql.bind_int limit;
         o ← Sql.bind_int offset;
         let rows :=
           Sql.limit_offset l o
             (Sql.order_by date_desc (List.filter matching (price_table db table))) in
         let data := serialize_data rows in
         Py.Ok
           {| RawData.metal := Py.upper metal;
              RawData.cycle := cycle;
              RawData.data := data;
              RawData.total_records := total_records;
              RawData.limit := limit;
              RawData.offset := offset;
              RawData.has_more := (offset + limit <? total_records) |}))
  end.

(** ** [/api/market-summary] *)

Definition percent_return (price start : Py.pyval) : Py.result Py.pyval :=
  diff ← Py.py_sub price start;
  ratio ← Py.py_truediv diff start;
  Py.py_mul ratio (Py.PyInt 100).

(** [SELECT start_price FROM market_cycles WHERE metal = ? AND cycle_name = ?]
    followed by [fetchone()]. *)
Definition cycle_start (db : database) (metal cycle : string) : option MarketCycle.t :=
  head (List.filter
          (λ c, String.eqb (MarketCycle.metal c) metal
                && String.eqb (MarketCycle.cycle_name c) cycle)
          (market_cycles db)).

(** The latest row of [current_prices] for the metal. *)
Definition latest_price (db : database) (metal : string) : option PriceRow.t :=
  head (Sql.order_by date_desc
          (List.filter (λ r, String.eqb (PriceRow.metal r) metal) (current_prices db))).

(** [MAX(close_price)] over the metal's rows of a historical cycle. *)
Definition peak_price (db : database) (metal cycle : string) : real :=
  Sql.sql_max
    (PriceRow.close_price <$>
       List.filter
         (λ r, String.eqb (PriceRow.metal r) metal
               && String.eqb (PriceRow.cycle_name r) cycle)
         (historical_prices db)).

Definition limit_up_count (db : database) (metal : string) : Z :=
  Z.of_nat (length (List.filter
                      (λ r, String.eqb (PriceRow.metal r) metal
                            && (PriceRow.is_limit_up r =? 1))
                      (current_prices db))).

(** The return of the 1978-1980 peak: 0 unless the peak is there (and not
    0) and the cycle has its row in [market_cycles]. *)
Definition hist_peak_return (db : database) (metal : string)
    (historical_peak : Py.pyval) : Py.result Py.pyval :=
  if Py.truthy historical_peak then
    match cycle_start db metal (Py.lower metal +:+ "_1978_1980") with
    | Some hist_start =>
        percent_return historical_peak (fetch (MarketCycle.start_price hist_start))
    | None => Py.Ok (Py.PyInt 0)
    end
  else Py.Ok (Py.PyInt 0).

(** The entry of a metal that has its latest price and its current cycle. *)
Definition summary_record (db : database) (metal : string)
    (current_data : PriceRow.t) (cycle_info : MarketCycle.t)
  : Py.result SummaryRecord.t :=
  let historical_peak := fetch (peak_price db metal (Py.lower metal +:+ "_1978_1980")) in
  let limit_up_info := limit_up_count db metal in
  let current_price := fetch (PriceRow.close_price current_data) in
  let start_price := fetch (MarketCycle.start_price cycle_info) in
  current_return ← percent_return current_price start_price;
  peak_return ← hist_peak_return db metal historical_peak;
  rounded_return ← Py.py_round1 current_return;
  rounded_peak_return ← Py.py_round1 peak_return;
  Py.Ok
    {| SummaryRecord.currentPrice := current_price;
       SummaryRecord.currentReturn := rounded_return;
       SummaryRecord.daysInCycle := PriceRow.days_from_start current_data;
       SummaryRecord.weeksInCycle := PriceRow.weeks_from_start current_data;
       SummaryRecord.lastUpdate := PriceRow.date current_data;
       SummaryRecord.historicalPeak := historical_peak;
       SummaryRecord.historicalPeakReturn := rounded_peak_return;
       SummaryRecord.limitUpDays := limit_up_info |}.

(** The body of the [for metal in ['GOLD', 'SILVER']] loop, on the dict built
    so far: [if current_data and cycle_info] adds the entry, and nothing
    happens otherwise. *)
Definition summarize (db : database) (summary : gmap string SummaryRecord.t)
    (metal : string) : Py.result (gmap string SummaryRecord.t) :=
  match latest_price db metal,
        cycle_start db metal (Py.lower metal +:+ "_2024_current") with
  | Some current_data, Some cycle_info =>
      record ← summary_record db metal current_data cycle_info;
      Py.Ok (<[Py.lower metal := record]> summary)
  | _, _ => Py.Ok summary
  end.

(** The handler; [now] is [datetime.now().isoformat()]. *)
Definition get_market_summary (db : database) (now : string)
  : response MarketSummary.t :=
  guarded
    (summary ←
       foldl (λ acc metal, so_far ← acc; summarize db so_far metal)
             (Py.Ok ∅) ["GOLD"; "SILVER"];
     Py.Ok {| MarketSummary.summary := summary; MarketSummary.timestamp := now |}).

(** ** The connection

    The handlers above take the four tables as loaded.  What follows puts
    the global connection in front of them: the start-up code that finds and
    runs the SQL dump, [get_db_connection], and the two handlers that report
    on the store itself. *)

(** A computation around the connection returns or raises; of the exception
    the code reads the message only ([str(e)]), and that is what is kept. *)
Inductive outcome (A : Type) : Type :=
| Done (a : A)
| Failed (message : string).
Arguments Done {A} a.
Arguments Failed {A} message.

#[export] Instance outcome_ret : MRet outcome := @Done.
#[export] Instance outcome_bind : MBind outcome :=
  λ A B k r, match r with Done a => k a | Failed message => Failed message end.

(** The in-memory database behind a connection: each of the four tables,
    once the script has created it. *)
Module Store.

Record t : Type := {
  historical_prices : option (list PriceRow.t);
  current_prices : option (list PriceRow.t);
  weekly_aggregates : option (list WeeklyAggregate.t);
  market_cycles : option (list MarketCycle.t)
}.

(** A fresh [sqlite3.connect('file::memory:?cache=shared')]. *)
Definition empty : t :=
  {| historical_prices := None; current_prices := None;
     weekly_aggregates := None; market_cycles := None |}.

(** [FROM name]: the rows, or [sqlite3.OperationalError]. *)
Definition rows {A : Type} (name : string) (table : option (list A)) : outcome (list A) :=
  match table with
  | Some r => Done r
  | None => Failed ("no such table: " +:+ name)
  end.

(** [FROM {table}] in the raw-data handler. *)
Definition price_table (conn : t) (table : string) : option (list PriceRow.t) :=
  if String.eqb table "current_prices" then current_prices conn
  else historical_prices conn.

End Store.

(** The store with all four tables, and the tables of a store as the handlers
    above take them (a table that is not there is read by no handler that
    gets as far as them). *)
Definition loaded (db : database) : Store.t :=
  {| Store.historical_prices := Some (historical_prices db);
     Store.current_prices := Some (current_prices db);
     Store.weekly_aggregates := Some (weekly_aggregates db);
     Store.market_cycles := Some (market_cycles db) |}.

Definition tables_of (conn : Store.t) : database :=
  {| historical_prices := default [] (Store.historical_prices conn);
     current_prices := default [] (Store.current_prices conn);
     weekly_aggregates := default [] (Store.weekly_aggregates conn);
     market_cycles := default [] (Store.market_cycles conn) |}.

(** ** Start-up *)

(** An absolute path: its components below the root. *)
Abbreviation path := (list string).

(** [p.parent]; the root is its own parent. *)
Definition parent (p : path) : path := removelast p.

(** [str(p)] *)
Definition path_str (p : path) : string :=
  match p with
  | [] => "/"
  | _ => String.concat "/" (EmptyString :: p)
  end.

(** What the start-up code asks of its host: where the module's file is
    ([__file__], taken as absolute), [Path.resolve], the working directory,
    which paths exist, what [open(p).read()] gives, and what
    [executescript] leaves of a script on a fresh connection: the store, and
    the message of the exception if it raised one. *)
Module Host.
Record t : Type := {
  file : path;
  resolve : path → path;
  cwd : path;
  path_exists : path → bool;
  read : path → outcome string;
  executescript : string → Store.t * option string
}.
End Host.

(** The globals [db_conn] and [db_init_error]. *)
Module Server.
Record t : Type := {
  db_conn : option Store.t;
  db_init_error : option string
}.
End Server.

Definition find_sql_dump (h : Host.t) : option path :=
  let script_dir := parent (Host.resolve h (Host.file h)) in
  let sql_path := (script_dir ++ ["schema_and_data.sql"])%list in
  if Host.path_exists h sql_path then Some sql_path
  else
    let base_dir := parent script_dir in
    let sql_path := (base_dir ++ ["database"; "schema_and_data.sql"])%list in
    if Host.path_exists h sql_path then Some sql_path
    else
      let sql_path := (Host.cwd h ++ ["schema_and_data.sql"])%list in
      if Host.path_exists h sql_path then Some sql_path
      else
        let sql_path := (Host.cwd h ++ ["database"; "schema_and_data.sql"])%list in
        if Host.path_exists h sql_path then Some sql_path
        else None.

(** The message of the [FileNotFoundError]. *)
Definition error_msg (h : Host.t) : string :=
  "SQL dump not found. Searched in: " +:+ path_str (parent (parent (Host.file h)))
  +:+ ", " +:+ path_str (Host.cwd h).

(** [init_database], run while there is no connection yet: the globals it
    leaves, and the connection it returns or the exception it raises again
    from its [except] clause.  [sqlite3.connect] of an in-memory database is
    taken to succeed; [db_conn] is assigned from it first, so it is set on
    every path. *)
Definition init_database (h : Host.t) : Server.t * outcome Store.t :=
  let raised (conn : Store.t) (message : string) :=
    ({| Server.db_conn := Some conn; Server.db_init_error := Some message |},
     Failed message) in
  match find_sql_dump h with
  | Some sql_dump_path =>
      if Host.path_exists h sql_dump_path then
        match Host.read h sql_dump_path with
        | Done sql_script =>
            match Host.executescript h sql_script with
            | (conn, None) =>
                ({| Server.db_conn := Some conn; Server.db_init_error := None |},
                 Done conn)
            | (conn, Some message) => raised conn message
            end
        | Failed message => raised Store.empty message
        end
      else raised Store.empty (error_msg h)
  | None => raised Store.empty (error_msg h)
  end.

Definition get_db_connection (h : Host.t) (st : Server.t) : Server.t * outcome Store.t :=
  match Server.db_conn st with
  | None => init_database h
  | Some conn => (st, Done conn)
  end.

(** The module's last lines: [init_database()] inside a [try] that only
    prints. *)
Definition startup (h : Host.t) : Server.t := fst (init_database h).

(** ** [/api/health] *)

Module Healthy.
Record t : Type := {
  status : string;
  database : string;
  database_type : string;
  current_records : Z;
  timestamp : string
}.
End Healthy.

Module Unhealthy.
Record t : Type := {
  status : string;
  message : string;
  init_error : option string;
  timestamp : string
}.
End Unhealthy.

(** The globals after the request and the answer: the left body with status
    200, the right one with status 500. *)
Definition health_check (h : Host.t) (st : Server.t) (now : string)
  : Server.t * (Healthy.t + Unhealthy.t) :=
  let '(st, conn) := get_db_connection h st in
  (st,
   match conn ← conn; Store.rows "current_prices" (Store.current_prices conn) with
   | Done result =>
       inl {| Healthy.status := "healthy";
              Healthy.database := "connected";
              Healthy.database_type := "in-memory";
              Healthy.current_records := Z.of_nat (length result);
              Healthy.timestamp := now |}
   | Failed message =>
       inr {| Unhealthy.status := "error";
              Unhealthy.message := message;
              Unhealthy.init_error := Server.db_init_error st;
              Unhealthy.timestamp := now |}
   end).

(** ** [/api/database-stats] *)

(** The key [end] of the source is written [end_]. *)
Module DateRange.
Record t : Type := {
  start : option string;
  end_ : option string
}.
End DateRange.

Module Stats.
Record t : Type := {
  gold_historical : Z;
  silver_historical : Z;
  gold_current : Z;
  silver_current : Z;
  weekly_aggregates : Z;
  historical_range : DateRange.t;
  current_range : DateRange.t
}.
End Stats.

Module DatabaseStats.
Record t : Type := {
  stats : Stats.t;
  timestamp : string
}.
End DatabaseStats.

(** [SELECT COUNT( * ) FROM table WHERE metal = "GOLD"]: no column has that
    name, and SQLite reads the double-quoted word as the string. *)
Definition count_metal (name : string) (table : option (list PriceRow.t))
    (metal : string) : outcome Z :=
  rows ← Store.rows name table;
  Done (Z.of_nat (length (List.filter (λ r, String.eqb (PriceRow.metal r) metal) rows))).

(** [SELECT MIN(date) as start, MAX(date) as end FROM table] *)
Definition date_range (name : string) (table : option (list PriceRow.t))
  : outcome DateRange.t :=
  rows ← Store.rows name table;
  Done {| DateRange.start := Sql.sql_min_text (PriceRow.date <$> rows);
          DateRange.end_ := Sql.sql_max_text (PriceRow.date <$> rows) |}.

(** The globals after the request and the answer: the body with status 200,
    or [{'error': message}] with status 500. *)
Definition get_database_stats (h : Host.t) (st : Server.t) (now : string)
  : Server.t * outcome DatabaseStats.t :=
  let '(st, conn) := get_db_connection h st in
  (st,
   conn ← conn;
   gold_historical ← count_metal "historical_prices" (Store.historical_prices conn) "GOLD";
   silver_historical ← count_metal "historical_prices" (Store.historical_prices conn) "SILVER";
   gold_current ← count_metal "current_prices" (Store.current_prices conn) "GOLD";
   silver_current ← count_metal "current_prices" (Store.current_prices conn) "SILVER";
   weekly ← Store.rows "weekly_aggregates" (Store.weekly_aggregates conn);
   hist_range ← date_range "historical_prices" (Store.historical_prices conn);
   current_range ← date_range "current_prices" (Store.current_prices conn);
   Done {| DatabaseStats.stats :=
             {| Stats.gold_historical := gold_historical;
                Stats.silver_historical := silver_historical;
                Stats.gold_current := gold_current;
                Stats.silver_current := silver_current;
                Stats.weekly_aggregates := Z.of_nat (length weekly);
                Stats.historical_range := hist_range;
                Stats.current_range := current_range |};
           DatabaseStats.timestamp := now |}).

(** ** The other handlers on the connection

    [conn = get_db_connection()] first; then the first query on a table that
    is not there raises, and the handler's [except] clause answers with
    status 500 and the message.  With the tables it queries in place the
    handler answers as above. *)

Definition serve_weekly_data (h : Host.t) (st : Server.t) (metal cycle : string)
  : Server.t * outcome (response WeeklyData.t) :=
  let '(st, conn) := get_db_connection h st in
  (st,
   conn ← conn;
   _ ← Store.rows "weekly_aggregates" (Store.weekly_aggregates conn);
   Done (get_weekly_data (tables_of conn) metal cycle)).

(** The queries of the first round of the loop reach [current_prices],
    [market_cycles] and [historical_prices], in this order. *)
Definition serve_market_summary (h : Host.t) (st : Server.t) (now : string)
  : Server.t * outcome (response MarketSummary.t) :=
  let '(st, conn) := get_db_connection h st in
  (st,
   conn ← conn;
   _ ← Store.rows "current_prices" (Store.current_prices conn);
   _ ← Store.rows "market_cycles" (Store.market_cycles conn);
   _ ← Store.rows "historical_prices" (Store.historical_prices conn);
   Done (get_market_summary (tables_of conn) now)).

(** [None], as for [get_raw_data]: the filter text is outside the fragment of
    SQL that is read.  A text that is refused is refused before the table is
    looked for. *)
Definition serve_raw_data (h : Host.t) (st : Server.t) (args : list (string * string))
    (metal cycle : string) : Server.t * option (outcome (response RawData.t)) :=
  let '(st, conn) := get_db_connection h st in
  (st,
   match conn with
   | Failed message => Some (Failed message)
   | Done conn =>
       answer ← get_raw_data (tables_of conn) args metal cycle;
       Some match Sql.refused (snd (raw_source metal cycle)) with
            | Some _ => Done answer
            | None =>
                _ ← Store.rows (fst (raw_source metal cycle))
                      (Store.price_table conn (fst (raw_source metal cycle)));
                Done answer
            end
   end).

(** ** The vocabulary of the specification *)

(** [a = |week_over_week_pct|], a NULL counted as 0. *)
Definition magnitude (w : real) : float :=
  match w with
  | Some f => PrimFloat.abs f
  | None => 0%float
  end.

(** The three tiers as the specification words them: marker colour and
    level as a function of [a]. *)
Definition tier_of (a : float) : string * string :=
  if (5 <=? a)%float then ("#ef4444", "high_volatility")
  else if (2 <=? a)%float then ("#eab308", "volatile")
  else ("#22c55e", "normal").

Definition in_tier (p : WeeklyPoint.t) (level color : string) : Prop :=
  WeeklyPoint.volatilityLevel p = level ∧ WeeklyPoint.dotColor p = color.

(** The thresholds, boundaries included. *)
Definition three_tier (a : float) (p : WeeklyPoint.t) : Prop :=
  ((5 <=? a)%float = true → in_tier p "high_volatility" "#ef4444") ∧
  ((2 <=? a)%float = true → (a <? 5)%float = true →
     in_tier p "volatile" "#eab308") ∧
  ((a <? 2)%float = true → in_tier p "normal" "#22c55e") ∧
  ((a =? 2)%float = true → in_tier p "volatile" "#eab308") ∧
  ((a =? 5)%float = true → in_tier p "high_volatility" "#ef4444").

(** A weekly point carries the columns of the row it was built from. *)
Definition point_of_row (row : WeeklyAggregate.t) (p : WeeklyPoint.t) : Prop :=
  WeeklyPoint.week p = WeeklyAggregate.weeks_from_start row ∧
  WeeklyPoint.date p = WeeklyAggregate.week_start_date row ∧
  WeeklyPoint.price p = WeeklyAggregate.close_price row ∧
  WeeklyPoint.percentChange p = WeeklyAggregate.cycle_change_pct row ∧
  WeeklyPoint.limitUpDays p = WeeklyAggregate.limit_up_days row ∧
  WeeklyPoint.limitDownDays p = WeeklyAggregate.limit_down_days row ∧
  WeeklyPoint.tradingDays p = WeeklyAggregate.total_trading_days row.

(** The rows of [weekly_aggregates] a request is about. *)
Definition weekly_match (metal cycle : string) (r : WeeklyAggregate.t) : bool :=
  String.eqb (WeeklyAggregate.metal r) (Py.upper metal)
  && String.eqb (WeeklyAggregate.cycle_name r) cycle.

Definition by_week (a b : WeeklyAggregate.t) : Prop :=
  WeeklyAggregate.weeks_from_start a ≤ WeeklyAggregate.weeks_from_start b.

(** An integer that SQLite can bind. *)
Definition in_int64 (z : Z) : Prop := - 2 ^ 63 ≤ z < 2 ^ 63.

(** The rows of the selected table that pass the filter [matching]. *)
Definition matching_rows (db : database) (metal cycle : string)
    (matching : PriceRow.t → bool) : list PriceRow.t :=
  List.filter matching (price_table db (fst (raw_source metal cycle))).

(** The full date-descending series of a raw-data request, before paging. *)
Definition full_series (db : database) (metal cycle : string)
    (matching : PriceRow.t → bool) : list RawRow.t :=
  serialize_data (Sql.order_by date_desc (matching_rows db metal cycle matching)).

(** The same, for the filter text the handler builds; [None] when the text
    is outside the fragment [Sql.where_clause] reads. *)
Definition raw_series (db : database) (metal cycle : string) : option (list RawRow.t) :=
  full_series db metal cycle <$> Sql.where_clause (snd (raw_source metal cycle)).

(** [a] is not older than [b]. *)
Definition newer_first (a b : RawRow.t) : Prop :=
  String.leb (RawRow.date b) (RawRow.date a) = true.

(** The rows the specification promises: by the suffix of the cycle, the
    current prices of the metal, or the historical prices of the metal and
    cycle. *)
Definition claimed_rows (db : database) (metal cycle : string) : list PriceRow.t :=
  if Py.endswith cycle "_current" then
    List.filter (λ r, String.eqb (PriceRow.metal r) (Py.upper metal)) (current_prices db)
  else
    List.filter
      (λ r, String.eqb (PriceRow.metal r) (Py.upper metal)
            && String.eqb (PriceRow.cycle_name r) cycle)
      (historical_prices db).

(** No single quote in the string. *)
Fixpoint quote_free (s : string) : bool :=
  match s with
  | EmptyString => true
  | String c r => negb (Ascii.eqb c Sql.quote) && quote_free r
  end.









(** Bytes below 128 only. *)
Definition is_ascii (s : string) : bool :=
  forallb (λ a, N_of_ascii a <? 128)%N (list_ascii_of_string s).



(** Code points below 128 only. *)
Definition low (l : list N) : Prop := Forall (λ c, c < 128)%N l.

(** What the case tables hold for a code point below 128: one code point
    below 128 for each case, no capital sigma, and an upper-case form that
    is its own upper-case form and that of the lower-case form. *)
Definition ascii_case_ok (c : N) : bool :=
  match Unicode.to_upper c, Unicode.to_lower c with
  | [u], [l] =>
      (u <? 128)%N && (l <? 128)%N && negb (c =? 0x3a3)%N
      && bool_decide (Unicode.to_upper u = [u])
      && bool_decide (Unicode.to_upper l = [u])
  | _, _ => false
  end.



(** The names of a metal's current cycle and of its historical reference
    cycle. *)
Definition current_cycle (metal : string) : string :=
  Py.lower metal +:+ "_2024_current".

Definition reference_cycle (metal : string) : string :=
  Py.lower metal +:+ "_1978_1980".

(** The metals of the market summary. *)
Definition tracked (metal : string) : Prop := metal = "GOLD" ∨ metal = "SILVER".

(** No row of [current_prices] for the metal. *)
Definition no_current_price (db : database) (metal : string) : Prop :=
  Forall (λ r, PriceRow.metal r ≠ metal) (current_prices db).

(** No definition of the metal's current cycle in [market_cycles]. *)
Definition no_current_cycle (db : database) (metal : string) : Prop :=
  Forall (λ c, ¬ (MarketCycle.metal c = metal
                  ∧ MarketCycle.cycle_name c = current_cycle metal))
         (market_cycles db).

(** The historical peak return as the specification has it: the percent
    return of the peak on the cycle's start price whenever both are there. *)
Definition peak_return_by_formula : Prop :=
  ∀ db now metal body rec peak ref start,
    tracked metal →
    get_market_summary db now = Json200 body →
    MarketSummary.summary body !! Py.lower metal = Some rec →
    peak_price db metal (reference_cycle metal) = Some peak →
    cycle_start db metal (reference_cycle metal) = Some ref →
    MarketCycle.start_price ref = Some start →
    SummaryRecord.historicalPeakReturn rec
    = Py.PyFloat (Py.float_round1 ((peak - start) / start * 100)).

(** What one round of the loop works out for its metal: no entry, an entry,
    or an exception. *)
Definition metal_entry (db : database) (metal : string)
  : Py.result (option SummaryRecord.t) :=
  match latest_price db metal, cycle_start db metal (current_cycle metal) with
  | Some cur, Some cyc => record ← summary_record db metal cur cyc; Py.Ok (Some record)
  | _, _ => Py.Ok None
  end.

Definition with_entry (key : string) (entry : option SummaryRecord.t)
    (s : gmap string SummaryRecord.t) : gmap string SummaryRecord.t :=
  match entry with
  | Some record => <[key := record]> s
  | None => s
  end.

(** The round of [metal] raises nothing and adds [rec] under the metal's
    key: a response with status 200 has it there, the request is answered
    with status 200 whenever the round of the other metal raises nothing,
    and an error response can only come from that other round. *)
Definition adds_entry (db : database) (now metal other : string)
    (rec : SummaryRecord.t) : Prop :=
  (∀ so_far, summarize db so_far metal = Py.Ok (<[Py.lower metal := rec]> so_far)) ∧
  (∀ body, get_market_summary db now = Json200 body →
           MarketSummary.summary body !! Py.lower metal = Some rec) ∧
  (∀ entries, summarize db ∅ other = Py.Ok entries →
              ∃ body, get_market_summary db now = Json200 body) ∧
  (∀ e, get_market_summary db now = Json500 e → summarize db ∅ other = Py.Raise e).

(** The places where the dump is looked for, in the order of the search. *)
Definition candidates (h : Host.t) : list path :=
  let script_dir := parent (Host.resolve h (Host.file h)) in
  [(script_dir ++ ["schema_and_data.sql"])%list;
   (parent script_dir ++ ["database"; "schema_and_data.sql"])%list;
   (Host.cwd h ++ ["schema_and_data.sql"])%list;
   (Host.cwd h ++ ["database"; "schema_and_data.sql"])%list].

(** No dump anywhere. *)
Definition no_dump (h : Host.t) : Prop :=
  Forall (λ p, Host.path_exists h p = false) (candidates h).

(** The rows of a metal in a price table, and their number. *)
Definition rows_of_metal (metal : string) (rows : list PriceRow.t) : list PriceRow.t :=
  List.filter (λ r, String.eqb (PriceRow.metal r) metal) rows.

Definition metal_count (metal : string) (rows : list PriceRow.t) : Z :=
  Z.of_nat (length (rows_of_metal metal rows)).

(** A date range that spans the dates of [rows]: nothing for no row, and
    otherwise the date of a row that no row precedes and the date of a row
    that no row follows. *)
Definition spans (range : DateRange.t) (rows : list PriceRow.t) : Prop :=
  match DateRange.start range, DateRange.end_ range with
  | None, None => rows = []
  | Some first, Some last =>
      In first (PriceRow.date <$> rows) ∧ In last (PriceRow.date <$> rows) ∧
      ∀ r, In r rows →
           String.leb first (PriceRow.date r) = true ∧
           String.leb (PriceRow.date r) last = true
  | _, _ => False
  end.

(** A binary64 number that is not a NaN; SQLite stores no NaN in a REAL
    column (it stores NULL). *)
Definition no_nan (v : real) : Prop :=
  ∀ x, v = Some x → (x =? x)%float = true.

(** The rows of a metal's historical reference cycle. *)
Definition reference_rows (db : database) (metal : string) : list PriceRow.t :=
  List.filter
    (λ r, String.eqb (PriceRow.metal r) metal
          && String.eqb (PriceRow.cycle_name r) (reference_cycle metal))
    (historical_prices db).

(** ** A small dataset *)

Module Example.

Definition price (metal cycle date : string) (close : float) (limit_up days weeks : Z)
  : PriceRow.t :=
  {| PriceRow.metal := metal; PriceRow.cycle_name := cycle; PriceRow.date := date;
     PriceRow.open_price := None; PriceRow.high_price := None;
     PriceRow.low_price := None; PriceRow.close_price := Some close;
     PriceRow.daily_change_pct := None; PriceRow.is_limit_up := limit_up;
     PriceRow.is_limit_down := 0; PriceRow.days_from_start := days;
     PriceRow.weeks_from_start := weeks; PriceRow.volume := None |}.

Definition week (n : Z) (date : string) (wow : real) : WeeklyAggregate.t :=
  {| WeeklyAggregate.metal := "GOLD"; WeeklyAggregate.cycle_name := "gold_2024_current";
     WeeklyAggregate.weeks_from_start := n; WeeklyAggregate.week_start_date := date;
     WeeklyAggregate.close_price := None; WeeklyAggregate.cycle_change_pct := None;
     WeeklyAggregate.limit_up_days := 0; WeeklyAggregate.limit_down_days := 0;
     WeeklyAggregate.volatility_indicator := EmptyString; WeeklyAggregate.total_trading_days := 5;
     WeeklyAggregate.week_over_week_pct := wow |}.

Definition cycle (metal name : string) (start : real) : MarketCycle.t :=
  {| MarketCycle.metal := metal; MarketCycle.cycle_name := name;
     MarketCycle.start_price := start |}.

(** Gold has a current cycle that started at 100 and stands at 125; silver
    has historical rows only. *)
Definition db : database :=
  {| historical_prices :=
       [price "GOLD" "gold_1978_1980" "1979-01-02" 200 0 0 0;
        price "SILVER" "silver_1978_1980" "1979-01-03" 20 0 1 0;
        price "GOLD" "gold_1978_1980" "1979-01-05" 850 1 3 0];
     current_prices :=
       [price "GOLD" "gold_2024_current" "2024-01-02" 110 0 0 0;
        price "GOLD" "gold_2024_current" "2024-01-03" 125 1 1 0];
     weekly_aggregates :=
       [week 1 "2024-01-08" (Some 5%float);
        week 0 "2024-01-01" None;
        week 2 "2024-01-15" (Some (-2)%float)];
     market_cycles :=
       [cycle "GOLD" "gold_2024_current" (Some 100%float);
        cycle "GOLD" "gold_1978_1980" (Some 200%float)] |}.

(** The same store with a current gold cycle that started at 0. *)
Definition db_zero_start : database :=
  {| historical_prices := historical_prices db;
     current_prices := current_prices db;
     weekly_aggregates := weekly_aggregates db;
     market_cycles :=
       [cycle "GOLD" "gold_2024_current" (Some 0%float);
        cycle "GOLD" "gold_1978_1980" (Some 200%float)] |}.

(** ... and with one whose start price is NULL. *)
Definition db_null_start : database :=
  {| historical_prices := historical_prices db;
     current_prices := current_prices db;
     weekly_aggregates := weekly_aggregates db;
     market_cycles :=
       [cycle "GOLD" "gold_2024_current" None;
        cycle "GOLD" "gold_1978_1980" (Some 200%float)] |}.

(** ... and with a 1978-1980 gold cycle whose closes are all 0. *)
Definition db_zero_peak : database :=
  {| historical_prices :=
       [price "GOLD" "gold_1978_1980" "1979-01-02" 0 0 0 0;
        price "GOLD" "gold_1978_1980" "1979-01-05" 0 0 3 0];
     current_prices := current_prices db;
     weekly_aggregates := weekly_aggregates db;
     market_cycles := market_cycles db |}.

(** ... and with a 1978-1980 gold cycle whose start price is NULL. *)
Definition db_null_reference : database :=
  {| historical_prices := historical_prices db;
     current_prices := current_prices db;
     weekly_aggregates := weekly_aggregates db;
     market_cycles :=
       [cycle "GOLD" "gold_2024_current" (Some 100%float);
        cycle "GOLD" "gold_1978_1980" None] |}.

(** Sixty days of silver, oldest first. *)
Definition day (n : nat) : string :=
  "1979-" +:+ String (ascii_of_nat (48 + n / 100))
                (String (ascii_of_nat (48 + n / 10 mod 10))
                   (String (ascii_of_nat (48 + n mod 10)) EmptyString)).

Definition long_run : list PriceRow.t :=
  (λ n, price "SILVER" "silver_1978_1980" (day n) 20 0 (Z.of_nat n) 0) <$> seq 0 60.

Definition db_long : database :=
  {| historical_prices := long_run;
     current_prices := [];
     weekly_aggregates := [];
     market_cycles := [] |}.

(** A host that serves from [/srv/src/app.py], started in [/srv], whose
    files are [files].  A script is known by its text: [dump] loads the
    store [db], [half] creates [current_prices] and then fails, anything
    else fails at once. *)
Definition host (files : list (path * string)) : Host.t :=
  {| Host.file := ["srv"; "src"; "app.py"];
     Host.resolve := id;
     Host.cwd := ["srv"];
     Host.path_exists := λ p, bool_decide (p ∈ files.*1);
     Host.read := λ p,
       match List.find (λ f, bool_decide (f.1 = p)) files with
       | Some f => Done f.2
       | None => Failed "No such file or directory"
       end;
     Host.executescript := λ script,
       if String.eqb script "dump" then (loaded db, None)
       else if String.eqb script "half" then
         ({| Store.historical_prices := None;
             Store.current_prices := Some (current_prices db);
             Store.weekly_aggregates := None;
             Store.market_cycles := None |},
          Some "incomplete input")
       else (Store.empty, Some "incomplete input") |}.


End Example.

(** * Properties *)

(** ** Comparisons of binary64 numbers *)

Module FloatFacts.

Lemma SFcompare_antisym (x y : spec_float) :
  SFcompare y x = CompOpp <$> SFcompare x y.
Proof.
  destruct x as [s1|s1| |s1 m1 e1], y as [s2|s2| |s2 m2 e2]; simpl;
    try destruct s1; try destruct s2; try reflexivity;
    rewrite (Z.compare_antisym e1 e2); destruct (e1 ?= e2); simpl;
    try reflexivity; f_equal;
    by rewrite (Pos.compare_cont_antisym m1 m2 Eq).
Qed.

Lemma ltb_not_leb (x y : float) :
  (x <? y)%float = true → (y <=? x)%float = false.
Proof.
  rewrite FloatAxioms.ltb_spec, FloatAxioms.leb_spec. unfold SFltb, SFleb.
  rewrite (SFcompare_antisym (Prim2SF x)).
  by destruct (SFcompare (Prim2SF x) (Prim2SF y)) as [[]|].
Qed.

Lemma eqb_leb (x y : float) :
  (x =? y)%float = true → (y <=? x)%float = true.
Proof.
  rewrite FloatAxioms.eqb_spec, FloatAxioms.leb_spec. unfold SFeqb, SFleb.
  rewrite (SFcompare_antisym (Prim2SF x)).
  by destruct (SFcompare (Prim2SF x) (Prim2SF y)) as [[]|].
Qed.

Lemma SF_two : Prim2SF 2 = S754_finite false 4503599627370496 (-51).
Proof. reflexivity. Qed.

Lemma SF_five : Prim2SF 5 = S754_finite false 5629499534213120 (-50).
Proof. reflexivity. Qed.

Lemma SFltb_raise (x : spec_float) (m1 m2 : positive) (e1 e2 : Z) :
  e1 < e2 →
  SFltb x (S754_finite false m1 e1) = true →
  SFltb x (S754_finite false m2 e2) = true.
Proof.
  intros He. unfold SFltb.
  destruct x as [[]|[]| |[] m e]; simpl; try done.
  destruct (Z.compare_spec e e1) as [-> | Hlt | Hgt]; try done.
  - by rewrite (proj2 (Z.compare_lt_iff e1 e2)) by lia.
  - by rewrite (proj2 (Z.compare_lt_iff e e2)) by lia.
Qed.

Lemma SFeqb_raise (x : spec_float) (m1 m2 : positive) (e1 e2 : Z) :
  e1 < e2 →
  SFeqb x (S754_finite false m1 e1) = true →
  SFltb x (S754_finite false m2 e2) = true.
Proof.
  intros He. unfold SFeqb, SFltb.
  destruct x as [[]|[]| |[] m e]; simpl; try done.
  destruct (Z.compare_spec e e1) as [-> | Hlt | Hgt]; try done.
  by rewrite (proj2 (Z.compare_lt_iff e1 e2)) by lia.
Qed.

Lemma below_2_below_5 (x : float) :
  (x <? 2)%float = true → (x <? 5)%float = true.
Proof.
  rewrite !FloatAxioms.ltb_spec, SF_two, SF_five. by apply SFltb_raise.
Qed.

Lemma equal_2_below_5 (x : float) :
  (x =? 2)%float = true → (x <? 5)%float = true.
Proof.
  rewrite FloatAxioms.eqb_spec, FloatAxioms.ltb_spec, SF_two, SF_five.
  by apply SFeqb_raise.
Qed.

(** The absolute value of a float that Python takes for false is [+0.0]. *)
Lemma abs_of_falsy (f : float) :
  (f =? 0)%float = true → Prim2SF (PrimFloat.abs f) = S754_zero false.
Proof.
  rewrite FloatAxioms.eqb_spec, FloatAxioms.abs_spec. change (Prim2SF 0) with (S754_zero false).
  unfold SFeqb. by destruct (Prim2SF f) as [[]|[]| |[] m e].
Qed.

Lemma leb_abs_of_falsy (k f : float) :
  SFleb (Prim2SF k) (S754_zero false) = false →
  (f =? 0)%float = true → (k <=? PrimFloat.abs f)%float = false.
Proof. intros Hk Hf. by rewrite FloatAxioms.leb_spec, (abs_of_falsy f Hf). Qed.

Lemma eqb_abs_of_falsy (k f : float) :
  SFeqb (S754_zero false) (Prim2SF k) = false →
  (f =? 0)%float = true → (PrimFloat.abs f =? k)%float = false.
Proof. intros Hk Hf. by rewrite FloatAxioms.eqb_spec, (abs_of_falsy f Hf). Qed.

End FloatFacts.

(** ** Python's [int] on a string *)

Module IntFacts.







Lemma decode_ascii (s : string) :
  is_ascii s = true → Unicode.decode s = N_of_ascii <$> list_ascii_of_string s.
Proof.
  unfold is_ascii. induction s as [|a0 r IH]; [done|].
  cbn [list_ascii_of_string forallb]. rewrite andb_true_iff. intros [Hlow Hr].
  cbn [Unicode.decode fmap list_fmap].
  change (N_of_ascii a0 <? 0x80)%N with (N_of_ascii a0 <? 128)%N.
  by rewrite Hlow, IH.
Qed.


(** *** Numerals *)










(** *** Texts without a digit *)






(** *** Texts with a character foreign to integers *)







End IntFacts.

(** ** Case mapping of ASCII text *)

Module CaseFacts.

Lemma ascii_case (c : N) : (c < 128)%N → ascii_case_ok c = true.
Proof.
  intros Hc.
  assert (forallb ascii_case_ok (N.of_nat <$> seq 0 128) = true) as Hall
    by (vm_compute; reflexivity).
  rewrite forallb_forall in Hall. apply Hall, in_map_iff.
  exists (N.to_nat c). split; [lia|]. apply in_seq. lia.
Qed.

Lemma ascii_case_inv (c : N) :
  (c < 128)%N →
  ∃ u l, Unicode.to_upper c = [u] ∧ Unicode.to_lower c = [l] ∧
         (u < 128)%N ∧ (l < 128)%N ∧ c ≠ 0x3a3%N ∧
         Unicode.to_upper u = [u] ∧ Unicode.to_upper l = [u].
Proof.
  intros Hc%ascii_case. unfold ascii_case_ok in Hc.
  destruct (Unicode.to_upper c) as [|u [|]]; try done.
  destruct (Unicode.to_lower c) as [|l [|]]; try done.
  repeat (apply andb_true_iff in Hc as [Hc ?]).
  exists u, l. split_and!; try done.
  - by apply N.ltb_lt.
  - by apply N.ltb_lt.
  - apply N.eqb_neq. by apply negb_true_iff.
  - by eapply bool_decide_eq_true_1.
  - by eapply bool_decide_eq_true_1.
Qed.

Lemma decode_low_ascii (s : string) : is_ascii s = true → low (Unicode.decode s).
Proof.
  intros Hs. rewrite (IntFacts.decode_ascii s Hs). unfold is_ascii in Hs.
  rewrite forallb_forall in Hs. apply List.Forall_forall.
  intros c (a & <- & Ha)%in_map_iff. by apply N.ltb_lt, Hs.
Qed.

Lemma encode_low (l : list N) :
  low l → Unicode.encode l = string_of_list_ascii (ascii_of_N <$> l).
Proof.
  unfold Unicode.encode. intros Hl. f_equal.
  induction Hl as [|c l Hc Hl IH]; [done|].
  rewrite bind_cons, fmap_cons, IH. unfold Unicode.encode_point.
  by rewrite (proj2 (N.ltb_lt c 128) Hc).
Qed.

Lemma encode_ascii (l : list N) : low l → is_ascii (Unicode.encode l) = true.
Proof.
  intros Hl. rewrite (encode_low l Hl). unfold is_ascii.
  rewrite list_ascii_of_string_of_list_ascii. apply forallb_forall.
  intros a (c & <- & Hc)%in_map_iff.
  eapply (proj1 (List.Forall_forall _ _)) in Hl; [|exact Hc].
  rewrite N_ascii_embedding by lia. by apply N.ltb_lt.
Qed.

Lemma decode_encode_low (l : list N) : low l → Unicode.decode (Unicode.encode l) = l.
Proof.
  intros Hl. rewrite (IntFacts.decode_ascii _ (encode_ascii l Hl)), (encode_low l Hl).
  rewrite list_ascii_of_string_of_list_ascii, <- list_fmap_compose.
  induction Hl as [|c l Hc Hl IH]; [done|].
  rewrite fmap_cons, IH. cbn [compose]. by rewrite N_ascii_embedding by lia.
Qed.

Lemma bind_upper_low (l : list N) :
  low l → low (l ≫= Unicode.to_upper) ∧
          (l ≫= Unicode.to_upper) ≫= Unicode.to_upper = l ≫= Unicode.to_upper.
Proof.
  unfold low. induction 1 as [|c l Hc Hl [IHlow IH]]; [by split; [constructor|]|].
  destruct (ascii_case_inv c Hc) as (u & lo & Hu & _ & Hu128 & _ & _ & Huu & _).
  rewrite !bind_cons, Hu. cbn [app]. rewrite bind_cons, Huu, IH.
  split; [by constructor|done].
Qed.

Lemma lower_points_low (l : list N) :
  low l →
  ∀ before,
    low (Unicode.lower_points before l) ∧
    Unicode.lower_points before l ≫= Unicode.to_upper = l ≫= Unicode.to_upper.
Proof.
  unfold low. induction 1 as [|c l Hc Hl IH]; intros before; [by split; [constructor|]|].
  destruct (ascii_case_inv c Hc) as (u & lo & Hu & Hlo & _ & Hlo128 & Hsigma & _ & Hlu).
  destruct (IH (c :: before)) as [IHlow IHup].
  cbn [Unicode.lower_points]. rewrite (proj2 (N.eqb_neq _ _) Hsigma), Hlo.
  cbn [app]. rewrite !bind_cons, Hlu, Hu, IHup.
  split; [by constructor|done].
Qed.

(** On ASCII text [upper] undoes [lower] and [upper] itself changes nothing
    more. *)
Lemma upper_upper_ascii (s : string) :
  is_ascii s = true → Py.upper (Py.upper s) = Py.upper s.
Proof.
  intros Hs%decode_low_ascii. unfold Py.upper.
  destruct (bind_upper_low _ Hs) as [Hlow Hup].
  by rewrite (decode_encode_low _ Hlow), Hup.
Qed.

Lemma upper_lower_ascii (s : string) :
  is_ascii s = true → Py.upper (Py.lower s) = Py.upper s.
Proof.
  intros Hs%decode_low_ascii. unfold Py.upper, Py.lower.
  destruct (lower_points_low _ Hs []) as [Hlow Hup].
  by rewrite (decode_encode_low _ Hlow), Hup.
Qed.

End CaseFacts.

(** ** Sorting and paging *)

Module SqlFacts.

Section OrderBy.
Context {A : Type} (le : A → A → bool).

Lemma place_perm (x : A) (l : list A) : Sql.place le x l ≡ₚ x :: l.
Proof.
  induction l as [|y r IH]; simpl; [done|].
  destruct (le x y); [done|]. rewrite IH. apply Permutation_swap.
Qed.

Lemma order_by_perm (l : list A) : Sql.order_by le l ≡ₚ l.
Proof.
  induction l as [|x l IH]; simpl; [done|].
  change (foldr (Sql.place le) [] l) with (Sql.order_by le l).
  by rewrite place_perm, IH.
Qed.

Hypothesis le_total : ∀ a b, le a b = false → le b a = true.

Lemma place_sorted (x : A) (l : list A) :
  Sorted (λ a b, le a b = true) l →
  Sorted (λ a b, le a b = true) (Sql.place le x l).
Proof.
  induction l as [|y r IH]; intros Hs; simpl.
  - by repeat constructor.
  - destruct (le x y) eqn:Hxy.
    + constructor; [done | by constructor].
    + inversion_clear Hs as [|? ? Hr Hhd].
      constructor; [by apply IH|].
      destruct r as [|z r']; simpl.
      * constructor. by apply le_total.
      * destruct (le x z); constructor;
          [by apply le_total | by inversion Hhd].
Qed.

Lemma order_by_sorted (l : list A) :
  Sorted (λ a b, le a b = true) (Sql.order_by le l).
Proof.
  induction l as [|x l IH]; simpl; [constructor|].
  by apply place_sorted.
Qed.

End OrderBy.

Section Slices.
Context {A : Type} (R : A → A → Prop).

Lemma sorted_take (n : nat) (l : list A) : Sorted R l → Sorted R (take n l).
Proof.
  revert n. induction l as [|x l IH]; intros [|n] Hs; simpl; try constructor.
  - apply IH. by inversion Hs.
  - inversion_clear Hs as [|? ? _ Hhd].
    destruct l, n; simpl; constructor. by inversion Hhd.
Qed.

Lemma sorted_drop (n : nat) (l : list A) : Sorted R l → Sorted R (drop n l).
Proof.
  revert l. induction n as [|n IH]; intros [|x l] Hs; simpl; try done.
  apply IH. by inversion Hs.
Qed.


End Slices.

End SqlFacts.

(** ** Running a loop body that cannot raise *)

Lemma mapM_ok {A B : Type} (f : A → Py.result B) (l : list A) :
  (∀ x, ∃ y, f x = Py.Ok y) →
  ∃ ys, mapM f l = Py.Ok ys ∧ Forall2 (λ x y, f x = Py.Ok y) l ys.
Proof.
  intros Hf. induction l as [|x l (ys & Hys & Hall)]; simpl.
  - by exists [].
  - destruct (Hf x) as [y Hy]. exists (y :: ys).
    rewrite Hy, Hys. split; [done | by constructor].
Qed.

Lemma sorted_weaken {A : Type} (R1 R2 : A → A → Prop) (l : list A) :
  (∀ a b, R1 a b → R2 a b) → Sorted R1 l → Sorted R2 l.
Proof.
  intros Himp. induction 1 as [|x l _ IH Hhd]; constructor; [done|].
  destruct Hhd; constructor. by apply Himp.
Qed.

(** ** Weekly data *)

Lemma float_of_5 : Py.float_of_Z 5 = 5%float.
Proof. reflexivity. Qed.

Lemma float_of_2 : Py.float_of_Z 2 = 2%float.
Proof. reflexivity. Qed.

(** The loop body never raises, copies the row's columns and classifies by
    the magnitude alone. *)
Lemma weekly_point_ok (row : WeeklyAggregate.t) :
  ∃ p, weekly_point row = Py.Ok p ∧ point_of_row row p ∧
       (WeeklyPoint.dotColor p, WeeklyPoint.volatilityLevel p)
       = tier_of (magnitude (WeeklyAggregate.week_over_week_pct row)).
Proof.
  unfold weekly_point, magnitude, tier_of.
  destruct (WeeklyAggregate.week_over_week_pct row) as [f|]; cbn [fetch Py.truthy].
  - destruct (f =? 0)%float eqn:Hf; cbn [negb].
    + eexists. split; [reflexivity|]. split; [by repeat split|].
      cbn [WeeklyPoint.dotColor WeeklyPoint.volatilityLevel].
      by rewrite !FloatFacts.leb_abs_of_falsy.
    + cbn [Py.py_abs mbind result_bind Py.bind Py.py_ge].
      rewrite float_of_5, float_of_2.
      destruct (5 <=? PrimFloat.abs f)%float;
        [|destruct (2 <=? PrimFloat.abs f)%float];
        (eexists; split; [reflexivity|]; split; [by repeat split|done]).
  - eexists. split; [reflexivity|]. split; [by repeat split|done].
Qed.

(** The function of [a] meets the thresholds as the specification lists
    them. *)
Lemma tier_of_three_tier (a : float) (p : WeeklyPoint.t) :
  (WeeklyPoint.dotColor p, WeeklyPoint.volatilityLevel p) = tier_of a →
  three_tier a p.
Proof.
  unfold tier_of, three_tier, in_tier. intros Hp.
  pose proof (FloatFacts.ltb_not_leb a 5) as Hlt5.
  pose proof (FloatFacts.ltb_not_leb a 2) as Hlt2.
  pose proof (FloatFacts.below_2_below_5 a) as H25.
  pose proof (FloatFacts.equal_2_below_5 a) as He25.
  pose proof (FloatFacts.eqb_leb a 2) as He2.
  pose proof (FloatFacts.eqb_leb a 5) as He5.
  destruct (5 <=? a)%float eqn:H5; [|destruct (2 <=? a)%float eqn:H2];
    injection Hp as -> ->; repeat split; intros; try done;
    exfalso; intuition congruence.
Qed.

(** What the handler answers: always a body, whose points are the loop body
    applied to the selected rows in order. *)
Lemma get_weekly_data_body (db : database) (metal cycle : string) :
  ∃ data,
    Forall2 (λ row p, weekly_point row = Py.Ok p)
      (weekly_rows db (Py.upper metal) cycle) data ∧
    get_weekly_data db metal cycle =
      Json200 {| WeeklyData.metal := Py.upper metal;
                 WeeklyData.cycle := cycle;
                 WeeklyData.data := data;
                 WeeklyData.total_weeks := Z.of_nat (length data) |}.
Proof.
  destruct (mapM_ok weekly_point (weekly_rows db (Py.upper metal) cycle))
    as (data & Hdata & Hall).
  { intros row. destruct (weekly_point_ok row) as (p & Hp & _). by exists p. }
  exists data. split; [done|].
  unfold get_weekly_data. cbn zeta. by rewrite Hdata.
Qed.

(** C1: every point of a weekly-data response has the colour and level that
    the three tiers assign to [a = |week_over_week_pct|] (NULL counted as
    0): [a >= 5] high_volatility and #ef4444, [2 <= a < 5] volatile and
    #eab308, [a < 2] normal and #22c55e, the boundaries 2 and 5 falling in
    the upper tier. *)
Theorem volatility_is_three_tier (db : database) (metal cycle : string) :
  ∃ body,
    get_weekly_data db metal cycle = Json200 body ∧
    Forall2
      (λ row p,
         let a := magnitude (WeeklyAggregate.week_over_week_pct row) in
         (WeeklyPoint.dotColor p, WeeklyPoint.volatilityLevel p) = tier_of a
         ∧ three_tier a p)
      (weekly_rows db (Py.upper metal) cycle) (WeeklyData.data body).
Proof.
  destruct (get_weekly_data_body db metal cycle) as (data & Hall & ->).
  eexists. split; [reflexivity|]. cbn [WeeklyData.data].
  eapply Forall2_impl; [exact Hall|].
  intros row p Hp. destruct (weekly_point_ok row) as (p' & Hp' & _ & Htier).
  assert (p' = p) as -> by congruence.
  split; [done | by apply tier_of_three_tier].
Qed.

Lemma filter_none {A : Type} (f : A → bool) (l : list A) :
  (∀ x, In x l → f x = false) → List.filter f l = [].
Proof.
  induction l as [|x l IH]; intros Hf; simpl; [done|].
  rewrite (Hf x) by by left. apply IH. intros y Hy. apply Hf. by right.
Qed.

Lemma weekly_match_spec (metal cycle : string) (r : WeeklyAggregate.t) :
  weekly_match metal cycle r = true ↔
  WeeklyAggregate.metal r = Py.upper metal ∧ WeeklyAggregate.cycle_name r = cycle.
Proof.
  unfold weekly_match. by rewrite andb_true_iff, !String.eqb_eq.
Qed.

Lemma weekly_rows_perm (db : database) (metal cycle : string) :
  weekly_rows db (Py.upper metal) cycle
  ≡ₚ List.filter (weekly_match metal cycle) (weekly_aggregates db).
Proof. apply SqlFacts.order_by_perm. Qed.

Lemma weekly_rows_sorted (db : database) (metal cycle : string) :
  Sorted by_week (weekly_rows db (Py.upper metal) cycle).
Proof.
  eapply sorted_weaken; [|apply SqlFacts.order_by_sorted].
  - intros a b Hab. by apply Z.leb_le.
  - intros a b Hab. apply Z.leb_le. apply Z.leb_gt in Hab. lia.
Qed.

(** C7: the data of a weekly-data response are the points of exactly the
    rows of [weekly_aggregates] whose metal is the uppercased parameter and
    whose cycle_name is the cycle parameter, in ascending order of
    weeks_from_start; with no such row the response is still a success, its
    data empty.  The upper-casing is that of [str.upper]: of every letter
    that has an upper-case form, which may be longer than the letter. *)
Theorem weekly_series_selected_and_ordered (db : database) (metal cycle : string) :
  (∃ body rows,
     get_weekly_data db metal cycle = Json200 body ∧
     Forall2 point_of_row rows (WeeklyData.data body) ∧
     rows ≡ₚ List.filter (weekly_match metal cycle) (weekly_aggregates db) ∧
     (∀ r, In r rows ↔
           In r (weekly_aggregates db)
           ∧ WeeklyAggregate.metal r = Py.upper metal
           ∧ WeeklyAggregate.cycle_name r = cycle) ∧
     Sorted by_week rows ∧
     ((∀ r, In r (weekly_aggregates db) → weekly_match metal cycle r = false) →
      WeeklyData.data body = [])) ∧
  Py.upper "gold" = "GOLD" ∧ Py.upper "Silver" = "SILVER" ∧
  Py.upper "SILVER" = "SILVER" ∧ Py.upper "ſilver" = "SILVER" ∧
  Py.upper "straße" = "STRASSE" ∧ Py.upper "gold_1" = "GOLD_1".
Proof.
  split; [|by vm_compute].
  destruct (get_weekly_data_body db metal cycle) as (data & Hall & ->).
  pose proof (weekly_rows_perm db metal cycle) as Hperm.
  eexists. exists (weekly_rows db (Py.upper metal) cycle).
  split; [reflexivity|]. cbn [WeeklyData.data]. split_and!.
  - eapply Forall2_impl; [exact Hall|]. intros row p Hp.
    destruct (weekly_point_ok row) as (p' & Hp' & Hcols & _). congruence.
  - done.
  - intros r. rewrite Hperm, filter_In, weekly_match_spec. tauto.
  - apply weekly_rows_sorted.
  - intros Hnone. rewrite (filter_none _ _ Hnone) in Hperm.
    symmetry in Hperm. apply Permutation_nil in Hperm. rewrite Hperm in Hall. by inversion Hall.
Qed.

(** C10: in a weekly-data response [total_weeks] is the number of elements
    of [data] (0 for an empty result) and [metal] is the uppercased metal of
    the request, in the sense of [str.upper]: [gold] is echoed as [GOLD],
    [goldé] as [GOLDÉ] and [straße] as [STRASSE]. *)
Theorem weekly_totals (db : database) (metal cycle : string) :
  (∃ body,
     get_weekly_data db metal cycle = Json200 body ∧
     WeeklyData.total_weeks body = Z.of_nat (length (WeeklyData.data body)) ∧
     WeeklyData.metal body = Py.upper metal ∧
     (WeeklyData.data body = [] → WeeklyData.total_weeks body = 0)) ∧
  (∃ body, get_weekly_data db "gold" cycle = Json200 body
           ∧ WeeklyData.metal body = "GOLD") ∧
  (∃ body, get_weekly_data db "goldé" cycle = Json200 body
           ∧ WeeklyData.metal body = "GOLDÉ") ∧
  (∃ body, get_weekly_data db "straße" cycle = Json200 body
           ∧ WeeklyData.metal body = "STRASSE").
Proof.
  assert (∀ metal, ∃ body,
     get_weekly_data db metal cycle = Json200 body ∧
     WeeklyData.total_weeks body = Z.of_nat (length (WeeklyData.data body)) ∧
     WeeklyData.metal body = Py.upper metal ∧
     (WeeklyData.data body = [] → WeeklyData.total_weeks body = 0)) as Hall.
  { intros m. destruct (get_weekly_data_body db m cycle) as (data & _ & ->).
    eexists. split; [reflexivity|]. cbn. repeat split. by intros ->. }
  split; [apply Hall|].
  split_and!.
  - destruct (Hall "gold") as (body & Hbody & _ & Hmetal & _).
    exists body. split; [done|]. rewrite Hmetal. by vm_compute.
  - destruct (Hall "goldé") as (body & Hbody & _ & Hmetal & _).
    exists body. split; [done|]. rewrite Hmetal. by vm_compute.
  - destruct (Hall "straße") as (body & Hbody & _ & Hmetal & _).
    exists body. split; [done|]. rewrite Hmetal. by vm_compute.
Qed.

(** The example store through the weekly handler: the NULL change is normal,
    the change of exactly 5 is high, the change of exactly -2 is volatile. *)
Example weekly_example :
  ∃ body,
    get_weekly_data Example.db "gold" "gold_2024_current" = Json200 body ∧
    WeeklyData.total_weeks body = 3 ∧
    (λ p, (WeeklyPoint.week p, WeeklyPoint.volatilityLevel p, WeeklyPoint.dotColor p))
      <$> WeeklyData.data body
    = [(0, "normal", "#22c55e"); (1, "high_volatility", "#ef4444");
       (2, "volatile", "#eab308")].
Proof. eexists. split; [vm_compute; reflexivity|]. by vm_compute. Qed.

(** ** Raw data *)

Lemma bind_int_ok (z : Z) : in_int64 z → Sql.bind_int z = Py.Ok z.
Proof.
  intros [Hlo Hhi]. unfold Sql.bind_int.
  by rewrite (proj2 (Z.leb_le _ _) Hlo), (proj2 (Z.ltb_lt _ _) Hhi).
Qed.

Lemma bind_int_inv (z z' : Z) : Sql.bind_int z = Py.Ok z' → in_int64 z ∧ z' = z.
Proof.
  unfold Sql.bind_int, in_int64.
  destruct (- 2 ^ 63 <=? z) eqn:Hlo; destruct (z <? 2 ^ 63) eqn:Hhi; simpl; try done.
  intros [= <-]. apply Z.leb_le in Hlo. apply Z.ltb_lt in Hhi. done.
Qed.

Lemma limit_offset_fmap {A B : Type} (f : A → B) (limit offset : Z) (l : list A) :
  f <$> Sql.limit_offset limit offset l = Sql.limit_offset limit offset (f <$> l).
Proof.
  unfold Sql.limit_offset. destruct (limit <? 0).
  - by rewrite fmap_drop.
  - by rewrite fmap_take, fmap_drop.
Qed.

(** *** Texts that are read are not refused *)

Lemma step_nul (st : Sql.lex_state) : Sql.step st Sql.nul = None.
Proof. by destruct st. Qed.

Lemma lex_scan (s : string) :
  ∀ st seen ts,
    Sql.lex st seen s = Some ts →
    Sql.has_nul s = false ∧
    ∃ st', Sql.scan st s = Some st' ∧ ∀ acc, st' ≠ Sql.InStr acc.
Proof.
  induction s as [|c s IH]; intros st seen ts Hlex.
  - split; [done|]. exists st. split; [done|]. intros acc ->. by cbn in Hlex.
  - cbn [Sql.lex] in Hlex. cbn [Sql.scan Sql.has_nul].
    destruct (Ascii.eqb_spec c Sql.nul) as [->|_].
    { by rewrite step_nul in Hlex. }
    destruct (Sql.step st c) as [[tokens st']|]; [|done].
    by apply IH in Hlex.
Qed.

Lemma where_clause_read (text : string) (matching : PriceRow.t → bool) :
  Sql.where_clause text = Some matching →
  Sql.has_nul text = false ∧ Sql.refused text = None.
Proof.
  unfold Sql.where_clause, Sql.refused.
  destruct (Sql.lex Sql.Idle [] text) as [ts|] eqn:Hlex; [|done]. intros _.
  apply lex_scan in Hlex as (-> & st' & -> & Hopen).
  split; [done|]. destruct st'; try done. by destruct (Hopen acc).
Qed.

Lemma has_nul_app (a b : string) :
  Sql.has_nul (a +:+ b) = Sql.has_nul a || Sql.has_nul b.
Proof.
  induction a as [|c a IH]; [done|].
  change (Ascii.eqb c Sql.nul || Sql.has_nul (a +:+ b)
          = Ascii.eqb c Sql.nul || Sql.has_nul a || Sql.has_nul b).
  by rewrite IH, orb_assoc.
Qed.

Lemma get_raw_data_inv (db : database) (args : list (string * string))
    (metal cycle : string) (body : RawData.t) :
  get_raw_data db args metal cycle = Some (Json200 body) →
  ∃ matching,
    Sql.where_clause (snd (raw_source metal cycle)) = Some matching ∧
    in_int64 (args_get args "limit" 100) ∧
    in_int64 (args_get args "offset" 0) ∧
    RawData.metal body = Py.upper metal ∧
    RawData.cycle body = cycle ∧
    RawData.data body =
      Sql.limit_offset (args_get args "limit" 100) (args_get args "offset" 0)
        (full_series db metal cycle matching) ∧
    RawData.total_records body =
      Z.of_nat (length (matching_rows db metal cycle matching)) ∧
    RawData.limit body = args_get args "limit" 100 ∧
    RawData.offset body = args_get args "offset" 0 ∧
    RawData.has_more body =
      (args_get args "offset" 0 + args_get args "limit" 100 <?
       Z.of_nat (length (matching_rows db metal cycle matching))).
Proof.
  unfold get_raw_data, full_series, matching_rows.
  destruct (raw_source metal cycle) as [table cycle_filter]. cbn [fst snd].
  destruct (Sql.refused cycle_filter); [done|].
  destruct (Sql.where_clause cycle_filter) as [matching|]; [|done].
  cbn [mbind option_bind].
  destruct (Sql.bind_int (args_get args "limit" 100)) as [l|e] eqn:Hl; [|done].
  destruct (Sql.bind_int (args_get args "offset" 0)) as [o|e] eqn:Ho; [|done].
  apply bind_int_inv in Hl as [Hl ->]. apply bind_int_inv in Ho as [Ho ->].
  cbn. intros [= <-]. exists matching. cbn.
  split_and!; try done. apply limit_offset_fmap.
Qed.

Lemma get_raw_data_runs (db : database) (args : list (string * string))
    (metal cycle : string) (matching : PriceRow.t → bool) :
  Sql.where_clause (snd (raw_source metal cycle)) = Some matching →
  in_int64 (args_get args "limit" 100) →
  in_int64 (args_get args "offset" 0) →
  ∃ body, get_raw_data db args metal cycle = Some (Json200 body).
Proof.
  intros Hw Hl Ho. unfold get_raw_data.
  destruct (raw_source metal cycle) as [table cycle_filter]. cbn [snd] in Hw.
  rewrite (proj2 (where_clause_read _ _ Hw)), Hw. cbn [mbind option_bind].
  rewrite (bind_int_ok _ Hl), (bind_int_ok _ Ho). cbn. by eexists.
Qed.

Lemma full_series_sorted (db : database) (metal cycle : string)
    (matching : PriceRow.t → bool) :
  Sorted newer_first (full_series db metal cycle matching).
Proof.
  unfold full_series, serialize_data.
  apply (Sorted_fmap _ (λ a b, date_desc a b = true)); [done|].
  apply SqlFacts.order_by_sorted. intros a b Hab. unfold date_desc in *.
  destruct (String.leb_total (PriceRow.date a) (PriceRow.date b)); congruence.
Qed.

Lemma limit_offset_page {A : Type} (n k : nat) (l : list A) :
  Sql.limit_offset (Z.of_nat n) (Z.of_nat k) l = take n (drop k l).
Proof.
  unfold Sql.limit_offset.
  rewrite (proj2 (Z.ltb_ge _ _)) by lia. by rewrite !Nat2Z.id.
Qed.

(** *** The filter text on quote-free input *)

Lemma append_nil_r (s : string) : s +:+ EmptyString = s.
Proof.
  induction s as [|c s IH]; [done|].
  change (String c (s +:+ EmptyString) = String c s). by rewrite IH.
Qed.

Lemma append_assoc (a b c : string) : (a +:+ b) +:+ c = a +:+ b +:+ c.
Proof.
  induction a as [|x a IH]; [done|].
  change (String x ((a +:+ b) +:+ c) = String x (a +:+ b +:+ c)). by rewrite IH.
Qed.

(** Inside a literal, text without a quote is read up to the closing quote. *)
Lemma lex_literal (s : string) :
  quote_free s = true → Sql.has_nul s = false →
  ∀ acc seen rest,
    Sql.lex (Sql.InStr acc) seen (s +:+ String Sql.quote rest)
    = Sql.lex (Sql.AfterQuote (acc +:+ s)) seen rest.
Proof.
  induction s as [|c s IH]; intros Hs Hz acc seen rest.
  - rewrite append_nil_r.
    change (Sql.lex (Sql.AfterQuote acc) (seen ++ []) rest
            = Sql.lex (Sql.AfterQuote acc) seen rest).
    by rewrite app_nil_r.
  - simpl in Hs. apply andb_true_iff in Hs as [Hc Hs].
    apply negb_true_iff in Hc.
    cbn [Sql.has_nul] in Hz. apply orb_false_iff in Hz as [Hn Hz].
    change (Sql.lex (Sql.InStr acc) seen (String c (s +:+ String Sql.quote rest))
            = Sql.lex (Sql.AfterQuote (acc +:+ String c s)) seen rest).
    cbn [Sql.lex Sql.step]. rewrite Hc, Hn, app_nil_r, IH by done.
    unfold Sql.snoc. by rewrite append_assoc.
Qed.

Lemma lex_metal_filter (m : string) :
  quote_free m = true → Sql.has_nul m = false →
  Sql.lex Sql.Idle [] ("metal = '" +:+ m +:+ "'")
  = Some [Sql.TId "METAL"; Sql.TEq; Sql.TStr m].
Proof.
  intros Hm Hz.
  change (Sql.lex Sql.Idle [] ("metal = '" +:+ m +:+ "'"))
    with (Sql.lex (Sql.InStr EmptyString) [Sql.TId "METAL"; Sql.TEq] (m +:+ "'")).
  by rewrite (lex_literal m Hm Hz).
Qed.

Lemma lex_metal_cycle_filter (m c : string) :
  quote_free m = true → Sql.has_nul m = false →
  quote_free c = true → Sql.has_nul c = false →
  Sql.lex Sql.Idle [] ("metal = '" +:+ m +:+ "' AND cycle_name = '" +:+ c +:+ "'")
  = Some [Sql.TId "METAL"; Sql.TEq; Sql.TStr m; Sql.TAnd;
          Sql.TId "CYCLE_NAME"; Sql.TEq; Sql.TStr c].
Proof.
  intros Hm Hmz Hc Hcz.
  change (Sql.lex Sql.Idle []
            ("metal = '" +:+ m +:+ "' AND cycle_name = '" +:+ c +:+ "'"))
    with (Sql.lex (Sql.InStr EmptyString) [Sql.TId "METAL"; Sql.TEq]
            (m +:+ String Sql.quote (" AND cycle_name = '" +:+ c +:+ "'"))).
  rewrite (lex_literal m Hm Hmz).
  change (Sql.lex (Sql.AfterQuote (EmptyString +:+ m)) [Sql.TId "METAL"; Sql.TEq]
            (" AND cycle_name = '" +:+ c +:+ "'"))
    with (Sql.lex (Sql.InStr EmptyString)
            [Sql.TId "METAL"; Sql.TEq; Sql.TStr m; Sql.TAnd;
             Sql.TId "CYCLE_NAME"; Sql.TEq]
            (c +:+ "'")).
  by rewrite (lex_literal c Hc Hcz).
Qed.

(** What the two filters mean when the pasted strings hold no quote. *)
Lemma where_metal (m : string) :
  quote_free m = true → Sql.has_nul m = false →
  ∃ matching,
    Sql.where_clause ("metal = '" +:+ m +:+ "'") = Some matching ∧
    ∀ row, matching row = String.eqb (PriceRow.metal row) m.
Proof.
  intros Hm Hz. unfold Sql.where_clause. rewrite (lex_metal_filter m Hm Hz).
  eexists. split; [reflexivity|]. intros row. cbn.
  by rewrite andb_true_r, orb_false_r.
Qed.

Lemma where_metal_cycle (m c : string) :
  quote_free m = true → Sql.has_nul m = false →
  quote_free c = true → Sql.has_nul c = false →
  ∃ matching,
    Sql.where_clause ("metal = '" +:+ m +:+ "' AND cycle_name = '" +:+ c +:+ "'")
    = Some matching ∧
    ∀ row, matching row
           = String.eqb (PriceRow.metal row) m
             && String.eqb (PriceRow.cycle_name row) c.
Proof.
  intros Hm Hmz Hc Hcz. unfold Sql.where_clause.
  rewrite (lex_metal_cycle_filter m c Hm Hmz Hc Hcz).
  eexists. split; [reflexivity|]. intros row. cbn.
  by rewrite andb_true_r, orb_false_r.
Qed.

(** The parts of a filter text without a NUL have none. *)
Lemma raw_source_no_nul (metal cycle : string) :
  Sql.has_nul (snd (raw_source metal cycle)) = false →
  Sql.has_nul (Py.upper metal) = false ∧
  (Py.endswith cycle "_current" = false → Sql.has_nul cycle = false).
Proof.
  unfold raw_source. destruct (Py.endswith cycle "_current"); cbn [snd];
    rewrite !has_nul_app; intros H; repeat (apply orb_false_iff in H as [? H]);
    repeat match goal with H : _ || _ = false |- _ => apply orb_false_iff in H as [? ?] end;
    by split.
Qed.

(** The filter text of quote-free input is read when it holds no NUL. *)
Lemma raw_source_read (metal cycle : string) :
  quote_free (Py.upper metal) = true → quote_free cycle = true →
  Sql.has_nul (Py.upper metal) = false → Sql.has_nul cycle = false →
  ∃ matching, Sql.where_clause (snd (raw_source metal cycle)) = Some matching.
Proof.
  intros Hm Hc Hmz Hcz. unfold raw_source.
  destruct (Py.endswith cycle "_current"); cbn [snd].
  - destruct (where_metal _ Hm Hmz) as (matching & Hw & _). by exists matching.
  - destruct (where_metal_cycle _ _ Hm Hmz Hc Hcz) as (matching & Hw & _).
    by exists matching.
Qed.

(** On such input the handler reads the rows the specification promises. *)
Lemma raw_source_rows_plain (db : database) (metal cycle : string)
    (matching : PriceRow.t → bool) :
  Sql.where_clause (snd (raw_source metal cycle)) = Some matching →
  quote_free (Py.upper metal) = true → quote_free cycle = true →
  matching_rows db metal cycle matching = claimed_rows db metal cycle.
Proof.
  intros Hw Hm Hc.
  destruct (raw_source_no_nul metal cycle (proj1 (where_clause_read _ _ Hw)))
    as [Hmz Hcz].
  revert Hw Hcz. unfold matching_rows, claimed_rows, raw_source.
  destruct (Py.endswith cycle "_current"); cbn [fst snd]; intros Hw Hcz.
  - destruct (where_metal _ Hm Hmz) as (matching' & Hw' & Hrow).
    assert (matching' = matching) as -> by congruence. by apply filter_ext.
  - destruct (where_metal_cycle _ _ Hm Hmz Hc (Hcz eq_refl)) as (matching' & Hw' & Hrow).
    assert (matching' = matching) as -> by congruence. by apply filter_ext.
Qed.

(** C3: in every raw-data response [has_more] is true exactly when
    [offset + limit < total_records], and [total_records] counts all the
    rows of the selected table that pass the filter, whatever the page
    holds; on input without a quote these are the rows of the metal (and
    cycle) the specification names. *)
Theorem has_more_iff_rows_remain (db : database) (args : list (string * string))
    (metal cycle : string) (body : RawData.t) :
  get_raw_data db args metal cycle = Some (Json200 body) →
  (RawData.has_more body = true ↔
   RawData.offset body + RawData.limit body < RawData.total_records body) ∧
  (∃ matching,
     Sql.where_clause (snd (raw_source metal cycle)) = Some matching ∧
     RawData.total_records body =
       Z.of_nat (length (matching_rows db metal cycle matching))) ∧
  (quote_free (Py.upper metal) = true → quote_free cycle = true →
   RawData.total_records body = Z.of_nat (length (claimed_rows db metal cycle))).
Proof.
  intros (matching & Hw & _ & _ & _ & _ & _ & Ht & Hl & Ho & Hm)%get_raw_data_inv.
  split_and!; [|by exists matching|].
  - rewrite Hm, Hl, Ho, Ht. apply Z.ltb_lt.
  - intros Hqm Hqc.
    by rewrite Ht, (raw_source_rows_plain db metal cycle matching Hw Hqm Hqc).
Qed.

Lemma has_more_witness :
  ∃ body,
    get_raw_data Example.db [("limit", "1")] "gold" "gold_1978_1980"
      = Some (Json200 body) ∧
    ((RawData.has_more body = true ↔
      RawData.offset body + RawData.limit body < RawData.total_records body) ∧
     (∃ matching,
        Sql.where_clause (snd (raw_source "gold" "gold_1978_1980")) = Some matching ∧
        RawData.total_records body =
          Z.of_nat (length (matching_rows Example.db "gold" "gold_1978_1980" matching))) ∧
     (quote_free (Py.upper "gold") = true → quote_free "gold_1978_1980" = true →
      RawData.total_records body
      = Z.of_nat (length (claimed_rows Example.db "gold" "gold_1978_1980")))).
Proof.
  assert (∃ body, get_raw_data Example.db [("limit", "1")] "gold" "gold_1978_1980"
                  = Some (Json200 body)) as [body Hbody]
    by (eexists; vm_compute; reflexivity).
  exists body. split; [exact Hbody|].
  exact (has_more_iff_rows_remain Example.db [("limit", "1")] "gold" "gold_1978_1980"
           body Hbody).
Defined.

(** The page of that request holds one row of the two that match. *)
Example has_more_on_first_row :
  ∃ body,
    get_raw_data Example.db [("limit", "1")] "gold" "gold_1978_1980"
      = Some (Json200 body) ∧
    RawData.has_more body = true ∧ RawData.total_records body = 2 ∧
    length (RawData.data body) = 1%nat.
Proof. eexists. split; [vm_compute; reflexivity|]. by vm_compute. Qed.

(** C2 at a cycle name that holds a quote: the text pasted into the WHERE
    clause reads as [metal = 'GOLD' AND cycle_name = 'x' OR '1'='1'], and the
    response lists every row of [historical_prices], the silver row
    included, where no row has that cycle name. *)
Theorem quoted_cycle_escapes_filter :
  ∃ body,
    get_raw_data Example.db [] "gold" "x' OR '1'='1" = Some (Json200 body) ∧
    Py.endswith "x' OR '1'='1" "_current" = false ∧
    claimed_rows Example.db "gold" "x' OR '1'='1" = [] ∧
    RawData.total_records body = 3 ∧
    RawRow.date <$> RawData.data body = ["1979-01-05"; "1979-01-03"; "1979-01-02"].
Proof. eexists. split; [vm_compute; reflexivity|]. by vm_compute. Qed.







(** A negative offset and a limit that is no number: both accepted. *)
Example negative_offset_is_accepted :
  ∃ body,
    get_raw_data Example.db [("limit", "abc"); ("offset", "-5")] "gold" "gold_1978_1980"
      = Some (Json200 body) ∧
    RawData.limit body = 100 ∧ RawData.offset body = -5.
Proof. eexists. split; [vm_compute; reflexivity|]. by vm_compute. Qed.

(** With the filter read, the page at offset 0 and the page at offset 50,
    both of limit 50, are answered; they are the first fifty and the next
    fifty positions of the date-descending series of the matching rows, so
    each is ordered newest first, they share no position (and no row, when
    the rows of the series are distinct), and together they are the first
    hundred; on input without a quote the series is that of the rows of the
    metal (and cycle) the specification names. *)
Lemma two_pages_are_contiguous_slices
    (db : database) (metal cycle : string) (page1 page2 : list (string * string))
    (series : list RawRow.t) :
  raw_series db metal cycle = Some series →
  args_get page1 "limit" 100 = 50 → args_get page1 "offset" 0 = 0 →
  args_get page2 "limit" 100 = 50 → args_get page2 "offset" 0 = 50 →
  ∃ b1 b2,
    get_raw_data db page1 metal cycle = Some (Json200 b1) ∧
    get_raw_data db page2 metal cycle = Some (Json200 b2) ∧
    Sorted newer_first series ∧
    RawData.data b1 = take 50 series ∧
    RawData.data b2 = take 50 (drop 50 series) ∧
    (RawData.data b1 ++ RawData.data b2)%list = take 100 series ∧
    Sorted newer_first (RawData.data b1) ∧
    Sorted newer_first (RawData.data b2) ∧
    (∀ i x, RawData.data b1 !! i = Some x →
            (i < 50)%nat ∧ series !! i = Some x) ∧
    (∀ i x, RawData.data b2 !! i = Some x →
            (50 ≤ 50 + i < 100)%nat ∧ series !! (50 + i)%nat = Some x) ∧
    (NoDup series → ∀ x, x ∈ RawData.data b1 → x ∉ RawData.data b2) ∧
    (quote_free (Py.upper metal) = true → quote_free cycle = true →
     series = serialize_data (Sql.order_by date_desc (claimed_rows db metal cycle))).
Proof.
  unfold raw_series. intros Hseries Hl1 Ho1 Hl2 Ho2.
  destruct (Sql.where_clause (snd (raw_source metal cycle)))
    as [matching|] eqn:Hw; [|done].
  injection Hseries as <-.
  pose proof (full_series_sorted db metal cycle matching) as Hsorted.
  destruct (get_raw_data_runs db page1 metal cycle matching Hw) as [b1 Hb1];
    [rewrite ?Hl1, ?Ho1; unfold in_int64; lia..|].
  destruct (get_raw_data_runs db page2 metal cycle matching Hw) as [b2 Hb2];
    [rewrite ?Hl2, ?Ho2; unfold in_int64; lia..|].
  exists b1, b2.
  destruct (get_raw_data_inv _ _ _ _ _ Hb1)
    as (m1 & Hw1 & _ & _ & _ & _ & Hd1 & _).
  destruct (get_raw_data_inv _ _ _ _ _ Hb2)
    as (m2 & Hw2 & _ & _ & _ & _ & Hd2 & _).
  assert (m1 = matching) as -> by congruence.
  assert (m2 = matching) as -> by congruence.
  rewrite Hl1, Ho1 in Hd1. rewrite Hl2, Ho2 in Hd2.
  change 50 with (Z.of_nat 50) in Hd1, Hd2.
  change 0 with (Z.of_nat 0) in Hd1.
  rewrite limit_offset_page in Hd1, Hd2. rewrite drop_0 in Hd1.
  rewrite Hd1, Hd2. split_and!; try done.
  - apply (take_take_drop _ 50 50).
  - by apply SqlFacts.sorted_take.
  - by apply SqlFacts.sorted_take, SqlFacts.sorted_drop.
  - intros i x Hx. pose proof (lookup_lt_Some _ _ _ Hx) as Hlen.
    rewrite length_take in Hlen. split; [lia|].
    by rewrite lookup_take_lt in Hx by lia.
  - intros i x Hx. pose proof (lookup_lt_Some _ _ _ Hx) as Hlen.
    rewrite length_take in Hlen. split; [lia|].
    rewrite lookup_take_lt in Hx by lia. by rewrite lookup_drop in Hx.
  - intros Hnodup.
    assert (NoDup (take 100 (full_series db metal cycle matching))) as Hpages
      by (eapply sublist_NoDup; [exact Hnodup | apply sublist_take]).
    rewrite <- (take_take_drop _ 50 50) in Hpages.
    by apply NoDup_app in Hpages as (_ & Hdisjoint & _).
  - intros Hqm Hqc. unfold full_series.
    by rewrite (raw_source_rows_plain db metal cycle matching Hw Hqm Hqc).
Qed.

Lemma two_pages_witness :
  ∃ b1 b2,
    get_raw_data Example.db_long [("limit", "50"); ("offset", "0")]
      "silver" "silver_1978_1980" = Some (Json200 b1) ∧
    get_raw_data Example.db_long [("limit", "50"); ("offset", "50")]
      "silver" "silver_1978_1980" = Some (Json200 b2) ∧
    RawData.data b1 = take 50 (serialize_data (rev Example.long_run)) ∧
    RawData.data b2 = drop 50 (serialize_data (rev Example.long_run)) ∧
    length (RawData.data b1) = 50%nat ∧ length (RawData.data b2) = 10%nat.
Proof.
  destruct (two_pages_are_contiguous_slices Example.db_long
              "silver" "silver_1978_1980"
              [("limit", "50"); ("offset", "0")] [("limit", "50"); ("offset", "50")]
              (serialize_data (rev Example.long_run)))
    as (b1 & b2 & H1 & H2 & _ & Hd1 & Hd2 & _); try (vm_compute; reflexivity).
  exists b1, b2. rewrite Hd1, Hd2. split_and!; try done; by vm_compute.
Defined.

(** C9 at a cycle name that ends in a quote: the text pasted into the WHERE
    clause reads as [metal = 'SILVER' AND cycle_name = 'x''] with the last
    literal left open, and both pages end in the except clause, with status
    500, where the series of the rows of that metal and cycle is the empty
    one and two empty pages are its slices.  The weekly handler, which binds
    the same two values, answers the same metal and cycle with an empty
    result. *)
Theorem unclosed_quote_fails_both_pages :
  get_raw_data Example.db_long [("limit", "50"); ("offset", "0")] "silver" "x'"
    = Some (Json500 Py.OperationalError) ∧
  get_raw_data Example.db_long [("limit", "50"); ("offset", "50")] "silver" "x'"
    = Some (Json500 Py.OperationalError) ∧
  snd (raw_source "silver" "x'") = "metal = 'SILVER' AND cycle_name = 'x''" ∧
  claimed_rows Example.db_long "silver" "x'" = [] ∧
  (∃ body, get_weekly_data Example.db_long "silver" "x'" = Json200 body
           ∧ WeeklyData.data body = []).
Proof.
  split_and!; try (vm_compute; reflexivity).
  eexists. split; vm_compute; reflexivity.
Qed.

(** ** Market summary *)

(** [MAX] is NULL exactly when every value is NULL, and is one of the values
    otherwise. *)
Lemma sql_max_none (l : list real) :
  Sql.sql_max l = None ↔ Forall (λ v, v = None) l.
Proof.
  induction l as [|v l IH]; cbn; [by split|].
  change (foldr Sql.real_max None l) with (Sql.sql_max l).
  destruct v as [x|]; cbn.
  - split; [by destruct (Sql.sql_max l) | by inversion 1].
  - rewrite IH. split; [by constructor | by inversion 1].
Qed.

Lemma sql_max_in (l : list real) (x : float) :
  Sql.sql_max l = Some x → In (Some x) l.
Proof.
  induction l as [|v l IH]; cbn; [done|].
  change (foldr Sql.real_max None l) with (Sql.sql_max l).
  destruct v as [y|]; cbn; [|by right; apply IH].
  destruct (Sql.sql_max l) as [z|]; [|by intros [= ->]; left].
  destruct (y <? z)%float; intros [= <-]; [right; by apply IH | by left].
Qed.

Lemma float_of_100 : Py.float_of_Z 100 = 100%float.
Proof. reflexivity. Qed.

Lemma percent_return_inv (a b : real) (r : Py.pyval) :
  percent_return (fetch a) (fetch b) = Py.Ok r →
  ∃ x y, a = Some x ∧ b = Some y ∧ (y =? 0)%float = false ∧
         r = Py.PyFloat ((x - y) / y * 100).
Proof.
  unfold percent_return. destruct a as [x|], b as [y|]; cbn; try done.
  unfold Py.float_truediv. destruct (y =? 0)%float eqn:Hy; cbn; [done|].
  rewrite float_of_100. intros [= <-]. by exists x, y.
Qed.

Lemma percent_return_no_start (a : real) :
  percent_return (fetch a) (fetch None) = Py.Raise Py.TypeError.
Proof. by destruct a. Qed.

Lemma percent_return_zero_start (a : real) (y : float) :
  (y =? 0)%float = true →
  ∃ e, percent_return (fetch a) (fetch (Some y)) = Py.Raise e.
Proof.
  intros Hy. unfold percent_return. destruct a as [x|]; cbn; [|by eexists].
  unfold Py.float_truediv. rewrite Hy. by eexists.
Qed.

Lemma get_market_summary_steps (db : database) (now : string) :
  get_market_summary db now =
  guarded (s1 ← summarize db ∅ "GOLD";
           s2 ← summarize db s1 "SILVER";
           Py.Ok {| MarketSummary.summary := s2; MarketSummary.timestamp := now |}).
Proof.
  unfold get_market_summary. cbn [foldl]. unfold mbind, result_bind, Py.bind.
  destruct (summarize db ∅ "GOLD") as [s1|e]; [|done].
  by destruct (summarize db s1 "SILVER").
Qed.

Lemma summarize_entry (db : database) (s : gmap string SummaryRecord.t) (metal : string) :
  summarize db s metal =
  (entry ← metal_entry db metal; Py.Ok (with_entry (Py.lower metal) entry s)).
Proof.
  unfold summarize, metal_entry, current_cycle.
  destruct (latest_price db metal) as [cur|]; [|done].
  destruct (cycle_start db metal _) as [cyc|]; [|done].
  unfold mbind, result_bind, Py.bind.
  by destruct (summary_record db metal cur cyc).
Qed.

Lemma get_market_summary_cases (db : database) (now : string) :
  get_market_summary db now =
  match metal_entry db "GOLD", metal_entry db "SILVER" with
  | Py.Ok gold, Py.Ok silver =>
      Json200 {| MarketSummary.summary :=
                   with_entry "silver" silver (with_entry "gold" gold ∅);
                 MarketSummary.timestamp := now |}
  | Py.Raise e, _ => Json500 e
  | Py.Ok _, Py.Raise e => Json500 e
  end.
Proof.
  rewrite get_market_summary_steps. unfold mbind, result_bind, Py.bind.
  rewrite (summarize_entry db ∅ "GOLD"). unfold mbind, result_bind, Py.bind.
  destruct (metal_entry db "GOLD") as [gold|e]; [|done].
  rewrite summarize_entry. unfold mbind, result_bind, Py.bind.
  by destruct (metal_entry db "SILVER").
Qed.

Lemma lookup_entries (gold silver : option SummaryRecord.t) :
  with_entry "silver" silver (with_entry "gold" gold ∅) !! "gold" = gold ∧
  with_entry "silver" silver (with_entry "gold" gold ∅) !! "silver" = silver.
Proof.
  unfold with_entry. destruct gold, silver; split; by simplify_map_eq.
Qed.

(** The entry of a tracked metal in a 200 response is what the loop body
    worked out for it. *)
Lemma summary_lookup (db : database) (now metal : string) (body : MarketSummary.t) :
  tracked metal →
  get_market_summary db now = Json200 body →
  metal_entry db metal = Py.Ok (MarketSummary.summary body !! Py.lower metal).
Proof.
  intros Hm. rewrite get_market_summary_cases.
  destruct (metal_entry db "GOLD") as [gold|e] eqn:Hg; [|done].
  destruct (metal_entry db "SILVER") as [silver|e] eqn:Hs; [|done].
  intros [= <-]. cbn [MarketSummary.summary].
  destruct (lookup_entries gold silver) as [Hlg Hls].
  destruct Hm as [-> | ->].
  - change (Py.lower "GOLD") with "gold". by rewrite Hlg.
  - change (Py.lower "SILVER") with "silver". by rewrite Hls.
Qed.

Lemma latest_price_none (db : database) (metal : string) :
  no_current_price db metal → latest_price db metal = None.
Proof.
  intros Hno. unfold latest_price. rewrite filter_none; [done|].
  intros r Hr. apply String.eqb_neq.
  eapply (proj1 (List.Forall_forall _ _)) in Hno; eauto.
Qed.

Lemma cycle_start_none (db : database) (metal : string) :
  no_current_cycle db metal → cycle_start db metal (current_cycle metal) = None.
Proof.
  intros Hno. unfold cycle_start. rewrite filter_none; [done|].
  intros c Hc. eapply (proj1 (List.Forall_forall _ _)) in Hno; eauto.
  apply andb_false_iff.
  destruct (String.eqb_spec (MarketCycle.metal c) metal) as [Hm|]; [|by left].
  destruct (String.eqb_spec (MarketCycle.cycle_name c) (current_cycle metal)); [|by right].
  tauto.
Qed.

Lemma metal_entry_lacking (db : database) (metal : string) :
  no_current_price db metal ∨ no_current_cycle db metal →
  metal_entry db metal = Py.Ok None.
Proof.
  unfold metal_entry. intros [Hno | Hno].
  - by rewrite latest_price_none.
  - rewrite cycle_start_none by done. by destruct (latest_price db metal).
Qed.

Lemma summary_record_inv (db : database) (metal : string)
    (cur : PriceRow.t) (cyc : MarketCycle.t) (rec : SummaryRecord.t) :
  summary_record db metal cur cyc = Py.Ok rec →
  ∃ current_return peak_return,
    percent_return (fetch (PriceRow.close_price cur))
                   (fetch (MarketCycle.start_price cyc)) = Py.Ok current_return ∧
    hist_peak_return db metal (fetch (peak_price db metal (reference_cycle metal)))
      = Py.Ok peak_return ∧
    Py.py_round1 current_return = Py.Ok (SummaryRecord.currentReturn rec) ∧
    Py.py_round1 peak_return = Py.Ok (SummaryRecord.historicalPeakReturn rec) ∧
    SummaryRecord.currentPrice rec = fetch (PriceRow.close_price cur) ∧
    SummaryRecord.historicalPeak rec
      = fetch (peak_price db metal (reference_cycle metal)).
Proof.
  unfold summary_record, reference_cycle. cbn zeta.
  unfold mbind, result_bind, Py.bind.
  destruct (percent_return _ _) as [cr|]; [|done].
  destruct (hist_peak_return _ _ _) as [pr|]; [|done].
  destruct (Py.py_round1 cr) as [rr|] eqn:Hrr; [|done].
  destruct (Py.py_round1 pr) as [rp|] eqn:Hrp; [|done].
  intros [= <-]. exists cr, pr. by split_and!.
Qed.

Lemma metal_entry_present (db : database) (metal : string)
    (cur : PriceRow.t) (cyc : MarketCycle.t) :
  latest_price db metal = Some cur →
  cycle_start db metal (current_cycle metal) = Some cyc →
  metal_entry db metal
  = (record ← summary_record db metal cur cyc; Py.Ok (Some record)).
Proof. intros Hcur Hcyc. unfold metal_entry. by rewrite Hcur, Hcyc. Qed.

Lemma metal_entry_some (db : database) (metal : string) (rec : SummaryRecord.t) :
  metal_entry db metal = Py.Ok (Some rec) →
  ∃ cur cyc,
    latest_price db metal = Some cur ∧
    cycle_start db metal (current_cycle metal) = Some cyc ∧
    summary_record db metal cur cyc = Py.Ok rec.
Proof.
  unfold metal_entry.
  destruct (latest_price db metal) as [cur|]; [|done].
  destruct (cycle_start db metal _) as [cyc|]; [|done].
  unfold mbind, result_bind, Py.bind.
  destruct (summary_record db metal cur cyc) as [r|] eqn:Hr; [|done].
  intros [= ->]. by exists cur, cyc.
Qed.

(** An exception in the loop body of a tracked metal ends the request. *)
Lemma metal_entry_raise (db : database) (now metal : string) (e : Py.exn) :
  tracked metal → metal_entry db metal = Py.Raise e →
  ∃ e', get_market_summary db now = Json500 e'.
Proof.
  intros [-> | ->] He; rewrite get_market_summary_cases.
  - rewrite He. by eexists.
  - rewrite He. destruct (metal_entry db "GOLD"); by eexists.
Qed.

Lemma round1_example : Py.float_round1 ((125 - 100) / 100 * 100) = 25%float.
Proof. reflexivity. Qed.

(** C5: for a metal with a latest current price and a current-cycle row, a
    200 response carries [currentReturn = round((price - start) / start *
    100, 1)], the price and start being both present and the start not
    zero; a price of 125 on a start of 100 gives exactly 25.0; and a start
    price that is zero or NULL ends the request in an error, never in a
    return of zero. *)
Theorem current_return_is_percent_change
    (db : database) (now metal : string) (cur : PriceRow.t) (cyc : MarketCycle.t) :
  tracked metal →
  latest_price db metal = Some cur →
  cycle_start db metal (current_cycle metal) = Some cyc →
  (∀ body, get_market_summary db now = Json200 body →
     ∃ rec price start,
       MarketSummary.summary body !! Py.lower metal = Some rec ∧
       PriceRow.close_price cur = Some price ∧
       MarketCycle.start_price cyc = Some start ∧
       (start =? 0)%float = false ∧
       SummaryRecord.currentPrice rec = Py.PyFloat price ∧
       SummaryRecord.currentReturn rec
       = Py.PyFloat (Py.float_round1 ((price - start) / start * 100))) ∧
  (PriceRow.close_price cur = Some 125%float →
   MarketCycle.start_price cyc = Some 100%float →
   ∀ body, get_market_summary db now = Json200 body →
     ∃ rec, MarketSummary.summary body !! Py.lower metal = Some rec ∧
            SummaryRecord.currentReturn rec = Py.PyFloat 25) ∧
  (MarketCycle.start_price cyc = None
   ∨ (∃ start, MarketCycle.start_price cyc = Some start ∧ (start =? 0)%float = true) →
   ∃ e, get_market_summary db now = Json500 e).
Proof.
  intros Hm Hcur Hcyc.
  pose proof (metal_entry_present db metal cur cyc Hcur Hcyc) as Hentry.
  assert (∀ body, get_market_summary db now = Json200 body →
     ∃ rec price start,
       MarketSummary.summary body !! Py.lower metal = Some rec ∧
       PriceRow.close_price cur = Some price ∧
       MarketCycle.start_price cyc = Some start ∧
       (start =? 0)%float = false ∧
       SummaryRecord.currentPrice rec = Py.PyFloat price ∧
       SummaryRecord.currentReturn rec
       = Py.PyFloat (Py.float_round1 ((price - start) / start * 100))) as Hmain.
  { intros body Hbody.
    pose proof (summary_lookup db now metal body Hm Hbody) as Hlook.
    rewrite Hentry in Hlook. unfold mbind, result_bind, Py.bind in Hlook.
    destruct (summary_record db metal cur cyc) as [rec|] eqn:Hrec; [|done].
    injection Hlook as Hlook.
    destruct (summary_record_inv _ _ _ _ _ Hrec)
      as (cr & pr & Hcr & _ & Hround & _ & Hprice & _).
    destruct (percent_return_inv _ _ _ Hcr) as (x & y & Hx & Hy & Hy0 & ->).
    exists rec, x, y. split_and!; try done.
    - by rewrite Hprice, Hx.
    - cbn in Hround. congruence. }
  split_and!; [exact Hmain | |].
  - intros Hp Hs body Hbody.
    destruct (Hmain body Hbody) as (rec & x & y & Hrec & Hx & Hy & _ & _ & Hret).
    exists rec. split; [done|].
    assert (x = 125%float) as -> by congruence.
    assert (y = 100%float) as -> by congruence.
    by rewrite Hret, round1_example.
  - intros Hbad.
    assert (∃ e, metal_entry db metal = Py.Raise e) as [e He].
    { rewrite Hentry. unfold summary_record. cbn zeta.
      destruct Hbad as [-> | (start & -> & Hz)].
      - rewrite percent_return_no_start. by eexists.
      - destruct (percent_return_zero_start (PriceRow.close_price cur) start Hz)
          as [e ->]. by eexists. }
    by apply (metal_entry_raise db now metal e).
Qed.

Lemma current_return_witness :
  ∃ body rec,
    get_market_summary Example.db "2024-01-04T00:00:00" = Json200 body ∧
    MarketSummary.summary body !! "gold" = Some rec ∧
    SummaryRecord.currentReturn rec = Py.PyFloat 25.
Proof.
  destruct (current_return_is_percent_change Example.db "2024-01-04T00:00:00" "GOLD"
              (Example.price "GOLD" "gold_2024_current" "2024-01-03" 125 1 1 0)
              (Example.cycle "GOLD" "gold_2024_current" (Some 100%float)))
    as (_ & H25 & _); [by left | reflexivity | reflexivity |].
  assert (∃ body, get_market_summary Example.db "2024-01-04T00:00:00" = Json200 body)
    as [body Hbody] by (eexists; vm_compute; reflexivity).
  destruct (H25 eq_refl eq_refl body Hbody) as (rec & Hrec & Hret).
  by exists body, rec.
Defined.

(** A start price of zero, and a NULL one, end the request with status 500. *)
Example zero_start_price_is_an_error :
  get_market_summary Example.db_zero_start "2024-01-04T00:00:00"
  = Json500 Py.ZeroDivisionError.
Proof. vm_compute. reflexivity. Qed.

Example null_start_price_is_an_error :
  get_market_summary Example.db_null_start "2024-01-04T00:00:00"
  = Json500 Py.TypeError.
Proof. vm_compute. reflexivity. Qed.

(** C6: a tracked metal without a row in [current_prices], or without its
    current cycle in [market_cycles], adds nothing to the summary and raises
    nothing: a 200 response has no entry under its key, the request succeeds
    whenever the round of the other metal does, and an error response can
    only come from that other round. *)
Theorem missing_metal_is_omitted (db : database) (now metal other : string) :
  tracked metal → tracked other → other ≠ metal →
  no_current_price db metal ∨ no_current_cycle db metal →
  (∀ so_far, summarize db so_far metal = Py.Ok so_far) ∧
  (∀ body, get_market_summary db now = Json200 body →
           MarketSummary.summary body !! Py.lower metal = None) ∧
  (∀ entries, summarize db ∅ other = Py.Ok entries →
              ∃ body, get_market_summary db now = Json200 body
                      ∧ MarketSummary.summary body = entries) ∧
  (∀ e, get_market_summary db now = Json500 e →
        summarize db ∅ other = Py.Raise e).
Proof.
  intros Hm Ho Hne Hlacks.
  pose proof (metal_entry_lacking db metal Hlacks) as Hentry.
  split_and!.
  - intros so_far. by rewrite summarize_entry, Hentry.
  - intros body Hbody.
    pose proof (summary_lookup db now metal body Hm Hbody) as Hlook. congruence.
  - intros entries. rewrite summarize_entry, get_market_summary_cases.
    unfold mbind, result_bind, Py.bind.
    destruct Hm as [-> | ->], Ho as [-> | ->]; try done; rewrite Hentry.
    + destruct (metal_entry db "SILVER"); [|done]. intros [= <-]. by eexists.
    + destruct (metal_entry db "GOLD"); [|done]. intros [= <-]. by eexists.
  - intros e. rewrite summarize_entry, get_market_summary_cases.
    unfold mbind, result_bind, Py.bind.
    destruct Hm as [-> | ->], Ho as [-> | ->]; try done; rewrite ?Hentry.
    + destruct (metal_entry db "SILVER"); [done|]. by intros [= <-].
    + destruct (metal_entry db "GOLD"); [done|]. by intros [= <-].
Qed.

Lemma missing_metal_witness :
  ∃ body,
    get_market_summary Example.db "2024-01-04T00:00:00" = Json200 body ∧
    MarketSummary.summary body !! "silver" = None ∧
    is_Some (MarketSummary.summary body !! "gold").
Proof.
  destruct (missing_metal_is_omitted Example.db "2024-01-04T00:00:00" "SILVER" "GOLD")
    as (_ & Hnone & Hruns & _).
  - by right.
  - by left.
  - done.
  - left. by repeat constructor.
  - destruct (Hruns _ eq_refl) as (body & Hbody & Hsum).
    exists body. split; [done|]. split; [by apply Hnone|].
    rewrite Hsum. vm_compute. by eexists.
Defined.

(** C8, as the specification states it, fails: a peak close of exactly 0 is
    there, and so is the start price 200, yet the entry reports 0 and not
    the -100.0 of the formula. *)
Lemma zero_peak_reports_zero : ¬ peak_return_by_formula.
Proof.
  intros Hclaim.
  assert (∃ body rec,
            get_market_summary Example.db_zero_peak "2024-01-04T00:00:00" = Json200 body ∧
            MarketSummary.summary body !! "gold" = Some rec ∧
            SummaryRecord.historicalPeakReturn rec = Py.PyInt 0)
    as (body & rec & Hbody & Hrec & Hzero)
    by (do 2 eexists; split_and!; vm_compute; reflexivity).
  pose proof (Hclaim Example.db_zero_peak "2024-01-04T00:00:00" "GOLD" body rec
                0%float (Example.cycle "GOLD" "gold_1978_1980" (Some 200%float))
                200%float (or_introl eq_refl) Hbody Hrec eq_refl eq_refl eq_refl)
    as Hformula.
  congruence.
Qed.

Lemma percent_return_ok (x y : float) :
  (y =? 0)%float = false →
  percent_return (fetch (Some x)) (fetch (Some y)) = Py.Ok (Py.PyFloat ((x - y) / y * 100)).
Proof.
  intros Hy. unfold percent_return. cbn. unfold Py.float_truediv. rewrite Hy. cbn.
  by rewrite float_of_100.
Qed.

(** The entry of a metal whose current return and peak return are worked
    out. *)
Lemma summary_record_runs (db : database) (metal : string)
    (cur : PriceRow.t) (cyc : MarketCycle.t) (price start : float)
    (peak_return rounded : Py.pyval) :
  PriceRow.close_price cur = Some price →
  MarketCycle.start_price cyc = Some start →
  (start =? 0)%float = false →
  hist_peak_return db metal (fetch (peak_price db metal (reference_cycle metal)))
    = Py.Ok peak_return →
  Py.py_round1 peak_return = Py.Ok rounded →
  ∃ rec, summary_record db metal cur cyc = Py.Ok rec ∧
         SummaryRecord.historicalPeakReturn rec = rounded.
Proof.
  intros Hprice Hstart Hstart0 Hpeak Hround.
  unfold summary_record, reference_cycle in *. cbn zeta.
  rewrite Hprice, Hstart, (percent_return_ok price start Hstart0).
  unfold mbind, result_bind, Py.bind. rewrite Hpeak. cbn [Py.py_round1].
  rewrite Hround. by eexists.
Qed.

Lemma summary_record_raises (db : database) (metal : string)
    (cur : PriceRow.t) (cyc : MarketCycle.t) (e : Py.exn) :
  hist_peak_return db metal (fetch (peak_price db metal (reference_cycle metal)))
    = Py.Raise e →
  ∃ e', summary_record db metal cur cyc = Py.Raise e'.
Proof.
  intros Hpeak. unfold summary_record, reference_cycle in *. cbn zeta.
  unfold mbind, result_bind, Py.bind.
  destruct (percent_return _ _); [|by eexists]. rewrite Hpeak. by eexists.
Qed.

(** The round of a metal that adds an entry, within the request. *)
Lemma metal_entry_adds (db : database) (now metal other : string)
    (rec : SummaryRecord.t) :
  tracked metal → tracked other → other ≠ metal →
  metal_entry db metal = Py.Ok (Some rec) →
  adds_entry db now metal other rec.
Proof.
  intros Hm Ho Hne Hentry. unfold adds_entry. split_and!.
  - intros so_far. by rewrite summarize_entry, Hentry.
  - intros body Hbody.
    pose proof (summary_lookup db now metal body Hm Hbody) as Hlook. congruence.
  - intros entries. rewrite summarize_entry, get_market_summary_cases.
    unfold mbind, result_bind, Py.bind.
    destruct Hm as [-> | ->], Ho as [-> | ->]; try done; rewrite Hentry.
    + destruct (metal_entry db "SILVER"); [|done]. intros _. by eexists.
    + destruct (metal_entry db "GOLD"); [|done]. intros _. by eexists.
  - intros e. rewrite summarize_entry, get_market_summary_cases.
    unfold mbind, result_bind, Py.bind.
    destruct Hm as [-> | ->], Ho as [-> | ->]; try done; rewrite ?Hentry.
    + destruct (metal_entry db "SILVER"); [done|]. by intros [= <-].
    + destruct (metal_entry db "GOLD"); [done|]. by intros [= <-].
Qed.

(** C8 as the handler has it, for a metal whose current return is worked
    out.  The [historicalPeakReturn] of its entry is the same percent
    return, rounded to one decimal, of the peak close of the metal's
    1978-1980 cycle on that cycle's own start price, when the peak is there
    and not 0 and the start price is there and not 0.  It is the integer 0,
    and the round of the metal raises nothing, when there is no peak, when
    the peak is exactly 0, and when the cycle has no row in [market_cycles].
    With a peak that is not 0 and a row whose start price is NULL or 0 the
    request ends in an error. *)
Theorem historical_peak_return_or_zero
    (db : database) (now metal other : string)
    (cur : PriceRow.t) (cyc : MarketCycle.t) (price start : float) :
  tracked metal → tracked other → other ≠ metal →
  latest_price db metal = Some cur →
  cycle_start db metal (current_cycle metal) = Some cyc →
  PriceRow.close_price cur = Some price →
  MarketCycle.start_price cyc = Some start →
  (start =? 0)%float = false →
  (peak_price db metal (reference_cycle metal) = None
   ∨ (∃ peak, peak_price db metal (reference_cycle metal) = Some peak
              ∧ (peak =? 0)%float = true)
   ∨ cycle_start db metal (reference_cycle metal) = None →
   ∃ rec, adds_entry db now metal other rec
          ∧ SummaryRecord.historicalPeakReturn rec = Py.PyInt 0) ∧
  (∀ peak ref first,
     peak_price db metal (reference_cycle metal) = Some peak →
     (peak =? 0)%float = false →
     cycle_start db metal (reference_cycle metal) = Some ref →
     MarketCycle.start_price ref = Some first →
     (first =? 0)%float = false →
     ∃ rec, adds_entry db now metal other rec
            ∧ SummaryRecord.historicalPeakReturn rec
              = Py.PyFloat (Py.float_round1 ((peak - first) / first * 100))) ∧
  (∀ peak ref,
     peak_price db metal (reference_cycle metal) = Some peak →
     (peak =? 0)%float = false →
     cycle_start db metal (reference_cycle metal) = Some ref →
     MarketCycle.start_price ref = None
     ∨ (∃ first, MarketCycle.start_price ref = Some first ∧ (first =? 0)%float = true) →
     ∃ e, get_market_summary db now = Json500 e).
Proof.
  intros Hm Ho Hne Hcur Hcyc Hprice Hstart Hstart0.
  pose proof (metal_entry_present db metal cur cyc Hcur Hcyc) as Hentry.
  assert (∀ peak_return rounded,
            hist_peak_return db metal
              (fetch (peak_price db metal (reference_cycle metal))) = Py.Ok peak_return →
            Py.py_round1 peak_return = Py.Ok rounded →
            ∃ rec, adds_entry db now metal other rec
                   ∧ SummaryRecord.historicalPeakReturn rec = rounded) as Hadds.
  { intros peak_return rounded Hpeak Hround.
    destruct (summary_record_runs db metal cur cyc price start peak_return rounded
                Hprice Hstart Hstart0 Hpeak Hround) as (rec & Hrec & Hret).
    exists rec. split; [|done].
    apply metal_entry_adds; try done. by rewrite Hentry, Hrec. }
  split_and!.
  - intros Hdefault. apply (Hadds (Py.PyInt 0)); [|done].
    unfold hist_peak_return.
    destruct Hdefault as [-> | [(peak & -> & Hzero) | Hnone]].
    + done.
    + cbn. by rewrite Hzero.
    + unfold reference_cycle in Hnone. rewrite Hnone. by destruct (Py.truthy _).
  - intros peak ref first Hpeak Hpeak0 Href Hfirst Hfirst0.
    apply (Hadds (Py.PyFloat ((peak - first) / first * 100))); [|done].
    unfold hist_peak_return. unfold reference_cycle in Href.
    rewrite Hpeak, Href, Hfirst. cbn [fetch Py.truthy]. rewrite Hpeak0.
    cbn [negb]. by apply percent_return_ok.
  - intros peak ref Hpeak Hpeak0 Href Hbad.
    assert (∃ e, hist_peak_return db metal
                   (fetch (peak_price db metal (reference_cycle metal))) = Py.Raise e)
      as [e He].
    { unfold hist_peak_return. unfold reference_cycle in Href.
      rewrite Hpeak, Href. cbn [fetch Py.truthy]. rewrite Hpeak0. cbn [negb].
      destruct Hbad as [-> | (first & -> & Hzero)].
      - exists Py.TypeError. exact (percent_return_no_start (Some peak)).
      - exact (percent_return_zero_start (Some peak) first Hzero). }
    destruct (summary_record_raises db metal cur cyc e He) as [e' He'].
    apply (metal_entry_raise db now metal e' Hm). by rewrite Hentry, He'.
Qed.

(** All closes of the reference cycle are 0: the peak is there, the entry
    reports a return of 0 and the request succeeds. *)
Lemma historical_peak_witness :
  ∃ body rec,
    get_market_summary Example.db_zero_peak "2024-01-04T00:00:00" = Json200 body ∧
    MarketSummary.summary body !! "gold" = Some rec ∧
    SummaryRecord.historicalPeakReturn rec = Py.PyInt 0.
Proof.
  destruct (historical_peak_return_or_zero Example.db_zero_peak "2024-01-04T00:00:00"
              "GOLD" "SILVER"
              (Example.price "GOLD" "gold_2024_current" "2024-01-03" 125 1 1 0)
              (Example.cycle "GOLD" "gold_2024_current" (Some 100%float))
              125%float 100%float)
    as (Hdefault & _ & _);
    [by left | by right | done | reflexivity | reflexivity | reflexivity
     | reflexivity | reflexivity |].
  destruct Hdefault as (rec & (_ & Hrec & Hruns & _) & Hzero).
  { right. left. by exists 0%float. }
  destruct (Hruns ∅ eq_refl) as [body Hbody].
  exists body, rec. split; [done|]. split; [|done]. exact (Hrec body Hbody).
Defined.

(** The peak of 850 on a start of 200 is a return of 325.0; and a reference
    cycle whose start price is NULL fails the request. *)
Example peak_return_example :
  (∃ body rec,
     get_market_summary Example.db "2024-01-04T00:00:00" = Json200 body ∧
     MarketSummary.summary body !! "gold" = Some rec ∧
     SummaryRecord.historicalPeak rec = Py.PyFloat 850 ∧
     SummaryRecord.historicalPeakReturn rec = Py.PyFloat 325) ∧
  get_market_summary Example.db_null_reference "2024-01-04T00:00:00"
  = Json500 Py.TypeError.
Proof.
  split; [|vm_compute; reflexivity].
  do 2 eexists. split_and!; vm_compute; reflexivity.
Qed.

(** ** Paging, for every limit and offset *)

Lemma full_series_length (db : database) (metal cycle : string)
    (matching : PriceRow.t → bool) :
  length (full_series db metal cycle matching)
  = length (matching_rows db metal cycle matching).
Proof.
  unfold full_series, serialize_data.
  by rewrite length_fmap, (SqlFacts.order_by_perm date_desc).
Qed.




(** A page in terms of the series before paging. *)
Lemma get_raw_data_series (db : database) (args : list (string * string))
    (metal cycle : string) (body : RawData.t) :
  get_raw_data db args metal cycle = Some (Json200 body) →
  ∃ series,
    raw_series db metal cycle = Some series ∧
    RawData.data body = Sql.limit_offset (RawData.limit body) (RawData.offset body) series ∧
    RawData.total_records body = Z.of_nat (length series).
Proof.
  intros (matching & Hw & _ & _ & _ & _ & Hd & Ht & Hl & Ho & _)%get_raw_data_inv.
  exists (full_series db metal cycle matching). unfold raw_series. rewrite Hw.
  split; [done|]. by rewrite Hl, Ho, Hd, Ht, full_series_length.
Qed.






(** X3: a negative limit is no limit and a negative offset is no offset: with
    [limit < 0] the page holds every row from the offset on, with
    [offset < 0] it is the page at offset 0; and the page that holds the
    whole series ([limit < 0], [offset <= 0]) still says [has_more]. *)
Theorem negative_paging_is_unbounded (db : database) (args : list (string * string))
    (metal cycle : string) (body : RawData.t) :
  get_raw_data db args metal cycle = Some (Json200 body) →
  ∃ series,
    raw_series db metal cycle = Some series ∧
    (RawData.limit body < 0 →
     RawData.data body = drop (Z.to_nat (RawData.offset body)) series) ∧
    (RawData.offset body < 0 →
     RawData.data body = Sql.limit_offset (RawData.limit body) 0 series) ∧
    (RawData.limit body < 0 → RawData.offset body ≤ 0 →
     RawData.data body = series ∧ RawData.has_more body = true).
Proof.
  intros Hbody.
  destruct (get_raw_data_series _ _ _ _ _ Hbody) as (series & Hs & Hd & Ht).
  apply get_raw_data_inv in Hbody as (m & _ & _ & _ & _ & _ & _ & Ht' & Hl & Ho & Hm).
  exists series. split; [done|]. rewrite Hd. unfold Sql.limit_offset. split_and!.
  - intros Hneg. by rewrite (proj2 (Z.ltb_lt _ _) Hneg).
  - intros Hneg. by replace (Z.to_nat (RawData.offset body)) with (Z.to_nat 0) by lia.
  - intros Hneg Hoff. rewrite (proj2 (Z.ltb_lt _ _) Hneg).
    replace (Z.to_nat (RawData.offset body)) with 0%nat by lia.
    rewrite drop_0. split; [done|].
    rewrite Hm, <- Ht', <- Hl, <- Ho. apply Z.ltb_lt. lia.
Qed.

Lemma negative_paging_witness :
  ∃ body,
    get_raw_data Example.db_long [("limit", "-1")] "silver" "silver_1978_1980"
      = Some (Json200 body) ∧
    length (RawData.data body) = 60%nat ∧ RawData.has_more body = true.
Proof.
  assert (∃ body, get_raw_data Example.db_long [("limit", "-1")]
                    "silver" "silver_1978_1980" = Some (Json200 body)) as [body Hbody]
    by (eexists; vm_compute; reflexivity).
  exists body. split; [done|].
  destruct (negative_paging_is_unbounded Example.db_long [("limit", "-1")]
              "silver" "silver_1978_1980" body Hbody) as (series & Hs & _ & _ & Hall).
  destruct (get_raw_data_inv _ _ _ _ _ Hbody)
    as (m & _ & _ & _ & _ & _ & _ & _ & Hl & Ho & _).
  change (args_get _ _ _) with (-1) in Hl.
  change (args_get _ _ _) with 0 in Ho.
  destruct Hall as [Hd Hm]; [rewrite Hl; lia | rewrite Ho; lia |].
  assert (series = serialize_data (rev Example.long_run)) as ->.
  { vm_compute in Hs. injection Hs as <-. vm_compute. reflexivity. }
  rewrite Hd. split; [by vm_compute | done].
Defined.








(** ** The path parameters *)

Lemma same_upper_same_answer (db : database) (args : list (string * string))
    (m1 m2 cycle : string) :
  Py.upper m1 = Py.upper m2 →
  get_weekly_data db m1 cycle = get_weekly_data db m2 cycle ∧
  get_raw_data db args m1 cycle = get_raw_data db args m2 cycle.
Proof.
  intros Hm. unfold get_weekly_data, get_raw_data, raw_source. by rewrite Hm.
Qed.

(** X6: the weekly-data and the raw-data handler take a metal written in
    ASCII without regard to case: in upper case and in lower case it gets
    the very same response, the echoed metal included.  Beyond ASCII this
    fails: a capital sharp s is its own upper-case form, and its lower-case
    form has the upper-case form SS. *)
Theorem metal_is_case_insensitive (db : database) (args : list (string * string))
    (metal cycle : string) :
  is_ascii metal = true →
  get_weekly_data db (Py.upper metal) cycle = get_weekly_data db metal cycle ∧
  get_weekly_data db (Py.lower metal) cycle = get_weekly_data db metal cycle ∧
  get_raw_data db args (Py.upper metal) cycle = get_raw_data db args metal cycle ∧
  get_raw_data db args (Py.lower metal) cycle = get_raw_data db args metal cycle ∧
  get_weekly_data db (Py.lower "ẞ") cycle ≠ get_weekly_data db "ẞ" cycle.
Proof.
  intros Hascii.
  pose proof (λ m1 m2, same_upper_same_answer db args m1 m2 cycle) as Hsame.
  split_and!.
  - by apply Hsame, CaseFacts.upper_upper_ascii.
  - by apply Hsame, CaseFacts.upper_lower_ascii.
  - by apply Hsame, CaseFacts.upper_upper_ascii.
  - by apply Hsame, CaseFacts.upper_lower_ascii.
  - destruct (get_weekly_data_body db (Py.lower "ẞ") cycle) as (d1 & _ & ->).
    destruct (get_weekly_data_body db "ẞ" cycle) as (d2 & _ & ->).
    intros Heq.
    pose proof (f_equal (λ r, match r with
                              | Json200 b => WeeklyData.metal b
                              | Json500 _ => EmptyString
                              end) Heq) as Hupper.
    by vm_compute in Hupper.
Qed.

Lemma case_witness :
  get_weekly_data Example.db (Py.lower "Gold") "gold_2024_current"
  = get_weekly_data Example.db "Gold" "gold_2024_current" ∧
  get_raw_data Example.db [] (Py.upper "Gold") "gold_2024_current"
  = get_raw_data Example.db [] "Gold" "gold_2024_current".
Proof.
  destruct (metal_is_case_insensitive Example.db [] "Gold" "gold_2024_current" eq_refl)
    as (_ & Hlower & Hupper & _).
  by split.
Defined.



(** ** Weekly data: the week-over-week change *)

(** X8: in a weekly-data response every point is shown ([showDot] is true)
    and its [weekOverWeekChange] is never null: a NULL change and a change
    of zero (of either sign) are both sent as the integer 0, any other
    change as it is stored. *)
Theorem weekly_change_is_never_null (db : database) (metal cycle : string) :
  ∃ body,
    get_weekly_data db metal cycle = Json200 body ∧
    Forall2
      (λ row p,
         WeeklyPoint.showDot p = true ∧
         WeeklyPoint.weekOverWeekChange p ≠ Py.PyNone ∧
         WeeklyPoint.weekOverWeekChange p =
           match WeeklyAggregate.week_over_week_pct row with
           | Some w => if (w =? 0)%float then Py.PyInt 0 else Py.PyFloat w
           | None => Py.PyInt 0
           end)
      (weekly_rows db (Py.upper metal) cycle) (WeeklyData.data body).
Proof.
  destruct (get_weekly_data_body db metal cycle) as (data & Hall & ->).
  eexists. split; [reflexivity|]. cbn [WeeklyData.data].
  eapply Forall2_impl; [exact Hall|].
  intros row p. unfold weekly_point.
  destruct (WeeklyAggregate.week_over_week_pct row) as [w|]; cbn [fetch Py.truthy].
  - destruct (w =? 0)%float; cbn [negb].
    + by intros [= <-].
    + cbn [Py.py_abs mbind result_bind Py.bind Py.py_ge].
      destruct (_ <=? _)%float; [|destruct (_ <=? _)%float]; by intros [= <-].
  - by intros [= <-].
Qed.

(** ** Market summary: what an entry holds *)

(** The order of texts, byte by byte. *)
Module StringOrder.

Lemma leb_iff (a b : string) :
  String.leb a b = true ↔ a = b ∨ OrderedTypeEx.String_as_OT.lt a b.
Proof.
  unfold String.leb.
  rewrite <- OrderedTypeEx.String_as_OT.cmp_lt, <- OrderedTypeEx.String_as_OT.cmp_eq.
  unfold OrderedTypeEx.String_as_OT.cmp.
  destruct (String.compare a b); intuition congruence.
Qed.

Lemma leb_refl (a : string) : String.leb a a = true.
Proof. apply leb_iff. by left. Qed.

Lemma leb_trans (a b c : string) :
  String.leb a b = true → String.leb b c = true → String.leb a c = true.
Proof.
  rewrite !leb_iff. intros [-> | Hab] [-> | Hbc]; auto.
  right. by eapply OrderedTypeEx.String_as_OT.lt_trans.
Qed.

Lemma ltb_leb (a b : string) : String.ltb a b = true → String.leb a b = true.
Proof. unfold String.ltb, String.leb. by destruct (String.compare a b). Qed.

Lemma not_ltb_leb (a b : string) : String.ltb a b = false → String.leb b a = true.
Proof.
  unfold String.ltb, String.leb. rewrite (String.compare_antisym b a).
  by destruct (String.compare a b).
Qed.

End StringOrder.

(** The order of binary64 numbers. *)
Module FloatOrder.

Lemma SFltb_cotrans (x y z : spec_float) :
  y ≠ S754_nan → SFltb x z = true → SFltb x y = true ∨ SFltb y z = true.
Proof.
  intros Hy. unfold SFltb.
  destruct x as [[]|[]| |[] m1 e1], y as [[]|[]| |[] m2 e2], z as [[]|[]| |[] m3 e3];
    simpl; try done; try (by left); try (by right);
    change (PosDef.Pos.compare_cont Eq m1 m2) with (m1 ?= m2)%positive;
    change (PosDef.Pos.compare_cont Eq m2 m3) with (m2 ?= m3)%positive;
    change (PosDef.Pos.compare_cont Eq m1 m3) with (m1 ?= m3)%positive;
    destruct (Z.compare_spec e1 e3), (Z.compare_spec e1 e2), (Z.compare_spec e2 e3);
    try lia; try done; try (by left); try (by right);
    destruct (Pos.compare_spec m1 m3), (Pos.compare_spec m1 m2), (Pos.compare_spec m2 m3);
    simpl; try lia; try done; try (by left); try (by right).
Qed.

Lemma not_nan (x : float) : (x =? x)%float = true → Prim2SF x ≠ S754_nan.
Proof. rewrite FloatAxioms.eqb_spec. intros Hx Hnan. by rewrite Hnan in Hx. Qed.

Lemma ltb_cotrans (x y z : float) :
  (y =? y)%float = true → (x <? z)%float = true →
  (x <? y)%float = true ∨ (y <? z)%float = true.
Proof.
  intros Hy%not_nan. rewrite !FloatAxioms.ltb_spec. by apply SFltb_cotrans.
Qed.

Lemma ltb_asym (x y : float) : (x <? y)%float = true → (y <? x)%float = false.
Proof.
  rewrite !FloatAxioms.ltb_spec. unfold SFltb.
  rewrite (FloatFacts.SFcompare_antisym (Prim2SF x)).
  by destruct (SFcompare (Prim2SF x) (Prim2SF y)) as [[]|].
Qed.

Lemma ltb_irrefl (x : float) : (x <? x)%float = false.
Proof.
  destruct (x <? x)%float eqn:Hx; [|done]. by rewrite (ltb_asym x x Hx) in Hx.
Qed.

End FloatOrder.

(** The first row of [ORDER BY date DESC] is a row that none is newer than. *)
Lemma newest_first (rows : list PriceRow.t) (cur : PriceRow.t) :
  head (Sql.order_by date_desc rows) = Some cur →
  In cur rows ∧
  ∀ r, In r rows → String.leb (PriceRow.date r) (PriceRow.date cur) = true.
Proof.
  pose proof (SqlFacts.order_by_perm date_desc rows) as Hperm.
  assert (Sorted (λ a b, date_desc a b = true) (Sql.order_by date_desc rows)) as Hs.
  { apply SqlFacts.order_by_sorted. intros a b Hab. unfold date_desc in *.
    destruct (String.leb_total (PriceRow.date a) (PriceRow.date b)); congruence. }
  apply Sorted_StronglySorted in Hs;
    [|intros a b c Hab Hbc; unfold date_desc in *; by eapply StringOrder.leb_trans].
  destruct (Sql.order_by date_desc rows) as [|x l]; [done|]. intros [= ->].
  apply StronglySorted_inv in Hs as [_ Hall]. split.
  - apply (Permutation_in _ Hperm). by left.
  - intros r Hr. apply (Permutation_in _ (Permutation_sym Hperm)) in Hr as [-> | Hr].
    + apply StringOrder.leb_refl.
    + by apply (proj1 (List.Forall_forall _ _) Hall).
Qed.

Lemma summary_record_row (db : database) (metal : string)
    (cur : PriceRow.t) (cyc : MarketCycle.t) (rec : SummaryRecord.t) :
  summary_record db metal cur cyc = Py.Ok rec →
  SummaryRecord.currentPrice rec = fetch (PriceRow.close_price cur) ∧
  SummaryRecord.daysInCycle rec = PriceRow.days_from_start cur ∧
  SummaryRecord.weeksInCycle rec = PriceRow.weeks_from_start cur ∧
  SummaryRecord.lastUpdate rec = PriceRow.date cur ∧
  SummaryRecord.limitUpDays rec = limit_up_count db metal.
Proof.
  unfold summary_record. cbn zeta. unfold mbind, result_bind, Py.bind.
  destruct (percent_return _ _) as [cr|]; [|done].
  destruct (hist_peak_return _ _ _) as [pr|]; [|done].
  destruct (Py.py_round1 cr) as [rr|]; [|done].
  destruct (Py.py_round1 pr) as [rp|]; [|done].
  by intros [= <-].
Qed.

(** X9: the entry of a metal in the market summary is taken from one row of
    [current_prices] of that metal: [lastUpdate], [currentPrice],
    [daysInCycle] and [weeksInCycle] are its date, close price and counters,
    and no row of the metal has a later date. *)
Theorem entry_is_of_latest_row (db : database) (now metal : string)
    (body : MarketSummary.t) (rec : SummaryRecord.t) :
  tracked metal →
  get_market_summary db now = Json200 body →
  MarketSummary.summary body !! Py.lower metal = Some rec →
  ∃ cur,
    In cur (current_prices db) ∧
    PriceRow.metal cur = metal ∧
    SummaryRecord.lastUpdate rec = PriceRow.date cur ∧
    SummaryRecord.currentPrice rec = fetch (PriceRow.close_price cur) ∧
    SummaryRecord.daysInCycle rec = PriceRow.days_from_start cur ∧
    SummaryRecord.weeksInCycle rec = PriceRow.weeks_from_start cur ∧
    ∀ r, In r (current_prices db) → PriceRow.metal r = metal →
         String.leb (PriceRow.date r) (SummaryRecord.lastUpdate rec) = true.
Proof.
  intros Hm Hbody Hrec.
  pose proof (summary_lookup db now metal body Hm Hbody) as Hlook.
  rewrite Hrec in Hlook.
  destruct (metal_entry_some _ _ _ Hlook) as (cur & cyc & Hcur & _ & Hrecord).
  destruct (summary_record_row _ _ _ _ _ Hrecord) as (Hp & Hd & Hw & Hu & _).
  apply newest_first in Hcur as [Hin Hmax].
  apply filter_In in Hin as [Hin Hmetal]. apply String.eqb_eq in Hmetal.
  exists cur. split_and!; try done.
  intros r Hr Hrm. rewrite Hu. apply Hmax, filter_In. split; [done|].
  by apply String.eqb_eq.
Qed.

Lemma entry_is_of_latest_row_witness :
  ∃ body rec,
    get_market_summary Example.db "2024-01-04T00:00:00" = Json200 body ∧
    MarketSummary.summary body !! "gold" = Some rec ∧
    SummaryRecord.lastUpdate rec = "2024-01-03" ∧
    SummaryRecord.currentPrice rec = Py.PyFloat 125.
Proof.
  assert (∃ body rec,
            get_market_summary Example.db "2024-01-04T00:00:00" = Json200 body ∧
            MarketSummary.summary body !! "gold" = Some rec)
    as (body & rec & Hbody & Hrec)
    by (do 2 eexists; split; vm_compute; reflexivity).
  exists body, rec. split; [done|]. split; [done|].
  destruct (entry_is_of_latest_row Example.db "2024-01-04T00:00:00" "GOLD" body rec
              (or_introl eq_refl) Hbody Hrec)
    as (cur & Hin & _ & Hu & Hp & _ & _ & Hmax).
  assert (String.leb "2024-01-03" (SummaryRecord.lastUpdate rec) = true) as Hge
    by (apply (Hmax (Example.price "GOLD" "gold_2024_current" "2024-01-03" 125 1 1 0));
        [right; by left | done]).
  rewrite Hu, Hp in *.
  destruct Hin as [<- | [<- | []]]; [by vm_compute in Hge | done].
Defined.

(** X10: a market-summary response carries the time passed in and has
    entries under the keys [gold] and [silver] only; with no current price
    at all, or no cycle defined, the response is still a success, its
    summary empty. *)
Theorem summary_holds_tracked_metals_only (db : database) (now : string) :
  (∀ body, get_market_summary db now = Json200 body →
     MarketSummary.timestamp body = now ∧
     ∀ key, is_Some (MarketSummary.summary body !! key) → key = "gold" ∨ key = "silver") ∧
  (current_prices db = [] ∨ market_cycles db = [] →
   get_market_summary db now
   = Json200 {| MarketSummary.summary := ∅; MarketSummary.timestamp := now |}).
Proof.
  split.
  - intros body. rewrite get_market_summary_cases.
    destruct (metal_entry db "GOLD") as [gold|]; [|done].
    destruct (metal_entry db "SILVER") as [silver|]; [|done].
    intros [= <-]. split; [done|]. cbn [MarketSummary.summary].
    intros key [rec Hkey]. unfold with_entry in Hkey.
    destruct (decide (key = "gold")) as [|Hg]; [by left|].
    destruct (decide (key = "silver")) as [|Hs]; [by right|].
    destruct gold, silver; by simplify_map_eq.
  - intros Hempty. rewrite get_market_summary_cases.
    assert (∀ metal, metal_entry db metal = Py.Ok None) as Hnone.
    { intros metal. unfold metal_entry, latest_price, cycle_start.
      destruct Hempty as [-> | ->]; [done|].
      by destruct (head _). }
    by rewrite !Hnone.
Qed.

(** [MAX] is not below any of the values, none of them being a NaN. *)
Lemma sql_max_bound (l : list real) (m : float) :
  Forall no_nan l → Sql.sql_max l = Some m →
  ∀ x, In (Some x) l → (m <? x)%float = false.
Proof.
  intros Hl. revert m.
  induction Hl as [|v l Hv Hl IH]; intros m; cbn [Sql.sql_max foldr]; [done|].
  change (foldr Sql.real_max None l) with (Sql.sql_max l).
  destruct v as [x0|]; cbn [Sql.real_max]; [|intros Hm x [|Hx]; [done | by apply IH]].
  destruct (Sql.sql_max l) as [y|] eqn:Hmax.
  - destruct (x0 <? y)%float eqn:Hlt; intros [= <-] x [[= <-] | Hx].
    + by apply FloatOrder.ltb_asym.
    + by apply IH.
    + apply FloatOrder.ltb_irrefl.
    + destruct (x0 <? x)%float eqn:Hx0; [|done].
      assert (no_nan (Some y)) as Hy
        by (apply (proj1 (List.Forall_forall _ _) Hl), sql_max_in, Hmax).
      destruct (FloatOrder.ltb_cotrans x0 y x (Hy y eq_refl) Hx0) as [H1 | H2];
        [congruence|]. by rewrite (IH y eq_refl x Hx) in H2.
  - intros [= <-] x [[= <-] | Hx]; [apply FloatOrder.ltb_irrefl|].
    apply sql_max_none in Hmax.
    by apply (proj1 (List.Forall_forall _ _) Hmax) in Hx.
Qed.

(** X11: the [historicalPeak] of an entry is null exactly when no row of the
    metal's 1978-1980 cycle has a close price; otherwise it is the close
    price of one of these rows, and none of them closes higher (no stored
    price being a NaN).  It is never the integer 0 that the handler keeps
    for a query without a result row. *)
Theorem historical_peak_is_greatest_close (db : database) (now metal : string)
    (body : MarketSummary.t) (rec : SummaryRecord.t) :
  tracked metal →
  get_market_summary db now = Json200 body →
  MarketSummary.summary body !! Py.lower metal = Some rec →
  (SummaryRecord.historicalPeak rec = Py.PyNone ↔
   Forall (λ r, PriceRow.close_price r = None) (reference_rows db metal)) ∧
  (∀ peak, SummaryRecord.historicalPeak rec = Py.PyFloat peak →
     (∃ r, In r (reference_rows db metal) ∧ PriceRow.close_price r = Some peak) ∧
     (Forall (λ r, no_nan (PriceRow.close_price r)) (reference_rows db metal) →
      ∀ r x, In r (reference_rows db metal) → PriceRow.close_price r = Some x →
             (peak <? x)%float = false)) ∧
  (∀ z, SummaryRecord.historicalPeak rec ≠ Py.PyInt z).
Proof.
  intros Hm Hbody Hrec.
  pose proof (summary_lookup db now metal body Hm Hbody) as Hlook.
  rewrite Hrec in Hlook.
  destruct (metal_entry_some _ _ _ Hlook) as (cur & cyc & _ & _ & Hrecord).
  destruct (summary_record_inv _ _ _ _ _ Hrecord) as (cr & pr & _ & _ & _ & _ & _ & ->).
  unfold peak_price. fold (reference_rows db metal).
  split_and!.
  - destruct (Sql.sql_max _) as [m|] eqn:Hmax; cbn [fetch].
    + split; [done|]. intros Hall.
      assert (Sql.sql_max (PriceRow.close_price <$> reference_rows db metal) = None)
        as Hnone by (apply sql_max_none, Forall_fmap; exact Hall).
      congruence.
    + split; [|done]. intros _. by apply sql_max_none, Forall_fmap in Hmax.
  - intros peak Hpeak.
    destruct (Sql.sql_max _) as [m|] eqn:Hmax; cbn [fetch] in Hpeak; [|done].
    injection Hpeak as ->. split.
    + apply sql_max_in, in_map_iff in Hmax as (r & Hr & Hin). by exists r.
    + intros Hnan r x Hr Hx. eapply sql_max_bound; [|exact Hmax|].
      * by apply Forall_fmap.
      * apply in_map_iff. by exists r.
  - intros z. by destruct (Sql.sql_max _).
Qed.

Lemma historical_peak_is_greatest_witness :
  ∃ body rec,
    get_market_summary Example.db "2024-01-04T00:00:00" = Json200 body ∧
    MarketSummary.summary body !! "gold" = Some rec ∧
    SummaryRecord.historicalPeak rec = Py.PyFloat 850 ∧
    (850 <? 200)%float = false.
Proof.
  assert (∃ body rec,
            get_market_summary Example.db "2024-01-04T00:00:00" = Json200 body ∧
            MarketSummary.summary body !! "gold" = Some rec ∧
            SummaryRecord.historicalPeak rec = Py.PyFloat 850)
    as (body & rec & Hbody & Hrec & Hpeak)
    by (do 2 eexists; split_and!; vm_compute; reflexivity).
  exists body, rec. do 3 (split; [done|]).
  destruct (historical_peak_is_greatest_close Example.db "2024-01-04T00:00:00" "GOLD"
              body rec (or_introl eq_refl) Hbody Hrec) as (_ & Hmax & _).
  destruct (Hmax 850%float Hpeak) as [_ Hbound].
  apply (Hbound ltac:(by repeat constructor; intros x [= <-])
           (Example.price "GOLD" "gold_1978_1980" "1979-01-02" 200 0 0 0));
    [by left | done].
Defined.

(** ** What each handler reads *)


(** ** Start-up *)

Lemma find_sql_dump_find (h : Host.t) :
  find_sql_dump h = List.find (Host.path_exists h) (candidates h).
Proof.
  unfold find_sql_dump, candidates. cbn zeta. cbn [List.find].
  repeat (destruct (Host.path_exists h _); [done|]). done.
Qed.

Lemma find_sql_dump_some (h : Host.t) (p : path) :
  find_sql_dump h = Some p → In p (candidates h) ∧ Host.path_exists h p = true.
Proof. rewrite find_sql_dump_find. apply find_some. Qed.

Lemma find_sql_dump_none (h : Host.t) : find_sql_dump h = None ↔ no_dump h.
Proof.
  rewrite find_sql_dump_find. unfold no_dump. split.
  - intros Hnone. apply List.Forall_forall. intros p Hp.
    by apply (find_none _ _ Hnone).
  - intros Hall. induction Hall as [|p l Hp _ IH]; [done|].
    cbn [List.find]. by rewrite Hp.
Qed.

(** X13: [find_sql_dump] returns the first of its four places, in the order
    of the search, at which a file exists: what it returns is one of the
    places and exists, it returns nothing exactly when nothing exists at
    any of them, and a place is returned as soon as nothing exists at the
    places before it. *)
Theorem dump_is_first_existing_candidate (h : Host.t) :
  (∀ p, find_sql_dump h = Some p → In p (candidates h) ∧ Host.path_exists h p = true) ∧
  (find_sql_dump h = None ↔ no_dump h) ∧
  (∀ before p after,
     candidates h = (before ++ p :: after)%list →
     Forall (λ q, Host.path_exists h q = false) before →
     Host.path_exists h p = true →
     find_sql_dump h = Some p).
Proof.
  split_and!.
  - apply find_sql_dump_some.
  - apply find_sql_dump_none.
  - rewrite find_sql_dump_find. intros before p after -> Hbefore Hp.
    induction Hbefore as [|q l Hq _ IH]; cbn [List.find app].
    + by rewrite Hp.
    + by rewrite Hq.
Qed.

Lemma init_database_conn (h : Host.t) :
  ∃ conn, Server.db_conn (fst (init_database h)) = Some conn.
Proof.
  unfold init_database. cbn zeta.
  destruct (find_sql_dump h) as [p|]; [|by eexists].
  destruct (Host.path_exists h p); [|by eexists].
  destruct (Host.read h p) as [script|]; [|by eexists].
  destruct (Host.executescript h script) as [conn [message|]]; by eexists.
Qed.

Lemma init_database_no_dump (h : Host.t) :
  no_dump h →
  init_database h
  = ({| Server.db_conn := Some Store.empty;
        Server.db_init_error := Some (error_msg h) |},
     Failed (error_msg h)).
Proof.
  intros Hno%find_sql_dump_none. unfold init_database. by rewrite Hno.
Qed.

(** The second [exists()] of [init_database] never fails. *)
Lemma init_database_found (h : Host.t) (p : path) :
  find_sql_dump h = Some p →
  init_database h =
  match Host.read h p with
  | Done sql_script =>
      match Host.executescript h sql_script with
      | (conn, None) =>
          ({| Server.db_conn := Some conn; Server.db_init_error := None |}, Done conn)
      | (conn, Some message) =>
          ({| Server.db_conn := Some conn; Server.db_init_error := Some message |},
           Failed message)
      end
  | Failed message =>
      ({| Server.db_conn := Some Store.empty; Server.db_init_error := Some message |},
       Failed message)
  end.
Proof.
  intros Hp. unfold init_database. rewrite Hp.
  by rewrite (proj2 (find_sql_dump_some h p Hp)).
Qed.

Lemma startup_no_dump (h : Host.t) :
  no_dump h →
  startup h = {| Server.db_conn := Some Store.empty;
                 Server.db_init_error := Some (error_msg h) |}.
Proof. intros Hno. unfold startup. by rewrite init_database_no_dump. Qed.

(** X14: what start-up leaves in the globals.  Without a dump: an empty
    store and the message of the search.  With a dump that cannot be read:
    an empty store and the message of the exception.  With a dump that is
    read: the store the script leaves and the message of its exception, if
    any.  So [db_init_error] is None exactly when a dump was found, read and
    run to its end. *)
Theorem init_error_records_the_failure (h : Host.t) :
  (no_dump h →
   startup h = {| Server.db_conn := Some Store.empty;
                  Server.db_init_error := Some (error_msg h) |}) ∧
  (∀ p message,
     find_sql_dump h = Some p → Host.read h p = Failed message →
     startup h = {| Server.db_conn := Some Store.empty;
                    Server.db_init_error := Some message |}) ∧
  (∀ p sql_script conn result,
     find_sql_dump h = Some p → Host.read h p = Done sql_script →
     Host.executescript h sql_script = (conn, result) →
     startup h = {| Server.db_conn := Some conn; Server.db_init_error := result |}) ∧
  (Server.db_init_error (startup h) = None ↔
   ∃ p sql_script conn,
     find_sql_dump h = Some p ∧ Host.read h p = Done sql_script ∧
     Host.executescript h sql_script = (conn, None)).
Proof.
  split_and!.
  - apply startup_no_dump.
  - intros p message Hp Hread. unfold startup.
    by rewrite (init_database_found h p Hp), Hread.
  - intros p script conn result Hp Hread Hrun. unfold startup.
    rewrite (init_database_found h p Hp), Hread, Hrun. by destruct result.
  - unfold startup. destruct (find_sql_dump h) as [p|] eqn:Hp.
    + rewrite (init_database_found h p Hp).
      destruct (Host.read h p) as [script|message] eqn:Hread.
      * destruct (Host.executescript h script) as [conn [message|]] eqn:Hrun.
        -- split; [done|]. intros (p' & s' & c' & Hp' & Hread' & Hrun').
           injection Hp' as <-. rewrite Hread in Hread'.
           injection Hread' as <-. rewrite Hrun in Hrun'. done.
        -- split; [|done]. intros _. by exists p, script, conn.
      * split; [done|]. intros (p' & s' & c' & Hp' & Hread' & _).
        injection Hp' as <-. rewrite Hread in Hread'. done.
    + apply find_sql_dump_none in Hp.
      rewrite (init_database_no_dump h Hp). split; [done|].
      by intros (p' & _ & _ & Hp' & _).
Qed.

Lemma get_db_connection_set (h : Host.t) (st : Server.t) (conn : Store.t) :
  Server.db_conn st = Some conn → get_db_connection h st = (st, Done conn).
Proof. intros Hconn. unfold get_db_connection. by rewrite Hconn. Qed.

(** X15: start-up always leaves a connection in [db_conn], also when it
    fails; so [get_db_connection] never initialises again, whatever the
    host has become by then: it returns the connection of start-up, and
    every handler leaves the globals as start-up left them. *)
Theorem connection_is_made_once (h : Host.t) :
  ∃ conn,
    Server.db_conn (startup h) = Some conn ∧
    ∀ later now metal cycle args,
      get_db_connection later (startup h) = (startup h, Done conn) ∧
      fst (health_check later (startup h) now) = startup h ∧
      fst (get_database_stats later (startup h) now) = startup h ∧
      fst (serve_weekly_data later (startup h) metal cycle) = startup h ∧
      fst (serve_market_summary later (startup h) now) = startup h ∧
      fst (serve_raw_data later (startup h) args metal cycle) = startup h.
Proof.
  destruct (init_database_conn h) as [conn Hconn]. exists conn.
  split; [done|]. intros later now metal cycle args.
  unfold health_check, get_database_stats, serve_weekly_data, serve_market_summary,
    serve_raw_data.
  by rewrite (get_db_connection_set later (startup h) conn Hconn).
Qed.

(** ** Health *)

(** X16: the health check looks at [current_prices] and at nothing else:
    with that table in the store of the connection the answer is healthy,
    with the number of its rows, whatever [db_init_error] holds; without it
    the answer is the error body with the message of the missing table and
    the stored [db_init_error]. *)
Theorem health_reads_current_prices_only (h : Host.t) (st : Server.t) (now : string)
    (conn : Store.t) :
  Server.db_conn st = Some conn →
  (∀ rows, Store.current_prices conn = Some rows →
     health_check h st now =
     (st, inl {| Healthy.status := "healthy";
                 Healthy.database := "connected";
                 Healthy.database_type := "in-memory";
                 Healthy.current_records := Z.of_nat (length rows);
                 Healthy.timestamp := now |})) ∧
  (Store.current_prices conn = None →
     health_check h st now =
     (st, inr {| Unhealthy.status := "error";
                 Unhealthy.message := "no such table: current_prices";
                 Unhealthy.init_error := Server.db_init_error st;
                 Unhealthy.timestamp := now |})).
Proof.
  intros Hconn. unfold health_check. rewrite (get_db_connection_set h st conn Hconn).
  split; [intros rows Hrows | intros Hrows]; cbn; by rewrite Hrows.
Qed.

(** A script that fails after it has created [current_prices]: the failure
    is stored, and the health check says healthy. *)
Lemma health_witness :
  ∃ st,
    st = startup (Example.host [(["srv"; "database"; "schema_and_data.sql"], "half")]) ∧
    Server.db_init_error st = Some "incomplete input" ∧
    health_check (Example.host []) st "2024-01-04T00:00:00" =
    (st, inl {| Healthy.status := "healthy";
                Healthy.database := "connected";
                Healthy.database_type := "in-memory";
                Healthy.current_records := 2;
                Healthy.timestamp := "2024-01-04T00:00:00" |}).
Proof.
  eexists. split; [reflexivity|]. split; [by vm_compute|].
  exact (proj1 (health_reads_current_prices_only (Example.host [])
                  (startup (Example.host
                              [(["srv"; "database"; "schema_and_data.sql"], "half")]))
                  "2024-01-04T00:00:00"
                  {| Store.historical_prices := None;
                     Store.current_prices := Some (current_prices Example.db);
                     Store.weekly_aggregates := None;
                     Store.market_cycles := None |}
                  eq_refl)
           (current_prices Example.db) eq_refl).
Defined.

(** X17: when no dump was found at start-up, the health check answers with
    the error body (status 500): status [error], the message of the missing
    table, and as [init_error] the message stored at start-up, also when a
    dump has appeared since. *)
Theorem missing_dump_is_reported_by_health (h later : Host.t) (now : string) :
  no_dump h →
  Server.db_init_error (startup h) = Some (error_msg h) ∧
  health_check later (startup h) now =
  (startup h,
   inr {| Unhealthy.status := "error";
          Unhealthy.message := "no such table: current_prices";
          Unhealthy.init_error := Some (error_msg h);
          Unhealthy.timestamp := now |}).
Proof.
  intros Hno. rewrite (startup_no_dump h Hno). split; reflexivity.
Qed.

Lemma missing_dump_health_witness :
  health_check (Example.host [(["srv"; "schema_and_data.sql"], "dump")])
    (startup (Example.host [])) "2024-01-04T00:00:00" =
  (startup (Example.host []),
   inr {| Unhealthy.status := "error";
          Unhealthy.message := "no such table: current_prices";
          Unhealthy.init_error := Some "SQL dump not found. Searched in: /srv, /srv";
          Unhealthy.timestamp := "2024-01-04T00:00:00" |}).
Proof.
  apply (missing_dump_is_reported_by_health (Example.host [])
           (Example.host [(["srv"; "schema_and_data.sql"], "dump")])
           "2024-01-04T00:00:00").
  unfold no_dump. by vm_compute; repeat constructor.
Defined.

(** ** The handlers on the connection *)



Lemma tables_of_loaded (db : database) : tables_of (loaded db) = db.
Proof. by destruct db. Qed.

(** X19: when the dump is found, read and run without an exception, and
    leaves the four tables, [db_init_error] is None and every request is
    answered from these tables: the three data handlers as on the loaded
    tables, the health check with the number of rows of [current_prices]. *)
Theorem loaded_dump_is_served (h later : Host.t) (p : path) (sql_script : string)
    (db : database) (now metal cycle : string) (args : list (string * string)) :
  find_sql_dump h = Some p →
  Host.read h p = Done sql_script →
  Host.executescript h sql_script = (loaded db, None) →
  startup h = {| Server.db_conn := Some (loaded db); Server.db_init_error := None |} ∧
  serve_weekly_data later (startup h) metal cycle
  = (startup h, Done (get_weekly_data db metal cycle)) ∧
  serve_market_summary later (startup h) now
  = (startup h, Done (get_market_summary db now)) ∧
  serve_raw_data later (startup h) args metal cycle
  = (startup h, Done <$> get_raw_data db args metal cycle) ∧
  health_check later (startup h) now =
  (startup h,
   inl {| Healthy.status := "healthy";
          Healthy.database := "connected";
          Healthy.database_type := "in-memory";
          Healthy.current_records := Z.of_nat (length (current_prices db));
          Healthy.timestamp := now |}).
Proof.
  intros Hp Hread Hrun.
  assert (startup h = {| Server.db_conn := Some (loaded db);
                         Server.db_init_error := None |}) as ->.
  { unfold startup. by rewrite (init_database_found h p Hp), Hread, Hrun. }
  unfold serve_weekly_data, serve_market_summary, serve_raw_data, health_check,
    get_db_connection.
  cbn [Server.db_conn]. rewrite tables_of_loaded.
  split_and!; try reflexivity.
  destruct (get_raw_data db args metal cycle) as [r|]; [|done].
  cbn [mbind option_bind fmap option_fmap option_map].
  destruct (Sql.refused _); [done|].
  unfold loaded, Store.price_table. by destruct (String.eqb _ _).
Qed.

Lemma loaded_dump_witness :
  ∃ st,
    st = startup (Example.host [(["srv"; "schema_and_data.sql"], "dump")]) ∧
    Server.db_init_error st = None ∧
    serve_weekly_data (Example.host []) st "gold" "gold_2024_current"
    = (st, Done (get_weekly_data Example.db "gold" "gold_2024_current")).
Proof.
  destruct (loaded_dump_is_served
              (Example.host [(["srv"; "schema_and_data.sql"], "dump")]) (Example.host [])
              ["srv"; "schema_and_data.sql"] "dump" Example.db
              "2024-01-04T00:00:00" "gold" "gold_2024_current" [])
    as (Hst & Hweekly & _); try reflexivity.
  eexists. split; [reflexivity|]. split; [by rewrite Hst | exact Hweekly].
Defined.

(** ** Database statistics *)

Lemma get_database_stats_inv (h : Host.t) (st st' : Server.t) (now : string)
    (body : DatabaseStats.t) :
  get_database_stats h st now = (st', Done body) →
  ∃ conn hist cur weekly,
    get_db_connection h st = (st', Done conn) ∧
    Store.historical_prices conn = Some hist ∧
    Store.current_prices conn = Some cur ∧
    Store.weekly_aggregates conn = Some weekly ∧
    DatabaseStats.timestamp body = now ∧
    Stats.gold_historical (DatabaseStats.stats body) = metal_count "GOLD" hist ∧
    Stats.silver_historical (DatabaseStats.stats body) = metal_count "SILVER" hist ∧
    Stats.gold_current (DatabaseStats.stats body) = metal_count "GOLD" cur ∧
    Stats.silver_current (DatabaseStats.stats body) = metal_count "SILVER" cur ∧
    Stats.weekly_aggregates (DatabaseStats.stats body) = Z.of_nat (length weekly) ∧
    Stats.historical_range (DatabaseStats.stats body) =
      {| DateRange.start := Sql.sql_min_text (PriceRow.date <$> hist);
         DateRange.end_ := Sql.sql_max_text (PriceRow.date <$> hist) |} ∧
    Stats.current_range (DatabaseStats.stats body) =
      {| DateRange.start := Sql.sql_min_text (PriceRow.date <$> cur);
         DateRange.end_ := Sql.sql_max_text (PriceRow.date <$> cur) |}.
Proof.
  unfold get_database_stats.
  destruct (get_db_connection h st) as [st1 [conn|message]]; [|done].
  unfold count_metal, date_range. cbn.
  destruct (Store.historical_prices conn) as [hist|] eqn:Hh; [|done].
  destruct (Store.current_prices conn) as [cur|] eqn:Hc; [|done].
  destruct (Store.weekly_aggregates conn) as [weekly|] eqn:Hw; [|done].
  cbn. intros [= <- <-]. exists conn, hist, cur, weekly. by split_and!.
Qed.


Lemma metal_count_partition (rows : list PriceRow.t) :
  0 ≤ metal_count "GOLD" rows ∧ 0 ≤ metal_count "SILVER" rows ∧
  metal_count "GOLD" rows + metal_count "SILVER" rows ≤ Z.of_nat (length rows) ∧
  (metal_count "GOLD" rows + metal_count "SILVER" rows = Z.of_nat (length rows) ↔
   Forall (λ r, tracked (PriceRow.metal r)) rows).
Proof.
  unfold metal_count, rows_of_metal, tracked.
  induction rows as [|r rows (Hg & Hs & Hle & Hiff)]; cbn [List.filter length].
  - split_and!; try done.
  - destruct (String.eqb_spec (PriceRow.metal r) "GOLD") as [Hgold|Hgold];
      destruct (String.eqb_spec (PriceRow.metal r) "SILVER") as [Hsilver|Hsilver];
      try congruence; cbn [length]; split_and!; try lia.
    + split; [intros; constructor; [by left | apply Hiff; lia]|].
      intros [_ Hall%Hiff]%Forall_cons. lia.
    + split; [intros; constructor; [by right | apply Hiff; lia]|].
      intros [_ Hall%Hiff]%Forall_cons. lia.
    + split; [lia|]. intros [[|] _]%Forall_cons; done.
Qed.

(** X20: in a database-stats response the four price counts are the numbers
    of GOLD and of SILVER rows of the two price tables and the weekly count
    is the number of rows of [weekly_aggregates]; the two counts of a table
    never exceed its size, and they add up to it exactly when every row of
    the table is of one of the two metals. *)
Theorem stats_count_rows_by_metal (h : Host.t) (st st' : Server.t) (now : string)
    (body : DatabaseStats.t) :
  get_database_stats h st now = (st', Done body) →
  ∃ conn hist cur weekly,
    get_db_connection h st = (st', Done conn) ∧
    Store.historical_prices conn = Some hist ∧
    Store.current_prices conn = Some cur ∧
    Store.weekly_aggregates conn = Some weekly ∧
    let stats := DatabaseStats.stats body in
    Stats.gold_historical stats = metal_count "GOLD" hist ∧
    Stats.silver_historical stats = metal_count "SILVER" hist ∧
    Stats.gold_current stats = metal_count "GOLD" cur ∧
    Stats.silver_current stats = metal_count "SILVER" cur ∧
    Stats.weekly_aggregates stats = Z.of_nat (length weekly) ∧
    Stats.gold_historical stats + Stats.silver_historical stats ≤ Z.of_nat (length hist) ∧
    Stats.gold_current stats + Stats.silver_current stats ≤ Z.of_nat (length cur) ∧
    (Stats.gold_historical stats + Stats.silver_historical stats = Z.of_nat (length hist)
     ↔ Forall (λ r, tracked (PriceRow.metal r)) hist) ∧
    (Stats.gold_current stats + Stats.silver_current stats = Z.of_nat (length cur)
     ↔ Forall (λ r, tracked (PriceRow.metal r)) cur).
Proof.
  intros (conn & hist & cur & weekly & Hconn & Hh & Hc & Hw & _ &
          Hgh & Hsh & Hgc & Hsc & Hwk & _)%get_database_stats_inv.
  exists conn, hist, cur, weekly. cbn zeta. rewrite Hgh, Hsh, Hgc, Hsc.
  destruct (metal_count_partition hist) as (_ & _ & Hle1 & Hiff1).
  destruct (metal_count_partition cur) as (_ & _ & Hle2 & Hiff2).
  by split_and!.
Qed.

Lemma stats_count_witness :
  ∃ st body,
    st = startup (Example.host [(["srv"; "schema_and_data.sql"], "dump")]) ∧
    get_database_stats (Example.host []) st "2024-01-04T00:00:00" = (st, Done body) ∧
    Stats.gold_historical (DatabaseStats.stats body) = 2 ∧
    Stats.silver_historical (DatabaseStats.stats body) = 1 ∧
    Stats.gold_current (DatabaseStats.stats body) = 2 ∧
    Stats.silver_current (DatabaseStats.stats body) = 0 ∧
    Stats.weekly_aggregates (DatabaseStats.stats body) = 3.
Proof.
  assert (∃ body,
            get_database_stats (Example.host [])
              (startup (Example.host [(["srv"; "schema_and_data.sql"], "dump")]))
              "2024-01-04T00:00:00"
            = (startup (Example.host [(["srv"; "schema_and_data.sql"], "dump")]),
               Done body)) as [body Hbody]
    by (eexists; vm_compute; reflexivity).
  eexists. exists body. split; [reflexivity|]. split; [exact Hbody|].
  destruct (stats_count_rows_by_metal _ _ _ _ _ Hbody)
    as (conn & hist & cur & weekly & Hconn & Hh & Hc & Hw & Hstats).
  cbn zeta in Hstats. destruct Hstats as (-> & -> & -> & -> & -> & _).
  injection Hconn as <-.
  injection Hh as <-. injection Hc as <-. injection Hw as <-.
  by vm_compute.
Defined.

Lemma sql_min_text_spec (l : list string) :
  match Sql.sql_min_text l with
  | None => l = []
  | Some m => In m l ∧ ∀ x, In x l → String.leb m x = true
  end.
Proof.
  induction l as [|v l IH]; [done|]. cbn [Sql.sql_min_text foldr].
  change (foldr Sql.text_min None l) with (Sql.sql_min_text l).
  destruct (Sql.sql_min_text l) as [y|]; cbn [Sql.text_min].
  - destruct IH as [Hin Hmin]. destruct (String.ltb v y) eqn:Hvy.
    + split; [by left|]. intros x [<- | Hx]; [apply StringOrder.leb_refl|].
      eapply StringOrder.leb_trans; [by apply StringOrder.ltb_leb | by apply Hmin].
    + split; [by right|].
      intros x [<- | Hx]; [by apply StringOrder.not_ltb_leb | by apply Hmin].
  - subst l. split; [by left|]. intros x [<- | []]. apply StringOrder.leb_refl.
Qed.

Lemma sql_max_text_spec (l : list string) :
  match Sql.sql_max_text l with
  | None => l = []
  | Some m => In m l ∧ ∀ x, In x l → String.leb x m = true
  end.
Proof.
  induction l as [|v l IH]; [done|]. cbn [Sql.sql_max_text foldr].
  change (foldr Sql.text_max None l) with (Sql.sql_max_text l).
  destruct (Sql.sql_max_text l) as [y|]; cbn [Sql.text_max].
  - destruct IH as [Hin Hmax]. destruct (String.ltb y v) eqn:Hyv.
    + split; [by left|]. intros x [<- | Hx]; [apply StringOrder.leb_refl|].
      eapply StringOrder.leb_trans; [by apply Hmax | by apply StringOrder.ltb_leb].
    + split; [by right|].
      intros x [<- | Hx]; [by apply StringOrder.not_ltb_leb | by apply Hmax].
  - subst l. split; [by left|]. intros x [<- | []]. apply StringOrder.leb_refl.
Qed.

Lemma date_range_spans (rows : list PriceRow.t) :
  spans {| DateRange.start := Sql.sql_min_text (PriceRow.date <$> rows);
           DateRange.end_ := Sql.sql_max_text (PriceRow.date <$> rows) |} rows.
Proof.
  unfold spans. cbn [DateRange.start DateRange.end_].
  pose proof (sql_min_text_spec (PriceRow.date <$> rows)) as Hmin.
  pose proof (sql_max_text_spec (PriceRow.date <$> rows)) as Hmax.
  destruct (Sql.sql_min_text _) as [first|], (Sql.sql_max_text _) as [last|].
  - destruct Hmin as [Hf Hmin], Hmax as [Hl Hmax]. split_and!; try done.
    intros r Hr. split; [apply Hmin | apply Hmax]; by apply in_map.
  - rewrite Hmax in Hmin. by destruct Hmin.
  - rewrite Hmin in Hmax. by destruct Hmax.
  - by destruct rows.
Qed.

(** X21: the two date ranges of a database-stats response span the dates of
    their tables: for an empty table both ends are null; otherwise [start]
    and [end] are dates of rows of the table, no row is dated before
    [start], and none after [end]. *)
Theorem stats_ranges_span_the_dates (h : Host.t) (st st' : Server.t) (now : string)
    (body : DatabaseStats.t) :
  get_database_stats h st now = (st', Done body) →
  ∃ conn hist cur,
    get_db_connection h st = (st', Done conn) ∧
    Store.historical_prices conn = Some hist ∧
    Store.current_prices conn = Some cur ∧
    spans (Stats.historical_range (DatabaseStats.stats body)) hist ∧
    spans (Stats.current_range (DatabaseStats.stats body)) cur.
Proof.
  intros (conn & hist & cur & weekly & Hconn & Hh & Hc & _ & _ &
          _ & _ & _ & _ & _ & -> & ->)%get_database_stats_inv.
  exists conn, hist, cur. split_and!; try done; apply date_range_spans.
Qed.

Lemma stats_ranges_witness :
  ∃ st body,
    st = startup (Example.host [(["srv"; "schema_and_data.sql"], "dump")]) ∧
    get_database_stats (Example.host []) st "2024-01-04T00:00:00" = (st, Done body) ∧
    spans (Stats.historical_range (DatabaseStats.stats body))
      (historical_prices Example.db) ∧
    Stats.historical_range (DatabaseStats.stats body)
    = {| DateRange.start := Some "1979-01-02"; DateRange.end_ := Some "1979-01-05" |}.
Proof.
  assert (∃ body,
            get_database_stats (Example.host [])
              (startup (Example.host [(["srv"; "schema_and_data.sql"], "dump")]))
              "2024-01-04T00:00:00"
            = (startup (Example.host [(["srv"; "schema_and_data.sql"], "dump")]),
               Done body) ∧
            Stats.historical_range (DatabaseStats.stats body)
            = {| DateRange.start := Some "1979-01-02";
                 DateRange.end_ := Some "1979-01-05" |}) as (body & Hbody & Hrange)
    by (eexists; split; vm_compute; reflexivity).
  eexists. exists body. split; [reflexivity|]. split; [exact Hbody|].
  split; [|exact Hrange].
  destruct (stats_ranges_span_the_dates _ _ _ _ _ Hbody)
    as (conn & hist & cur & Hconn & Hh & Hc & Hspan & _).
  injection Hconn as <-. by injection Hh as <-.
Defined.



